(** * Trainer portal calendar: data pipeline of the My Calendar page

    A shallow embedding of the calendar data flow documented, with its
    TypeScript, in [projectTrainer-production/MY_CALENDAR_README.md]:
    booking normalisation and range filter, event-to-booking adapter,
    deduplication against events, blocked-weekday expansion, per-date
    matching and day-status resolution; and of the grid component that
    renders its days,
    [projectTrainer-production/src/components/calendar/CalendarGrid.tsx].

    JavaScript values are modelled as follows.
    - A string is a [string] of code units below 256; [<=], [>=] and [===]
      on strings are the lexicographic order and equality of code units.
    - A value that may be [null] or [undefined] is an [option].
    - A [Date] is a time value, a [Z] of milliseconds. Where only the local
      fields of a date are read (its weekday, its printed form), the date
      is given by its local time value: milliseconds since 1970-01-01T00:00
      of the local civil calendar. Where dates are compared and stepped,
      in the blocked-weekday loop, a date is its time value proper, counted
      from 1970-01-01T00:00 UTC, and a [JsDate.Zone] gives its local time,
      daylight-saving shifts included.
    - A method call on [null] raises a [TypeError]: such code returns a
      [result]. *)

From Equations Require Import Equations.
From stdpp Require Import base option list list_numbers gmap strings.
From Stdlib Require Import ZArith Lia Ascii String Sorted.
From Stdlib Require OrderedTypeEx DecimalString DecimalNat.

#[local] Open Scope string_scope.
#[local] Open Scope Z_scope.

(** ** Exceptions *)

Inductive result (A : Type) : Type :=
| Ok (a : A)
| TypeError.
Arguments Ok {A} a.
Arguments TypeError {A}.

Definition rbind {A B} (r : result A) (k : A -> result B) : result B :=
  match r with
  | Ok a => k a
  | TypeError => TypeError
  end.

Definition rmap {A B} (f : A -> B) (r : result A) : result B :=
  rbind r (fun a => Ok (f a)).

(** ** Strings *)

Module JsString.

(** [String.prototype.toLowerCase] on one code unit below 256: the
    letters A-Z and the capital letters of Latin-1 (U+00C0 to U+00DE but
    the multiplication sign U+00D7) move up by 32. *)
Definition lower_ascii (c : ascii) : ascii :=
  let n := nat_of_ascii c in
  if (((65 <=? n) && (n <=? 90))
      || ((192 <=? n) && (n <=? 222) && negb (n =? 215)))%nat%bool
  then ascii_of_nat (n + 32) else c.

Fixpoint toLowerCase (s : string) : string :=
  match s with
  | EmptyString => EmptyString
  | String c r => String (lower_ascii c) (toLowerCase r)
  end.

(** [s.split('T')[0]]: the code units before the first ['T']. *)
Fixpoint splitT0 (s : string) : string :=
  match s with
  | EmptyString => EmptyString
  | String c r => if Ascii.eqb c "T" then EmptyString else String c (splitT0 r)
  end.

(** [a <= b] and [a >= b] on strings. *)
Definition str_le (a b : string) : bool := String.leb a b.
Definition str_ge (a b : string) : bool := String.leb b a.

(** Truthiness of a string: every string but the empty one. *)
Definition truthy (s : string) : bool := negb (String.eqb s "").

(** How a template literal prints a value that may be [null]. *)
Definition show (o : option string) : string :=
  match o with
  | Some s => s
  | None => "null"
  end.

Fixpoint has_colon (s : string) : bool :=
  match s with
  | EmptyString => false
  | String c r => Ascii.eqb c ":" || has_colon r
  end.

End JsString.

(** ** Dates *)

Module JsDate.

Definition msPerDay : Z := 86400000.

(** Civil day number of a time value (days since 1970-01-01). *)
Definition dayNumber (t : Z) : Z := t / msPerDay.

(** [Date.prototype.getDay]: 0 is Sunday; 1970-01-01 was a Thursday. *)
Definition getDay (t : Z) : Z := (dayNumber t + 4) mod 7.

Definition halfDay : Z := 43200000.

(** The time zone of the engine. [offsetAt t] is the offset of local time
    from UTC at the instant [t] (LocalTZA(t, true) of ECMAScript), and
    [offsetOfLocal tl] the offset by which the local time [tl] is read
    (LocalTZA(tl, false)): for a local time that a shift of the clock
    skips or repeats, the offset before the shift. From one local day to
    the next the offset grows by twelve hours at most. *)
Record Zone : Type := mkZone {
  offsetAt : Z -> Z;
  offsetOfLocal : Z -> Z;
  zone_progress :
    forall t, offsetOfLocal (t + offsetAt t + msPerDay) - offsetAt t <= halfDay
}.

(** LocalTime(t) and UTC(tl) of ECMAScript. *)
Definition localTime (zone : Zone) (t : Z) : Z := t + offsetAt zone t.
Definition utc (zone : Zone) (tl : Z) : Z := tl - offsetOfLocal zone tl.

(** [d.setDate(d.getDate() + 1)]: the local day after, at the same local
    time of day, read back as a time value. *)
Definition nextDay (zone : Zone) (t : Z) : Z := utc zone (localTime zone t + msPerDay).

(** A zone that is always [c] ms ahead of UTC. *)
Definition fixedZone (c : Z) : Zone.
Proof.
  refine (mkZone (fun _ => c) (fun _ => c) _).
  intros t. unfold halfDay. lia.
Defined.

(** A zone whose offset goes from [before] to [after] at the instant [u].
    The local times from [u + before] to [u + after] are skipped when the
    clock is put forward, those from [u + after] to [u + before] repeated
    when it is put back: both are read with the offset [before]. *)
Definition shiftZone (u before after : Z) (H : Z.abs (after - before) <= halfDay)
    : Zone.
Proof.
  refine (mkZone (fun t => if t <? u then before else after)
                 (fun tl => if tl <? u + Z.max before after then before else after)
                 _).
  intros t. cbv beta. unfold halfDay in *.
  destruct (Z.ltb_spec t u);
    destruct (Z.ltb_spec (t + before + msPerDay) (u + Z.max before after));
    destruct (Z.ltb_spec (t + after + msPerDay) (u + Z.max before after));
    unfold msPerDay in *; lia.
Defined.

(** Day number of the proleptic Gregorian date [y]-[m]-[d]. *)
Definition daysFromCivil (y m d : Z) : Z :=
  let y' := if m <=? 2 then y - 1 else y in
  let era := y' / 400 in
  let yoe := y' - era * 400 in
  let mp := if m <=? 2 then m + 9 else m - 3 in
  let doy := (153 * mp + 2) / 5 + d - 1 in
  let doe := yoe * 365 + yoe / 4 - yoe / 100 + doy in
  era * 146097 + doe - 719468.

(** Gregorian year, month and day of a day number. *)
Definition civilFromDays (n : Z) : Z * Z * Z :=
  let z := n + 719468 in
  let era := z / 146097 in
  let doe := z - era * 146097 in
  let yoe := (doe - doe / 1460 + doe / 36524 - doe / 146096) / 365 in
  let doy := doe - (365 * yoe + yoe / 4 - yoe / 100) in
  let mp := (5 * doy + 2) / 153 in
  let d := doy - (153 * mp + 2) / 5 + 1 in
  let m := if mp <? 10 then mp + 3 else mp - 9 in
  let y := yoe + era * 400 + (if m <=? 2 then 1 else 0) in
  (y, m, d).

(** [new Date(y, m - 1, d)]: local midnight of a civil date. *)
Definition midnight (n : Z) : Z := n * msPerDay.
Definition ofCivil (y m d : Z) : Z := midnight (daysFromCivil y m d).

Definition digit (n : Z) : ascii := ascii_of_nat (48 + Z.to_nat (n mod 10)).

Definition pad2 (n : Z) : string :=
  String (digit (n / 10)) (String (digit n) EmptyString).

Definition pad4 (n : Z) : string :=
  String (digit (n / 1000)) (String (digit (n / 100)) (pad2 n)).

Definition formatCivil (c : Z * Z * Z) : string :=
  let '(y, m, d) := c in pad4 y +:+ "-" +:+ pad2 m +:+ "-" +:+ pad2 d.

Definition is_digit (c : ascii) : bool :=
  let n := nat_of_ascii c in ((48 <=? n)%nat && (n <=? 57)%nat)%bool.

Definition digit_val (c : ascii) : Z := Z.of_nat (nat_of_ascii c) - 48.

Definition daysInMonth (y m : Z) : Z :=
  if m =? 2 then
    if ((y mod 4 =? 0) && (negb (y mod 100 =? 0) || (y mod 400 =? 0)))%bool
    then 29 else 28
  else if ((m =? 4) || (m =? 6) || (m =? 9) || (m =? 11))%bool then 30 else 31.

Definition validCivil (c : Z * Z * Z) : bool :=
  let '(y, m, d) := c in
  ((0 <=? y) && (y <=? 9999) && (1 <=? m) && (m <=? 12)
   && (1 <=? d) && (d <=? daysInMonth y m))%bool.

(** Reads ten code units [YYYY-MM-DD]; [None] on any other shape. *)
Definition parseCivil (s : string) : option (Z * Z * Z) :=
  match s with
  | String y1 (String y2 (String y3 (String y4 (String s1
      (String m1 (String m2 (String s2
        (String d1 (String d2 EmptyString))))))))) =>
      if (Ascii.eqb s1 "-" && Ascii.eqb s2 "-"
          && forallb is_digit [y1; y2; y3; y4; m1; m2; d1; d2])%bool then
        Some (1000 * digit_val y1 + 100 * digit_val y2
              + 10 * digit_val y3 + digit_val y4,
              10 * digit_val m1 + digit_val m2,
              10 * digit_val d1 + digit_val d2)
      else None
  | _ => None
  end.

(** A canonical date string: [YYYY-MM-DD] naming a day of the calendar. *)
Definition canonical (s : string) : bool :=
  match parseCivil s with
  | Some c => validCivil c
  | None => false
  end.

End JsDate.

(** Modelled from the spec: [formatDate] of [src/lib/calendarUtils.ts],
    which the repository's files at hand do not hold. The blocked-weekday
    expander must yield "canonical date strings", so it prints the civil
    date of a [Date] as [YYYY-MM-DD]. *)
Definition formatDate (t : Z) : string :=
  JsDate.formatCivil (JsDate.civilFromDays (JsDate.dayNumber t)).

Arguments formatDate : simpl never.
Arguments JsDate.canonical : simpl never.

(** A raw date as the API client hands it over. *)
Inductive RawDate : Type :=
| RawString (s : string)
| RawNative (t : option Z)   (* a [Date]; [None] is the invalid date *)
| RawMissing.                (* [null] or [undefined] *)

(** Modelled from the spec: [normalizeDate] of [src/lib/calendarUtils.ts],
    which the repository's files at hand do not hold. It "returns a
    canonical YYYY-MM-DD string", must "truncate at the date boundary" a
    trailing time of day, and signals "an unparseable or missing input"
    by returning [null]. A string is read up to its first ['T']; a native
    date is printed by [formatDate]. *)
Definition normalizeDate (r : RawDate) : option string :=
  match r with
  | RawString s =>
      let d := JsString.splitT0 s in
      if JsDate.canonical d then Some d else None
  | RawNative (Some t) =>
      let d := formatDate t in
      if JsDate.canonical d then Some d else None
  | RawNative None => None
  | RawMissing => None
  end.

(** ** Records *)

(** The related [courses] object of a booking. *)
Record Courses : Type := mkCourses {
  courses_id : string;
  title : option string
}.

(** A row of [GET /api/bookings]. *)
Record ApiBooking : Type := mkApiBooking {
  raw_id : string;
  raw_course_id : string;
  raw_trainer_id : string;
  raw_requested_date : RawDate;
  raw_end_date : option string;
  raw_status : string;
  raw_request_type : option string;
  raw_courses : Courses
}.

(** A row of [GET /api/events]. *)
Record Event : Type := mkEvent {
  ev_id : string;
  courseId : string;
  trainerId : string;
  eventDate : RawDate;
  endDate : RawDate;
  ev_title : option string;
  courseType : option string;
  course_title : option string   (* [event.course?.title] *)
}.

(** The booking shape the calendar works on. *)
Record Booking : Type := mkBooking {
  id : string;
  course_id : string;
  trainer_id : string;
  requested_date : option string;
  end_date : option string;
  status : string;
  request_type : option string;
  courses : Courses
}.

(** A row of [GET /api/availability/trainer/:id]. *)
Record ApiAvailability : Type := mkApiAvailability {
  av_id : string;
  av_trainerId : string;
  av_date : string;
  av_status : string;
  startTime : option string;
  endTime : option string
}.

Record Availability : Type := mkAvailability {
  a_id : string;
  a_trainer_id : string;
  date : string;
  a_status : string;
  start_time : option string;
  end_time : option string
}.

#[global] Instance RawDate_eq_dec : EqDecision RawDate.
Proof. solve_decision. Defined.
#[global] Instance Courses_eq_dec : EqDecision Courses.
Proof. solve_decision. Defined.
#[global] Instance Booking_eq_dec : EqDecision Booking.
Proof. solve_decision. Defined.

(** ** The processing pipeline of [useCalendarData] *)

(** [Array.prototype.filter] with a callback that may throw: the first
    exception, in index order, ends the call. *)
Fixpoint filterR {A} (f : A -> result bool) (l : list A) : result (list A) :=
  match l with
  | [] => Ok []
  | x :: r =>
      rbind (f x) (fun keep =>
      rbind (filterR f r) (fun r' =>
      Ok (if keep then x :: r' else r')))
  end.

(** Step 1, the [map] callback. The spread keeps every other field. *)
Definition normalizeBooking (booking : ApiBooking) : Booking :=
  {| id := raw_id booking;
     course_id := raw_course_id booking;
     trainer_id := raw_trainer_id booking;
     requested_date := normalizeDate (raw_requested_date booking);
     end_date := raw_end_date booking;
     status := JsString.toLowerCase (raw_status booking);
     request_type := raw_request_type booking;
     courses := raw_courses booking |}.

(** Step 1, the [filter] callback: [requested_date.split] on [null] throws. *)
Definition inRange (startStr endStr : string) (booking : Booking) : result bool :=
  match requested_date booking with
  | None => TypeError
  | Some rd =>
      let dateStr := JsString.splitT0 rd in
      Ok (JsString.str_ge dateStr startStr && JsString.str_le dateStr endStr)
  end.

Definition filteredBookings (allBookings : list ApiBooking)
    (startStr endStr : string) : result (list Booking) :=
  filterR (inRange startStr endStr) (map normalizeBooking allBookings).

(** Step 2: [a || b] picks [b] when [a] is missing or the empty string. *)
Definition orElse (a b : option string) : option string :=
  match a with
  | Some s => if JsString.truthy s then Some s else b
  | None => b
  end.

Definition eventToBooking (event : Event) : Booking :=
  {| id := ev_id event;
     course_id := courseId event;
     trainer_id := trainerId event;
     requested_date := normalizeDate (eventDate event);
     end_date := normalizeDate (endDate event);
     status := "booked";
     request_type :=
       Some (if decide (courseType event = Some "PUBLIC") then "public" else "inhouse");
     courses := {| courses_id := courseId event;
                   title := orElse (ev_title event) (course_title event) |} |}.

Definition eventBookings (allEvents : list Event) : list Booking :=
  map eventToBooking allEvents.

(** Step 3: the template literal [`${course_id}:${requested_date}`]. *)
Definition identifier (b : Booking) : string :=
  course_id b +:+ ":" +:+ JsString.show (requested_date b).

(** The [forEach] that fills the [Set]. *)
Definition eventIdentifiers (eventBookings : list Booking) : gset string :=
  foldl (fun ids eventBooking => {[ identifier eventBooking ]} ∪ ids) ∅ eventBookings.

(** The [filter] callback of the deduplication. *)
Definition keepBooking (ids : gset string) (booking : Booking) : bool :=
  let bookingStatus := JsString.toLowerCase (status booking) in
  if negb (String.eqb bookingStatus "confirmed") then true
  else if decide (identifier booking ∈ ids) then false
  else true.

Definition deduplicatedBookings (filteredBookings eventBookings : list Booking)
    : list Booking :=
  List.filter (keepBooking (eventIdentifiers eventBookings)) filteredBookings.

(** Step 4. *)
Definition allCalendarBookings (filteredBookings eventBookings : list Booking)
    : list Booking :=
  deduplicatedBookings filteredBookings eventBookings ++ eventBookings.

(** Step 5. *)
Definition normalizeAvailability (item : ApiAvailability) : Availability :=
  {| a_id := av_id item;
     a_trainer_id := av_trainerId item;
     date := JsString.splitT0 (av_date item);
     a_status := JsString.toLowerCase (av_status item);
     start_time := startTime item;
     end_time := endTime item |}.


(** Step 6: [blockedWeekdays.includes(n)]. *)
Definition includes (l : list Z) (n : Z) : bool := existsb (Z.eqb n) l.

(** The [while] loop; [acc] is [expandedBlockedDates] so far. The dates
    are compared by their time values; [getDay] and [formatDate] read the
    local time of [current]. *)
Equations? expandLoop (zone : JsDate.Zone) (blockedWeekdays : list Z)
    (endDate current : Z) (acc : list string) : list string
    by wf (Z.to_nat ((endDate - current) / JsDate.halfDay + 1)) lt :=
  expandLoop zone blockedWeekdays endDate current acc
    with Z_le_gt_dec current endDate => {
    | left _ =>
        expandLoop zone blockedWeekdays endDate (JsDate.nextDay zone current)
          (if includes blockedWeekdays (JsDate.getDay (JsDate.localTime zone current))
           then acc ++ [formatDate (JsDate.localTime zone current)] else acc);
    | right _ => acc
  }.
Proof.
  pose proof (JsDate.zone_progress zone current) as Hp.
  unfold JsDate.nextDay, JsDate.utc, JsDate.localTime, JsDate.halfDay,
    JsDate.msPerDay in *.
  match goal with
  | H : ?c <= ?e |- context [(?e - ?n) / _] =>
      assert (Hle : (e - n) / 43200000 <= (e - c + (-1) * 43200000) / 43200000)
        by (apply Z.div_le_mono; lia);
      assert (0 <= (e - c) / 43200000) by (apply Z.div_pos; lia)
  end.
  rewrite Z.div_add in Hle by lia. lia.
Qed.

Definition expandedBlockedDates (zone : JsDate.Zone) (startDate endDate : Z)
    (blockedWeekdays : list Z) : list string :=
  expandLoop zone blockedWeekdays endDate startDate [].

(** ** Calendar display *)

(** The [filter] callback of [getBookingsForDate]. *)
Definition overlaps (dateString : string) (booking : Booking) : result bool :=
  match requested_date booking with
  | None => TypeError
  | Some rd =>
      let bookingStart := JsString.splitT0 rd in
      match JsString.splitT0 <$> end_date booking with
      | Some bookingEnd =>
          if JsString.truthy bookingEnd then
            Ok (JsString.str_ge dateString bookingStart
                && JsString.str_le dateString bookingEnd)
          else Ok (String.eqb bookingStart dateString)
      | None => Ok (String.eqb bookingStart dateString)
      end
  end.

Definition getBookingsForDate (bookings : list Booking) (dateString : string)
    : result (list Booking) :=
  filterR (overlaps dateString) bookings.

Inductive DayStatus : Type :=
| Blocked
| Booked
| Tentative
| Available
| NotAvailable.

Definition isBookedStatus (b : Booking) : bool :=
  String.eqb (status b) "booked" || String.eqb (status b) "confirmed".

Definition isTentativeStatus (b : Booking) : bool :=
  String.eqb (status b) "approved" || String.eqb (status b) "tentative".

(** Modelled from the spec: [resolveDayStatus] of
    [src/lib/calendarUtils.ts], of which the repository's files at hand
    hold the priority table only. It resolves "by strict descending
    precedence": blocked "regardless of bookings or availability"; else
    booked "if any overlapping booking has status booked or confirmed";
    else tentative "if any overlapping booking has status approved or
    tentative"; else available "if the availability record exists and its
    status is available"; else not available. *)
Definition resolveDayStatus (isBlocked : bool) (bookings : list Booking)
    (availability : option Availability) : DayStatus :=
  if isBlocked then Blocked
  else if existsb isBookedStatus bookings then Booked
  else if existsb isTentativeStatus bookings then Tentative
  else match availability with
       | Some a => if String.eqb (a_status a) "available" then Available
                   else NotAvailable
       | None => NotAvailable
       end.

(** ** Objects, arrays and sets in the JavaScript heap

    The record-level functions above say what is computed. What is
    allocated and what is written is said here: objects are finite maps
    from property names to values, arrays hold values, and every object
    literal, [map], [filter] and [new Set] allocates a fresh cell. *)

Module Heap.

Abbreviation loc := positive (only parsing).

Inductive val : Type :=
| VUndef
| VNull
| VStr (s : string)
| VRef (l : loc).

Inductive cell : Type :=
| CObj (fields : gmap string val)
| CArr (elems : list val)
| CSet (members : gset string).

Abbreviation heap := (gmap positive cell) (only parsing).

(** State and exceptions. *)
Definition M (A : Type) : Type := heap -> result (A * heap).

#[global] Instance M_ret : MRet M := fun A a h => Ok (a, h).
#[global] Instance M_bind : MBind M := fun A B k m h =>
  match m h with
  | Ok (a, h') => k a h'
  | TypeError => TypeError
  end.

Definition throw {A} : M A := fun _ => TypeError.

Definition alloc (c : cell) : M loc := fun h =>
  let l := fresh (dom h) in Ok (l, <[l := c]> h).

Definition readObj (l : loc) : M (gmap string val) := fun h =>
  match h !! l with
  | Some (CObj o) => Ok (o, h)
  | _ => TypeError
  end.

Definition readArr (l : loc) : M (list val) := fun h =>
  match h !! l with
  | Some (CArr a) => Ok (a, h)
  | _ => TypeError
  end.

(** [set.add(s)] writes the set's cell; [set.has(s)] reads it. *)
Definition setAdd (l : loc) (s : string) : M unit := fun h =>
  match h !! l with
  | Some (CSet m) => Ok (tt, <[l := CSet ({[ s ]} ∪ m)]> h)
  | _ => TypeError
  end.

Definition setHas (l : loc) (s : string) : M bool := fun h =>
  match h !! l with
  | Some (CSet m) => Ok (bool_decide (s ∈ m), h)
  | _ => TypeError
  end.

(** Property access [o.k]; a missing property reads [undefined]. *)
Definition get (o : gmap string val) (k : string) : val := default VUndef (o !! k).

(** The properties of the object an array element refers to. *)
Definition deref (v : val) : M (gmap string val) :=
  match v with
  | VRef l => readObj l
  | _ => throw
  end.

(** The receiver of a string method. *)
Definition asString (v : val) : M string :=
  match v with
  | VStr s => mret s
  | _ => throw
  end.

Definition ofOption (o : option string) : val :=
  match o with
  | Some s => VStr s
  | None => VNull
  end.

Definition toOption (v : val) : option string :=
  match v with
  | VStr s => Some s
  | _ => None
  end.

Definition toRaw (v : val) : RawDate :=
  match v with
  | VStr s => RawString s
  | _ => RawMissing
  end.

Definition normalizeDateV (v : val) : val := ofOption (normalizeDate (toRaw v)).

Definition truthyV (v : val) : bool :=
  match v with
  | VStr s => JsString.truthy s
  | VRef _ => true
  | VUndef | VNull => false
  end.

Definition orElseV (a b : val) : val := if truthyV a then a else b.

(** [a === b]. *)
Definition strictEq (a b : val) : bool :=
  match a, b with
  | VUndef, VUndef | VNull, VNull => true
  | VStr s, VStr t => String.eqb s t
  | VRef l, VRef m => Pos.eqb l m
  | _, _ => false
  end.

(** A value inside a template literal. *)
Definition showV (v : val) : string :=
  match v with
  | VStr s => s
  | VNull => "null"
  | VUndef => "undefined"
  | VRef _ => "[object Object]"
  end.

Fixpoint forEach {A} (f : A -> M unit) (l : list A) : M unit :=
  match l with
  | [] => mret tt
  | x :: r => f x ;; forEach f r
  end.

Fixpoint filterM {A} (f : A -> M bool) (l : list A) : M (list A) :=
  match l with
  | [] => mret []
  | x :: r =>
      keep ← f x;
      r' ← filterM f r;
      mret (if keep : bool then x :: r' else r')
  end.

(** Step 2, the [map] callback, on the heap: two object literals. *)
(** [course?.title]: [undefined] when [course] is no object. *)
Definition optTitle (course : val) : M val :=
  match course with
  | VRef c => c' ← readObj c; mret (get c' "title")
  | _ => mret VUndef
  end.

Definition adaptEvent (event : loc) : M loc :=
  e ← readObj event;
  courseTitle ← optTitle (get e "course");
  courses ← alloc (CObj (list_to_map
    [("id", get e "courseId");
     ("title", orElseV (get e "title") courseTitle)]));
  alloc (CObj (list_to_map
    [("id", get e "id");
     ("course_id", get e "courseId");
     ("trainer_id", get e "trainerId");
     ("requested_date", normalizeDateV (get e "eventDate"));
     ("end_date", normalizeDateV (get e "endDate"));
     ("status", VStr "booked");
     ("request_type",
       VStr (if strictEq (get e "courseType") (VStr "PUBLIC")
             then "public" else "inhouse"));
     ("courses", VRef courses)])).

(** Step 3 on the heap. *)
Definition identifierOf (o : gmap string val) : string :=
  showV (get o "course_id") +:+ ":" +:+ showV (get o "requested_date").

Definition addIdentifier (eventIdentifiers : loc) (eventBooking : val) : M unit :=
  o ← deref eventBooking;
  setAdd eventIdentifiers (identifierOf o).

Definition keepBookingH (eventIdentifiers : loc) (booking : val) : M bool :=
  o ← deref booking;
  st ← asString (get o "status");
  let bookingStatus := JsString.toLowerCase st in
  if negb (String.eqb bookingStatus "confirmed") then mret true
  else
    has ← setHas eventIdentifiers (identifierOf o);
    mret (if has : bool then false else true).

Definition deduplicate (filteredBookings eventBookings : loc) : M loc :=
  eventIdentifiers ← alloc (CSet ∅);
  evs ← readArr eventBookings;
  forEach (addIdentifier eventIdentifiers) evs;;
  fbs ← readArr filteredBookings;
  kept ← filterM (keepBookingH eventIdentifiers) fbs;
  alloc (CArr kept).

(** Step 4 on the heap: the spread into a new array literal. *)
Definition combine (deduplicatedBookings eventBookings : loc) : M loc :=
  a ← readArr deduplicatedBookings;
  b ← readArr eventBookings;
  alloc (CArr (a ++ b)).

(** Reading a booking object back as a record. *)
Definition decodeCourses (h : heap) (v : val) : option Courses :=
  match v with
  | VRef l =>
      match h !! l with
      | Some (CObj o) =>
          match get o "id" with
          | VStr i => Some {| courses_id := i; title := toOption (get o "title") |}
          | _ => None
          end
      | _ => None
      end
  | _ => None
  end.

Definition decodeDate (v : val) : option (option string) :=
  match v with
  | VStr s => Some (Some s)
  | VNull => Some None
  | _ => None
  end.

Definition decodeBooking (h : heap) (v : val) : option Booking :=
  match v with
  | VRef l =>
      match h !! l with
      | Some (CObj o) =>
          match get o "id", get o "course_id", get o "trainer_id",
                decodeDate (get o "requested_date"), get o "status",
                decodeCourses h (get o "courses") with
          | VStr i, VStr c, VStr t, Some rd, VStr st, Some cs =>
              Some {| id := i; course_id := c; trainer_id := t;
                      requested_date := rd;
                      end_date := toOption (get o "end_date");
                      status := st;
                      request_type := toOption (get o "request_type");
                      courses := cs |}
          | _, _, _, _, _, _ => None
          end
      | _ => None
      end
  | _ => None
  end.

Definition decodeBookings (h : heap) (l : loc) : option (list Booking) :=
  match h !! l with
  | Some (CArr a) => mapM (decodeBooking h) a
  | _ => None
  end.

(** Reading an event object back as a record. *)
Definition decodeOptStr (v : val) : option (option string) :=
  match v with
  | VStr s => Some (Some s)
  | VNull | VUndef => Some None
  | VRef _ => None
  end.

(** [event.course?.title], with [event.course] an object or absent. *)
Definition decodeCourseTitle (h : heap) (v : val) : option (option string) :=
  match v with
  | VRef lc =>
      match h !! lc with
      | Some (CObj c') => decodeOptStr (get c' "title")
      | _ => None
      end
  | VUndef | VNull => Some None
  | VStr _ => None
  end.

Definition decodeEvent (h : heap) (l : loc) : option Event :=
  match h !! l with
  | Some (CObj e) =>
      match get e "id", get e "courseId", get e "trainerId",
            decodeOptStr (get e "title"),
            decodeCourseTitle h (get e "course") with
      | VStr i, VStr c, VStr t, Some ti, Some ct =>
          Some {| ev_id := i; courseId := c; trainerId := t;
                  eventDate := toRaw (get e "eventDate");
                  endDate := toRaw (get e "endDate");
                  ev_title := ti;
                  courseType := toOption (get e "courseType");
                  course_title := ct |}
      | _, _, _, _, _ => None
      end
  | _ => None
  end.

End Heap.

(** * Vocabulary of the properties *)

(** ** Day status *)

Definition bookedLike (b : Booking) : Prop :=
  status b = "booked" \/ status b = "confirmed".

Definition tentativeLike (b : Booking) : Prop :=
  status b = "approved" \/ status b = "tentative".

Definition availableRecord (availability : option Availability) : Prop :=
  exists a, availability = Some a /\ a_status a = "available".

Definition freeOfBookings (bookings : list Booking) : Prop :=
  Forall (fun b => ~ bookedLike b /\ ~ tentativeLike b) bookings.

(** ** Per-date matching and the range filter *)

(** The start of a booking, and its end when it has one: the date parts
    the matcher compares. An end date that is missing, or whose date part
    is the empty string, is no end date. *)
Definition startOf (b : Booking) : option string :=
  JsString.splitT0 <$> requested_date b.

Definition endOf (b : Booking) : option string :=
  match JsString.splitT0 <$> end_date b with
  | Some e => if JsString.truthy e then Some e else None
  | None => None
  end.

Definition overlapsDate (dateString : string) (b : Booking) : bool :=
  match startOf b, endOf b with
  | Some s, Some e => String.leb s dateString && String.leb dateString e
  | Some s, None => String.eqb s dateString
  | None, _ => false
  end.

Definition startInRange (startStr endStr : string) (b : Booking) : bool :=
  match requested_date b with
  | Some d => String.leb startStr d && String.leb d endStr
  | None => false
  end.

Definition eraseRawEnd (b : ApiBooking) : ApiBooking :=
  {| raw_id := raw_id b; raw_course_id := raw_course_id b;
     raw_trainer_id := raw_trainer_id b;
     raw_requested_date := raw_requested_date b;
     raw_end_date := None;
     raw_status := raw_status b;
     raw_request_type := raw_request_type b;
     raw_courses := raw_courses b |}.

Definition eraseEnd (b : Booking) : Booking :=
  {| id := id b; course_id := course_id b; trainer_id := trainer_id b;
     requested_date := requested_date b; end_date := None;
     status := status b; request_type := request_type b;
     courses := courses b |}.

(** ** Deduplication *)

Definition isConfirmed (b : Booking) : Prop :=
  JsString.toLowerCase (status b) = "confirmed".

(** The rule in the words of the specification: a raw booking is
    suppressed when its status is confirmed, whatever the letter case,
    and some event-derived booking has its identifier. *)
Definition suppressed (eventBookings : list Booking) (b : Booking) : Prop :=
  isConfirmed b /\ Exists (fun e => identifier e = identifier b) eventBookings.

#[global] Instance suppressed_dec evs b : Decision (suppressed evs b).
Proof. unfold suppressed, isConfirmed. apply _. Defined.

Definition dedupSpec (raw eventBookings : list Booking) : list Booking :=
  List.filter (fun b => bool_decide (~ suppressed eventBookings b)) raw
  ++ eventBookings.

(** A date as [normalizeDate] leaves it: canonical, or [null]. *)
Definition normalized (d : option string) : Prop :=
  match d with
  | Some s => JsDate.canonical s = true
  | None => True
  end.

(** ** Blocked weekdays *)

(** The time values [current] takes in the loop, in order. *)
Equations? visited (zone : JsDate.Zone) (endDate current : Z) : list Z
    by wf (Z.to_nat ((endDate - current) / JsDate.halfDay + 1)) lt :=
  visited zone endDate current with Z_le_gt_dec current endDate => {
    | left _ => current :: visited zone endDate (JsDate.nextDay zone current);
    | right _ => []
  }.
Proof.
  pose proof (JsDate.zone_progress zone current) as Hp.
  unfold JsDate.nextDay, JsDate.utc, JsDate.localTime, JsDate.halfDay,
    JsDate.msPerDay in *.
  match goal with
  | H : ?c <= ?e |- context [(?e - ?n) / _] =>
      assert (Hle : (e - n) / 43200000 <= (e - c + (-1) * 43200000) / 43200000)
        by (apply Z.div_le_mono; lia);
      assert (0 <= (e - c) / 43200000) by (apply Z.div_pos; lia)
  end.
  rewrite Z.div_add in Hle by lia. lia.
Qed.

(** [n] time values from [t] on, each 24 hours after the one before. *)
Fixpoint datesFrom (t : Z) (n : nat) : list Z :=
  match n with
  | O => []
  | S n => t :: datesFrom (t + JsDate.msPerDay) n
  end.

Definition loopCount (startDate endDate : Z) : nat :=
  Z.to_nat ((endDate - startDate) / JsDate.msPerDay + 1).

(** The zone is [c] ms ahead of UTC all through the loop from [startDate]
    to [endDate]: at every instant from the start to a day after the end,
    and for the local times of these instants. *)
Definition steady (zone : JsDate.Zone) (c startDate endDate : Z) : Prop :=
  forall t, startDate <= t <= endDate + JsDate.msPerDay ->
    JsDate.offsetAt zone t = c /\ JsDate.offsetOfLocal zone (t + c) = c.

(** The instant at which a zone [c] ms ahead of UTC shows the local time
    [tl]. *)
Definition instantOf (c tl : Z) : Z := tl - c.

(** America/Havana in the spring of 2024: daylight-saving time starts on
    10 March at 00:00 local time (05:00 UTC), when the clock is put
    forward to 01:00; the offset goes from -5 to -4 hours. *)
Definition havana : JsDate.Zone :=
  JsDate.shiftZone (JsDate.ofCivil 2024 3 10 + 18000000) (-18000000) (-14400000)
    ltac:(unfold JsDate.halfDay; lia).

Definition isBlockedDate (blockedWeekdays : list Z) (t : Z) : bool :=
  includes blockedWeekdays (JsDate.getDay t).

Definition weekdayOf (d : Z) : Z := (d + 4) mod 7.

Definition formatDay (d : Z) : string :=
  JsDate.formatCivil (JsDate.civilFromDays d).

(** The day numbers from [s] to [e], both included, whose weekday is in
    the set, in ascending order. *)
Definition blockedDays (s e : Z) (blockedWeekdays : list Z) : list Z :=
  List.filter (fun d => includes blockedWeekdays (weekdayOf d)) (seqZ s (e - s + 1)).

(** ** The civil calendar *)

(** The civil date of a day within its 400-year era: year of the era
    (0 to 400), month and day, from the day of the era. *)
Definition civilOfDoe (doe : Z) : Z * Z * Z :=
  let yoe := (doe - doe / 1460 + doe / 36524 - doe / 146096) / 365 in
  let doy := doe - (365 * yoe + yoe / 4 - yoe / 100) in
  let mp := (5 * doy + 2) / 153 in
  let d := doy - (153 * mp + 2) / 5 + 1 in
  let m := if mp <? 10 then mp + 3 else mp - 9 in
  (yoe + (if m <=? 2 then 1 else 0), m, d).

(** What is checked of each day of an era; an era starts on 1 March. *)
Definition eraCheck (doe : Z) : bool :=
  let '(y0, m, d) := civilOfDoe doe in
  ((0 <=? y0) && (y0 <=? 400) && (1 <=? m) && (m <=? 12) && (1 <=? d)
   && (d <=? JsDate.daysInMonth y0 m)
   && (if doe <=? 146036 then y0 <=? 399 else y0 =? 400))%bool.

Fixpoint checkFrom (n : nat) (doe : Z) : bool :=
  match n with
  | O => true
  | S n => eraCheck doe && checkFrom n (doe + 1)
  end.

(** Day numbers of 0000-01-01 and 9999-12-31. *)
Definition firstDay : Z := -719528.
Definition lastDay : Z := 2932896.

(** ** The heap *)

Import Heap.

Ltac run_heap :=
  unfold mbind, M_bind, mret, M_ret, readObj, readArr, throw.

Ltac fold_get e :=
  repeat match goal with
         | |- context [default VUndef (e !! ?k)] =>
             change (default VUndef (e !! k)) with (get e k)
         end.

(** The array [filter] returns: the elements whose bookings are kept. *)
Fixpoint keptValues (ids : gset string) (vs : list val) (bs : list Booking)
    : list val :=
  match vs, bs with
  | v :: vs, b :: bs =>
      if keepBooking ids b then v :: keptValues ids vs bs
      else keptValues ids vs bs
  | _, _ => []
  end.

(** ** Sample data *)

Definition sampleBooking (st : string) (rd : option string) (ed : option string)
    : Booking :=
  {| id := "b1"; course_id := "c1"; trainer_id := "t1";
     requested_date := rd; end_date := ed; status := st;
     request_type := None;
     courses := {| courses_id := "c1"; title := Some "Course" |} |}.

Definition sampleAvailability (st : string) : ApiAvailability :=
  {| av_id := "a1"; av_trainerId := "t1"; av_date := "2024-01-10T00:00:00.000Z";
     av_status := st; startTime := None; endTime := None |}.

Definition sampleApiBooking (rd : RawDate) (ed : option string) (st : string)
    : ApiBooking :=
  {| raw_id := "b1"; raw_course_id := "c1"; raw_trainer_id := "t1";
     raw_requested_date := rd; raw_end_date := ed; raw_status := st;
     raw_request_type := None;
     raw_courses := {| courses_id := "c1"; title := Some "Course" |} |}.

Definition sampleEvent : Event :=
  {| ev_id := "e1"; courseId := "c1"; trainerId := "t1";
     eventDate := RawString "2024-01-10T09:00:00.000Z"; endDate := RawMissing;
     ev_title := Some ""; courseType := Some "PUBLIC";
     course_title := Some "Safety" |}.

Definition unparseableEvent : Event :=
  {| ev_id := "e1"; courseId := "c1"; trainerId := "t1";
     eventDate := RawString "to be announced"; endDate := RawMissing;
     ev_title := Some "Safety"; courseType := None; course_title := None |}.

Definition sampleStored (i rd st : string) : Booking :=
  {| id := i; course_id := "c1"; trainer_id := "t1";
     requested_date := Some rd; end_date := None; status := st;
     request_type := None;
     courses := {| courses_id := "c1"; title := Some "Safety" |} |}.

(** A stored booking of another course. *)
Definition sampleOtherCourse (i rd st : string) : Booking :=
  {| id := i; course_id := "c9"; trainer_id := "t1";
     requested_date := Some rd; end_date := None; status := st;
     request_type := None;
     courses := {| courses_id := "c9"; title := Some "First aid" |} |}.

(** A small heap: a course, an event of it, three booking objects (one
    confirmed, for the event's course and day; one event-derived) and the
    two input arrays of the deduplication. *)
Definition bookingObject (i c rd st : string) (cs : loc) : cell :=
  CObj (list_to_map
    [("id", VStr i); ("course_id", VStr c); ("trainer_id", VStr "t1");
     ("requested_date", VStr rd); ("end_date", VNull); ("status", VStr st);
     ("courses", VRef cs)]).

Definition sampleHeap : heap :=
  list_to_map
    [(1%positive, CObj (list_to_map [("id", VStr "c1"); ("title", VStr "Safety")]));
     (2%positive, CObj (list_to_map
        [("id", VStr "e1"); ("courseId", VStr "c1"); ("trainerId", VStr "t1");
         ("eventDate", VStr "2024-01-10T09:00:00.000Z"); ("endDate", VNull);
         ("title", VStr ""); ("courseType", VStr "PUBLIC");
         ("course", VRef 1%positive)]));
     (3%positive, bookingObject "b1" "c1" "2024-01-10" "confirmed" 1%positive);
     (4%positive, bookingObject "b2" "c1" "2024-01-11" "approved" 1%positive);
     (5%positive, bookingObject "e1" "c1" "2024-01-10" "booked" 1%positive);
     (6%positive, CArr [VRef 3%positive; VRef 4%positive]);
     (7%positive, CArr [VRef 5%positive])].

(** * Further code: the pipeline as a whole and its callers *)

(** ** The processing pipeline, steps 1 to 4 in sequence *)

Definition calendarBookings (allBookings : list ApiBooking) (allEvents : list Event)
    (startStr endStr : string) : result (list Booking) :=
  rbind (filteredBookings allBookings startStr endStr) (fun filtered =>
  Ok (allCalendarBookings filtered (eventBookings allEvents))).

(** ** Rows with or without a status *)

(** A row of the API as it may arrive: [row_status] is [None] when the
    [status] property of the row is no string (missing, or [null]). *)
Record ApiRow : Type := mkApiRow {
  row_id : string;
  row_course_id : string;
  row_trainer_id : string;
  row_requested_date : RawDate;
  row_end_date : option string;
  row_status : option string;
  row_request_type : option string;
  row_courses : Courses
}.

(** The row as an [ApiBooking], when it has a status. *)
Definition typedRow (row : ApiRow) : option ApiBooking :=
  match row_status row with
  | Some st =>
      Some {| raw_id := row_id row; raw_course_id := row_course_id row;
              raw_trainer_id := row_trainer_id row;
              raw_requested_date := row_requested_date row;
              raw_end_date := row_end_date row; raw_status := st;
              raw_request_type := row_request_type row;
              raw_courses := row_courses row |}
  | None => None
  end.

(** Step 1, the [map] callback on such a row:
    [booking.status.toLowerCase()] throws when the status is no string. *)
Definition normalizeRow (booking : ApiRow) : result Booking :=
  let requested := normalizeDate (row_requested_date booking) in
  match row_status booking with
  | None => TypeError
  | Some st =>
      Ok {| id := row_id booking;
            course_id := row_course_id booking;
            trainer_id := row_trainer_id booking;
            requested_date := requested;
            end_date := row_end_date booking;
            status := JsString.toLowerCase st;
            request_type := row_request_type booking;
            courses := row_courses booking |}
  end.

(** [Array.prototype.map] with a callback that may throw: the first
    exception, in index order, ends the call. *)
Fixpoint mapR {A B} (f : A -> result B) (l : list A) : result (list B) :=
  match l with
  | [] => Ok []
  | x :: r =>
      rbind (f x) (fun y =>
      rbind (mapR f r) (fun r' =>
      Ok (y :: r')))
  end.

(** Step 1 on such rows: the [map] runs to its end before the [filter]
    starts. *)
Definition filteredRows (allBookings : list ApiRow) (startStr endStr : string)
    : result (list Booking) :=
  rbind (mapR normalizeRow allBookings) (filterR (inRange startStr endStr)).

(** Steps 1 to 4 on such rows. *)
Definition calendarRows (allBookings : list ApiRow) (allEvents : list Event)
    (startStr endStr : string) : result (list Booking) :=
  rbind (filteredRows allBookings startStr endStr) (fun filtered =>
  Ok (allCalendarBookings filtered (eventBookings allEvents))).

(** What makes step 1 throw on a row. *)
Definition unusableRow (row : ApiRow) : Prop :=
  row_status row = None \/ normalizeDate (row_requested_date row) = None.

(** A sample row, with or without a status. *)
Definition sampleApiRow (rd : RawDate) (st : option string) : ApiRow :=
  {| row_id := "b1"; row_course_id := "c1"; row_trainer_id := "t1";
     row_requested_date := rd; row_end_date := None; row_status := st;
     row_request_type := None;
     row_courses := {| courses_id := "c1"; title := Some "Course" |} |}.

(** What step 1 leaves of a booking: a canonical start date inside the
    range and a lower-case status. *)
Definition filteredShape (startStr endStr : string) (b : Booking) : Prop :=
  exists d, requested_date b = Some d
    /\ JsDate.canonical d = true
    /\ String.leb startStr d = true /\ String.leb d endStr = true
    /\ JsString.toLowerCase (status b) = status b.

(** The end of an event-derived booking does not precede the date. *)
Definition endsNotBefore (dateString : string) (b : Booking) : Prop :=
  match end_date b with
  | Some e => String.leb dateString e = true
  | None => True
  end.



(** ** Dates as numbers *)

(** Year, month and day as one number, [yyyymmdd]. *)
Definition dateKey (c : Z * Z * Z) : Z :=
  let '(y, m, d) := c in y * 10000 + m * 100 + d.

(** The order of the calendar on year, month and day. *)
Definition civilBefore (c1 c2 : Z * Z * Z) : Prop :=
  let '(y1, m1, d1) := c1 in
  let '(y2, m2, d2) := c2 in
  y1 < y2 \/ (y1 = y2 /\ (m1 < m2 \/ (m1 = m2 /\ d1 < d2))).

(** What is checked of each day of an era but the last: the next day
    has the greater [yyyymmdd]. *)
Fixpoint orderedFrom (n : nat) (doe : Z) (key : Z) : bool :=
  match n with
  | O => true
  | S n =>
      let next := dateKey (civilOfDoe (doe + 1)) in
      (key <? next) && orderedFrom n (doe + 1) next
  end.


(** ** Steps 2 to 4 on the heap *)

(** [Array.prototype.map] with a callback that allocates and may throw. *)
Fixpoint mapH {A B} (f : A -> M B) (l : list A) : M (list B) :=
  match l with
  | [] => mret []
  | x :: r =>
      y ← f x;
      r' ← mapH f r;
      mret (y :: r')
  end.

(** The two object literals of the [map] callback of step 2, from the
    properties of the event. *)
Definition adaptFields (e : gmap string val) : M loc :=
  courseTitle ← optTitle (get e "course");
  courses ← alloc (CObj (list_to_map
    [("id", get e "courseId");
     ("title", orElseV (get e "title") courseTitle)]));
  alloc (CObj (list_to_map
    [("id", get e "id");
     ("course_id", get e "courseId");
     ("trainer_id", get e "trainerId");
     ("requested_date", normalizeDateV (get e "eventDate"));
     ("end_date", normalizeDateV (get e "endDate"));
     ("status", VStr "booked");
     ("request_type",
       VStr (if strictEq (get e "courseType") (VStr "PUBLIC")
             then "public" else "inhouse"));
     ("courses", VRef courses)])).

(** The callback on an element of the array: [event.id] throws on [null]
    and [undefined]; a string has none of the properties read. *)
Definition adaptElement (event : val) : M val :=
  match event with
  | VRef l => lb ← adaptEvent l; mret (VRef lb)
  | VStr _ => lb ← adaptFields ∅; mret (VRef lb)
  | VUndef | VNull => throw
  end.

(** [allEvents.map(event => ({ ... }))]. *)
Definition eventBookingsH (allEvents : loc) : M loc :=
  evs ← readArr allEvents;
  bs ← mapH adaptElement evs;
  alloc (CArr bs).

(** Steps 2, 3 and 4 in sequence. *)
Definition calendarH (filteredBookings allEvents : loc) : M loc :=
  eventBookings ← eventBookingsH allEvents;
  deduplicatedBookings ← deduplicate filteredBookings eventBookings;
  combine deduplicatedBookings eventBookings.

(** Reading an array of event objects back as records. *)
Definition decodeEventV (h : heap) (v : val) : option Event :=
  match v with
  | VRef l => decodeEvent h l
  | _ => None
  end.

Definition decodeEvents (h : heap) (l : loc) : option (list Event) :=
  match h !! l with
  | Some (CArr a) => mapM (decodeEventV h) a
  | _ => None
  end.

(** The objects an array element can be reached by. *)
Definition refOf (v : val) : option loc :=
  match v with
  | VRef l => Some l
  | _ => None
  end.

(** The sample heap with the array of its one event. *)
Definition sampleEventsHeap : heap :=
  <[8%positive := CArr [VRef 2%positive]]> sampleHeap.

(** ** Step 1 on the heap *)

(** The [map] callback: the spread copies the properties of the row into
    a new object, in which the two properties that follow replace the
    row's. *)
Definition normalizeBookingH (booking : val) : M val :=
  o ← deref booking;
  st ← asString (get o "status");
  l ← alloc (CObj (<["status" := VStr (JsString.toLowerCase st)]>
                    (<["requested_date" := normalizeDateV (get o "requested_date")]>
                       o)));
  mret (VRef l).

(** The [filter] callback. *)
Definition inRangeH (startStr endStr : string) (booking : val) : M bool :=
  o ← deref booking;
  rd ← asString (get o "requested_date");
  let dateStr := JsString.splitT0 rd in
  mret (JsString.str_ge dateStr startStr && JsString.str_le dateStr endStr).

(** [allBookings.map(...).filter(...)]: [map] and [filter] each return a
    new array. *)
Definition filteredBookingsH (allBookings : loc) (startStr endStr : string)
    : M loc :=
  rows ← readArr allBookings;
  normalised ← mapH normalizeBookingH rows;
  mapped ← alloc (CArr normalised);
  bs ← readArr mapped;
  kept ← filterM (inRangeH startStr endStr) bs;
  alloc (CArr kept).

(** Steps 1 to 4 in sequence. *)
Definition calendarBookingsH (allBookings allEvents : loc)
    (startStr endStr : string) : M loc :=
  filtered ← filteredBookingsH allBookings startStr endStr;
  calendarH filtered allEvents.

(** Reading a row of the API back as a record. *)
Definition decodeRow (h : heap) (v : val) : option ApiBooking :=
  match v with
  | VRef l =>
      match h !! l with
      | Some (CObj o) =>
          match get o "id", get o "course_id", get o "trainer_id",
                get o "status", decodeCourses h (get o "courses") with
          | VStr i, VStr c, VStr t, VStr st, Some cs =>
              Some {| raw_id := i; raw_course_id := c; raw_trainer_id := t;
                      raw_requested_date := toRaw (get o "requested_date");
                      raw_end_date := toOption (get o "end_date");
                      raw_status := st;
                      raw_request_type := toOption (get o "request_type");
                      raw_courses := cs |}
          | _, _, _, _, _ => None
          end
      | _ => None
      end
  | _ => None
  end.

Definition decodeRows (h : heap) (l : loc) : option (list ApiBooking) :=
  match h !! l with
  | Some (CArr a) => mapM (decodeRow h) a
  | _ => None
  end.

(** [v] refers to an object that is new in [h'] and has the properties
    of one of the [rows] of [h], but for its status and its date. *)
Definition spreadOf (h h' : heap) (rows : list val) (v : val) : Prop :=
  exists (l : loc) (o : gmap string val) (lr : loc) (orow : gmap string val),
    v = VRef l /\ (l ∉ dom h) /\ h' !! l = Some (CObj o)
    /\ (VRef lr ∈ rows) /\ h !! lr = Some (CObj orow)
    /\ forall k, k <> "status" -> k <> "requested_date" -> o !! k = orow !! k.

(** The rows that the stored bookings of the sample heap read as. *)
Definition sampleRow (i rd st : string) : ApiBooking :=
  {| raw_id := i; raw_course_id := "c1"; raw_trainer_id := "t1";
     raw_requested_date := RawString rd; raw_end_date := None; raw_status := st;
     raw_request_type := None;
     raw_courses := {| courses_id := "c1"; title := Some "Safety" |} |}.

(** ** The calendar grid component

    [CalendarGrid] of [src/components/calendar/CalendarGrid.tsx]: the
    children of the seven-column grid of day cells, in the order they are
    rendered. *)

Module Grid.

(** A day of the calendar as the grid reads it: its [Date], a valid one,
    and its date string; [day_rest] is whatever else the cell shows. *)
Record CalendarDay (R : Type) : Type := mkCalendarDay {
  day_date : Z;
  dateString : string;
  day_rest : R
}.

Arguments mkCalendarDay {R} _ _ _.
Arguments day_date {R} _.
Arguments dateString {R} _.
Arguments day_rest {R} _.

Inductive GridCell (R : Type) : Type :=
| EmptyCell (key : string)
| DayCell (key : string) (day : CalendarDay R).

Arguments EmptyCell {R} _.
Arguments DayCell {R} _ _.

Definition cellKey {R} (c : GridCell R) : string :=
  match c with
  | EmptyCell key => key
  | DayCell key _ => key
  end.

(** An index inside a template literal: its decimal digits. *)
Definition showIndex (index : nat) : string :=
  DecimalString.NilEmpty.string_of_uint (Nat.to_uint index).

(** [days.length > 0 ? days[0].date.getDay() : 0]. *)
Definition firstDay {R} (days : list (CalendarDay R)) : Z :=
  match days with
  | day :: _ => JsDate.getDay (day_date day)
  | [] => 0
  end.

(** [Array.from({ length: firstDay }).map((_, index) => ...)]. *)
Definition emptyCells {R} (firstDay : Z) : list (GridCell R) :=
  (fun index => EmptyCell ("empty-" +:+ showIndex index))
    <$> seq 0 (Z.to_nat firstDay).

(** [days.map((day, index) => ...)]. *)
Definition dayCells {R} (days : list (CalendarDay R)) : list (GridCell R) :=
  imap (fun index day =>
          DayCell (dateString day +:+ "-" +:+ showIndex index) day) days.

Definition CalendarGrid {R} (days : list (CalendarDay R)) : list (GridCell R) :=
  emptyCells (firstDay days) ++ dayCells days.

(** The column, from 0, of the child at a position of a grid of seven
    columns. *)
Definition column (position : nat) : Z := Z.of_nat position mod 7.

Fixpoint has_dash (s : string) : bool :=
  match s with
  | EmptyString => false
  | String c r => Ascii.eqb c "-" || has_dash r
  end.

End Grid.

(** * Properties *)

(** ** Exceptions in [filter] *)

Section FilterR.
Context {A : Type} (f : A -> result bool).

(** A callback that never throws on the elements gives the plain filter. *)
Lemma filterR_total (g : A -> bool) (l : list A) :
  Forall (fun x => f x = Ok (g x)) l ->
  filterR f l = Ok (List.filter g l).
Proof.
  induction 1 as [|x r Hx _ IH]; simpl; [reflexivity|].
  rewrite Hx, IH. simpl. destruct (g x); reflexivity.
Qed.

(** One throwing element makes the whole call throw. *)
Lemma filterR_throws (l : list A) :
  Exists (fun x => f x = TypeError) l -> filterR f l = TypeError.
Proof.
  induction 1 as [x r Hx|x r _ IH]; simpl.
  - rewrite Hx. reflexivity.
  - rewrite IH. destruct (f x); reflexivity.
Qed.

End FilterR.

(** ** Status resolution *)

Lemma isBookedStatus_spec b : isBookedStatus b = true <-> bookedLike b.
Proof.
  unfold isBookedStatus, bookedLike.
  rewrite orb_true_iff, !String.eqb_eq. reflexivity.
Qed.

Lemma isTentativeStatus_spec b : isTentativeStatus b = true <-> tentativeLike b.
Proof.
  unfold isTentativeStatus, tentativeLike.
  rewrite orb_true_iff, !String.eqb_eq. reflexivity.
Qed.

Lemma existsb_booked (l : list Booking) :
  existsb isBookedStatus l = true <-> exists b, b ∈ l /\ bookedLike b.
Proof.
  rewrite existsb_exists. split; intros (b & Hb & H); exists b.
  - split; [apply list_elem_of_In, Hb | apply isBookedStatus_spec, H].
  - split; [apply list_elem_of_In, Hb | apply isBookedStatus_spec, H].
Qed.

Lemma existsb_tentative (l : list Booking) :
  existsb isTentativeStatus l = true <-> exists b, b ∈ l /\ tentativeLike b.
Proof.
  rewrite existsb_exists. split; intros (b & Hb & H); exists b.
  - split; [apply list_elem_of_In, Hb | apply isTentativeStatus_spec, H].
  - split; [apply list_elem_of_In, Hb | apply isTentativeStatus_spec, H].
Qed.

Lemma availableRecord_dec (availability : option Availability) :
  availableRecord availability \/ ~ availableRecord availability.
Proof.
  destruct availability as [a|].
  - destruct (String.eqb_spec (a_status a) "available") as [H|H].
    + left. exists a. auto.
    + right. intros (a' & [= <-] & H'). contradiction.
  - right. intros (a' & [=] & _).
Qed.

Lemma resolveDayStatus_cases (isBlocked : bool) (bookings : list Booking)
    (availability : option Availability) :
  (isBlocked = true
   /\ resolveDayStatus isBlocked bookings availability = Blocked)
  \/ (isBlocked = false
      /\ (exists b, b ∈ bookings /\ bookedLike b)
      /\ resolveDayStatus isBlocked bookings availability = Booked)
  \/ (isBlocked = false
      /\ ~ (exists b, b ∈ bookings /\ bookedLike b)
      /\ (exists b, b ∈ bookings /\ tentativeLike b)
      /\ resolveDayStatus isBlocked bookings availability = Tentative)
  \/ (isBlocked = false
      /\ ~ (exists b, b ∈ bookings /\ bookedLike b)
      /\ ~ (exists b, b ∈ bookings /\ tentativeLike b)
      /\ availableRecord availability
      /\ resolveDayStatus isBlocked bookings availability = Available)
  \/ (isBlocked = false
      /\ ~ (exists b, b ∈ bookings /\ bookedLike b)
      /\ ~ (exists b, b ∈ bookings /\ tentativeLike b)
      /\ ~ availableRecord availability
      /\ resolveDayStatus isBlocked bookings availability = NotAvailable).
Proof.
  unfold resolveDayStatus.
  destruct isBlocked; [left; auto|right].
  destruct (existsb isBookedStatus bookings) eqn:Eb.
  { left. split; [reflexivity|]. split; [|reflexivity].
    apply existsb_booked, Eb. }
  right.
  assert (Nb : ~ exists b, b ∈ bookings /\ bookedLike b).
  { intros H. apply existsb_booked in H. congruence. }
  destruct (existsb isTentativeStatus bookings) eqn:Et.
  { left. repeat split; auto. apply existsb_tentative, Et. }
  right.
  assert (Nt : ~ exists b, b ∈ bookings /\ tentativeLike b).
  { intros H. apply existsb_tentative in H. congruence. }
  destruct availability as [a|].
  - destruct (String.eqb_spec (a_status a) "available") as [E|E].
    + left. repeat split; auto. exists a. auto.
    + right. repeat split; auto. intros (a' & [= <-] & E'). contradiction.
  - right. repeat split; auto. intros (a' & [=] & _).
Qed.

(** C1. The resolver yields one value of the five, fixed by descending
    precedence: blocked when the date is blocked, whatever the bookings and
    the availability; else booked when some overlapping booking is booked
    or confirmed; else tentative when some is approved or tentative; else
    available when an availability record with status available exists;
    else not available. A blocked date with a booked booking is blocked; a
    booked and an approved booking together give booked. *)
Theorem resolveDayStatus_precedence :
  forall (isBlocked : bool) (bookings : list Booking)
         (availability : option Availability),
    (exists! s, resolveDayStatus isBlocked bookings availability = s
                /\ s ∈ [Blocked; Booked; Tentative; Available; NotAvailable])
    /\ (resolveDayStatus isBlocked bookings availability = Blocked
        <-> isBlocked = true)
    /\ (resolveDayStatus isBlocked bookings availability = Booked
        <-> isBlocked = false /\ (exists b, b ∈ bookings /\ bookedLike b))
    /\ (resolveDayStatus isBlocked bookings availability = Tentative
        <-> isBlocked = false
            /\ ~ (exists b, b ∈ bookings /\ bookedLike b)
            /\ (exists b, b ∈ bookings /\ tentativeLike b))
    /\ (resolveDayStatus isBlocked bookings availability = Available
        <-> isBlocked = false
            /\ ~ (exists b, b ∈ bookings /\ bookedLike b)
            /\ ~ (exists b, b ∈ bookings /\ tentativeLike b)
            /\ availableRecord availability)
    /\ (resolveDayStatus isBlocked bookings availability = NotAvailable
        <-> isBlocked = false
            /\ ~ (exists b, b ∈ bookings /\ bookedLike b)
            /\ ~ (exists b, b ∈ bookings /\ tentativeLike b)
            /\ ~ availableRecord availability)
    /\ (forall b, status b = "booked" ->
          resolveDayStatus true (b :: bookings) availability = Blocked)
    /\ (forall b1 b2, status b1 = "booked" -> status b2 = "approved" ->
          resolveDayStatus false [b1; b2] availability = Booked
          /\ resolveDayStatus false [b2; b1] availability = Booked).
Proof.
  intros isBlocked bookings availability.
  split.
  { exists (resolveDayStatus isBlocked bookings availability). split.
    - split; [reflexivity|].
      destruct (resolveDayStatus isBlocked bookings availability);
        repeat first [apply list_elem_of_here | apply list_elem_of_further].
    - intros s [H _]. exact H. }
  assert (Hex : (forall b, status b = "booked" ->
                   resolveDayStatus true (b :: bookings) availability = Blocked)
                /\ (forall b1 b2, status b1 = "booked" -> status b2 = "approved" ->
                      resolveDayStatus false [b1; b2] availability = Booked
                      /\ resolveDayStatus false [b2; b1] availability = Booked)).
  { split; [reflexivity|]. intros b1 b2 H1 H2.
    unfold resolveDayStatus, isBookedStatus. simpl. rewrite H1, H2. auto. }
  destruct (resolveDayStatus_cases isBlocked bookings availability)
    as [(Hk & ->)|[(Hk & Hb & ->)|[(Hk & Hb & Ht & ->)
       |[(Hk & Hb & Ht & Ha & ->)|(Hk & Hb & Ht & Ha & ->)]]]];
    rewrite Hk in *; intuition (try discriminate; try congruence).
Qed.

(** ** Availability *)

Lemma freeOfBookings_existsb (bookings : list Booking) :
  freeOfBookings bookings ->
  existsb isBookedStatus bookings = false
  /\ existsb isTentativeStatus bookings = false.
Proof.
  induction 1 as [|b r [Hb Ht] _ [IH1 IH2]]; simpl; [auto|].
  rewrite IH1, IH2, !orb_false_r. split.
  - destruct (isBookedStatus b) eqn:E; [|reflexivity].
    apply isBookedStatus_spec in E. contradiction.
  - destruct (isTentativeStatus b) eqn:E; [|reflexivity].
    apply isTentativeStatus_spec in E. contradiction.
Qed.

(** C5. On a date that is not blocked and has no booked, confirmed,
    approved or tentative booking, the resolver answers available exactly
    when an availability record exists and its status, lower-cased, is
    available (so the raw status AVAILABLE counts); with no record, or a
    record of another status, it answers not available. *)
Theorem resolveDayStatus_availability :
  forall (bookings : list Booking) (record : option ApiAvailability),
    freeOfBookings bookings ->
    (resolveDayStatus false bookings (normalizeAvailability <$> record) = Available
     <-> exists item, record = Some item
                      /\ JsString.toLowerCase (av_status item) = "available")
    /\ (resolveDayStatus false bookings (normalizeAvailability <$> record) = NotAvailable
        <-> ~ exists item, record = Some item
                           /\ JsString.toLowerCase (av_status item) = "available")
    /\ (forall item, record = Some item -> av_status item = "AVAILABLE" ->
          resolveDayStatus false bookings (normalizeAvailability <$> record) = Available)
    /\ (forall item, record = Some item ->
          av_status item ∈ ["not_available"; "booked"; "tentative"] ->
          resolveDayStatus false bookings (normalizeAvailability <$> record) = NotAvailable)
    /\ (record = None ->
          resolveDayStatus false bookings (normalizeAvailability <$> record) = NotAvailable).
Proof.
  intros bookings record Hfree.
  destruct (freeOfBookings_existsb bookings Hfree) as [Eb Et].
  unfold resolveDayStatus. rewrite Eb, Et.
  destruct record as [item|]; simpl.
  - destruct (String.eqb_spec (JsString.toLowerCase (av_status item)) "available")
      as [E|E].
    + split; [|split; [|split; [|split]]].
      * split; eauto.
      * split; [discriminate|]. intros N. exfalso. apply N. eauto.
      * reflexivity.
      * intros it [= <-] Hin. exfalso.
        set_unfold in Hin.
        destruct Hin as [H|[H|[H|[]]]]; rewrite H in E; discriminate E.
      * discriminate.
    + split; [|split; [|split; [|split]]].
      * split; [discriminate|]. intros (it & [= <-] & E'). contradiction.
      * split; [|reflexivity]. intros _ (it & [= <-] & E'). contradiction.
      * intros it [= <-] Hup. rewrite Hup in E. exfalso. apply E. reflexivity.
      * reflexivity.
      * discriminate.
  - split; [|split; [|split; [|split]]].
    + split; [discriminate|]. intros (it & [=] & _).
    + split; [|reflexivity]. intros _ (it & [=] & _).
    + discriminate.
    + discriminate.
    + reflexivity.
Qed.

Lemma resolveDayStatus_availability_witness :
  resolveDayStatus false [sampleBooking "pending" (Some "2024-01-10") None]
    (normalizeAvailability <$> Some (sampleAvailability "AVAILABLE")) = Available.
Proof.
  refine (proj1 (proj2 (proj2 (resolveDayStatus_availability
    [sampleBooking "pending" (Some "2024-01-10") None]
    (Some (sampleAvailability "AVAILABLE")) _))) _ eq_refl eq_refl).
  repeat constructor; unfold bookedLike, tentativeLike; simpl;
    intros [H|H]; discriminate H.
Defined.

(** ** Per-date matching *)

Lemma overlaps_total (dateString : string) (b : Booking) :
  requested_date b <> None ->
  overlaps dateString b = Ok (overlapsDate dateString b).
Proof.
  unfold overlaps, overlapsDate, startOf, endOf.
  destruct (requested_date b) as [rd|]; [intros _|congruence]. simpl.
  destruct (end_date b) as [ed|]; simpl; [|reflexivity].
  destruct (JsString.truthy (JsString.splitT0 ed)); reflexivity.
Qed.

Lemma overlaps_null (dateString : string) (b : Booking) :
  requested_date b = None -> overlaps dateString b = TypeError.
Proof. unfold overlaps. intros ->. reflexivity. Qed.

(** For a target date and bookings that each have a start date, the
    matcher returns, in order, exactly the bookings overlapping the date:
    with an end date, those with start <= target <= end; without one,
    those with start = target. It returns a list, empty when nothing
    matches. A booking from 2024-01-10 to 2024-01-12 is returned for the
    10th, 11th and 12th and not for the 9th or the 13th. *)
Lemma getBookingsForDate_overlap :
  forall (bookings : list Booking) (dateString : string),
    Forall (fun b => requested_date b <> None) bookings ->
    getBookingsForDate bookings dateString
      = Ok (List.filter (overlapsDate dateString) bookings)
    /\ (forall b, b ∈ List.filter (overlapsDate dateString) bookings
          <-> b ∈ bookings
              /\ exists s, startOf b = Some s
                 /\ match endOf b with
                    | Some e => String.leb s dateString = true
                                /\ String.leb dateString e = true
                    | None => s = dateString
                    end)
    /\ ((forall b, b ∈ bookings -> overlapsDate dateString b = false) ->
          getBookingsForDate bookings dateString = Ok [])
    /\ (forall b, requested_date b = Some "2024-01-10" ->
          end_date b = Some "2024-01-12" ->
          getBookingsForDate [b] "2024-01-09" = Ok []
          /\ getBookingsForDate [b] "2024-01-10" = Ok [b]
          /\ getBookingsForDate [b] "2024-01-11" = Ok [b]
          /\ getBookingsForDate [b] "2024-01-12" = Ok [b]
          /\ getBookingsForDate [b] "2024-01-13" = Ok []).
Proof.
  intros bookings dateString Hstart.
  assert (Hrun : getBookingsForDate bookings dateString
                 = Ok (List.filter (overlapsDate dateString) bookings)).
  { apply filterR_total. eapply Forall_impl; [exact Hstart|].
    intros b Hb. apply overlaps_total, Hb. }
  split; [exact Hrun|]. split; [|split].
  - intros b. rewrite !list_elem_of_In, filter_In.
    unfold overlapsDate.
    destruct (startOf b) as [s|]; [|split; [intros [_ [=]]|intros (_ & s & [=] & _)]].
    destruct (endOf b) as [e|].
    + rewrite andb_true_iff. split.
      * intros [Hin H]. split; [exact Hin|]. exists s. auto.
      * intros (Hin & s' & [= <-] & H). auto.
    + rewrite String.eqb_eq. split.
      * intros [Hin H]. split; [exact Hin|]. exists s. auto.
      * intros (Hin & s' & [= <-] & H). auto.
  - intros Hnone. rewrite Hrun. f_equal.
    clear Hrun Hstart. induction bookings as [|b r IH]; [reflexivity|].
    simpl. rewrite (Hnone b) by apply list_elem_of_here.
    apply IH. intros b' Hb'. apply Hnone, list_elem_of_further, Hb'.
  - intros b Hs He. unfold getBookingsForDate, overlaps. simpl.
    rewrite Hs, He. simpl. repeat split; reflexivity.
Qed.

Lemma getBookingsForDate_overlap_witness :
  getBookingsForDate
    [sampleBooking "approved" (Some "2024-01-10") (Some "2024-01-12");
     sampleBooking "pending" (Some "2024-01-12") None]
    "2024-01-11"
  = Ok [sampleBooking "approved" (Some "2024-01-10") (Some "2024-01-12")].
Proof.
  refine (proj1 (getBookingsForDate_overlap
    [sampleBooking "approved" (Some "2024-01-10") (Some "2024-01-12");
     sampleBooking "pending" (Some "2024-01-12") None] "2024-01-11" _)).
  repeat constructor; discriminate.
Defined.

(** ** Canonical date strings *)

Lemma digit_not_T (c : ascii) : JsDate.is_digit c = true -> Ascii.eqb c "T" = false.
Proof.
  intros H. destruct (Ascii.eqb_spec c "T") as [->|]; [discriminate H|reflexivity].
Qed.

Lemma digit_not_colon (c : ascii) :
  JsDate.is_digit c = true -> Ascii.eqb c ":" = false.
Proof.
  intros H. destruct (Ascii.eqb_spec c ":") as [->|]; [discriminate H|reflexivity].
Qed.

Lemma dash_eq (c : ascii) : Ascii.eqb c "-" = true -> c = "-"%char.
Proof. apply Ascii.eqb_eq. Qed.

(** The ten code units of a canonical date are digits and two dashes. *)
Lemma canonical_shape (s : string) :
  JsDate.canonical s = true ->
  exists y1 y2 y3 y4 m1 m2 d1 d2,
    s = String y1 (String y2 (String y3 (String y4 (String "-"
          (String m1 (String m2 (String "-"
            (String d1 (String d2 EmptyString)))))))))
    /\ forallb JsDate.is_digit [y1; y2; y3; y4; m1; m2; d1; d2] = true.
Proof.
  unfold JsDate.canonical, JsDate.parseCivil.
  do 10 (destruct s as [|? s]; [discriminate|]).
  destruct s; [|discriminate].
  match goal with
  | |- context [if ?c then _ else _] => destruct c eqn:E; [|discriminate]
  end.
  intros _.
  apply andb_true_iff in E as [E Hd].
  apply andb_true_iff in E as [E1 E2].
  apply dash_eq in E1, E2. subst.
  do 8 eexists. split; [reflexivity|exact Hd].
Qed.

Lemma canonical_splitT0 (s : string) :
  JsDate.canonical s = true -> JsString.splitT0 s = s.
Proof.
  intros H. apply canonical_shape in H
    as (y1 & y2 & y3 & y4 & m1 & m2 & d1 & d2 & -> & Hd).
  cbn [forallb] in Hd. repeat (apply andb_true_iff in Hd as [? Hd]).
  cbn [JsString.splitT0]. repeat first [ rewrite digit_not_T by assumption
                 | progress change (Ascii.eqb "-" "T") with false ].
  reflexivity.
Qed.

Lemma canonical_no_colon (s : string) :
  JsDate.canonical s = true -> JsString.has_colon s = false.
Proof.
  intros H. apply canonical_shape in H
    as (y1 & y2 & y3 & y4 & m1 & m2 & d1 & d2 & -> & Hd).
  cbn [forallb] in Hd. repeat (apply andb_true_iff in Hd as [? Hd]).
  cbn [JsString.has_colon]. repeat first [ rewrite digit_not_colon by assumption
                 | progress change (Ascii.eqb "-" ":") with false ].
  reflexivity.
Qed.

(** What [normalizeDate] returns is a canonical date or [null]. *)
Lemma normalizeDate_canonical (r : RawDate) (d : string) :
  normalizeDate r = Some d -> JsDate.canonical d = true.
Proof.
  destruct r as [s|[t|]|]; cbn [normalizeDate]; try discriminate.
  - destruct (JsDate.canonical (JsString.splitT0 s)) eqn:E; [|discriminate].
    intros [= <-]. exact E.
  - destruct (JsDate.canonical (formatDate t)) eqn:E; [|discriminate].
    intros [= <-]. exact E.
Qed.

Lemma splitT0_append_T (a time : string) :
  JsString.splitT0 a = a -> JsString.splitT0 (a +:+ String "T" time) = a.
Proof.
  induction a as [|c a IH]; [reflexivity|].
  change (JsString.splitT0 (String c a +:+ String "T" time))
    with (if Ascii.eqb c "T" then EmptyString
          else String c (JsString.splitT0 (a +:+ String "T" time))).
  change (JsString.splitT0 (String c a))
    with (if Ascii.eqb c "T" then EmptyString else String c (JsString.splitT0 a)).
  destruct (Ascii.eqb c "T"); [discriminate|].
  intros [= H]. rewrite (IH H). reflexivity.
Qed.

(** A trailing time of day is cut off. *)
Lemma normalizeDate_truncates (d time : string) :
  JsDate.canonical d = true ->
  normalizeDate (RawString (d +:+ String "T" time)) = Some d
  /\ normalizeDate (RawString d) = Some d.
Proof.
  intros H. unfold normalizeDate.
  rewrite (splitT0_append_T d time (canonical_splitT0 d H)).
  rewrite (canonical_splitT0 d H), H. auto.
Qed.

(** ** The date-range filter *)

Lemma inRange_total (startStr endStr : string) (b : ApiBooking) :
  normalizeDate (raw_requested_date b) <> None ->
  inRange startStr endStr (normalizeBooking b)
  = Ok (startInRange startStr endStr (normalizeBooking b)).
Proof.
  unfold inRange, startInRange. cbn [requested_date normalizeBooking].
  destruct (normalizeDate (raw_requested_date b)) as [d|] eqn:E; [intros _|congruence].
  rewrite (canonical_splitT0 d (normalizeDate_canonical _ _ E)). reflexivity.
Qed.

Lemma inRange_null (startStr endStr : string) (b : ApiBooking) :
  normalizeDate (raw_requested_date b) = None ->
  inRange startStr endStr (normalizeBooking b) = TypeError.
Proof.
  unfold inRange. cbn [requested_date normalizeBooking]. intros ->. reflexivity.
Qed.

Lemma filterR_map {A B} (f : B -> result bool) (f' : A -> result bool)
    (g : A -> B) (l : list A) :
  (forall x, f (g x) = f' x) ->
  filterR f (map g l) = rmap (map g) (filterR f' l).
Proof.
  intros H. induction l as [|x r IH]; [reflexivity|].
  cbn [map filterR]. rewrite H, IH.
  destruct (f' x) as [[]|]; cbn; destruct (filterR f' r); reflexivity.
Qed.

Lemma filterR_subset {A} (f : A -> result bool) (l k : list A) :
  filterR f l = Ok k -> forall x, x ∈ k -> x ∈ l.
Proof.
  revert k. induction l as [|a r IH]; intros k; cbn [filterR].
  - intros [= <-] x Hx. exact Hx.
  - destruct (f a) as [keep|]; [|discriminate]. cbn [rbind].
    destruct (filterR f r) as [r'|]; [|discriminate]. cbn [rbind].
    intros [= <-] x Hx. destruct keep.
    + apply elem_of_cons in Hx as [->|Hx];
        [apply list_elem_of_here|apply list_elem_of_further; eauto].
    + apply list_elem_of_further; eauto.
Qed.

Lemma filteredBookings_erase (l : list ApiBooking) (startStr endStr : string) :
  filteredBookings (map eraseRawEnd l) startStr endStr
  = rmap (map eraseEnd) (filteredBookings l startStr endStr).
Proof.
  unfold filteredBookings. rewrite map_map.
  rewrite (map_ext (fun b => normalizeBooking (eraseRawEnd b))
                   (fun b => eraseEnd (normalizeBooking b))) by reflexivity.
  rewrite <- (map_map normalizeBooking eraseEnd).
  apply filterR_map. reflexivity.
Qed.

Lemma ltb_not_leb (a b : string) : String.ltb a b = true -> String.leb b a = false.
Proof.
  unfold String.ltb, String.leb. rewrite (String.compare_antisym b a).
  destruct (String.compare a b); simpl; congruence.
Qed.

(** C9. The range filter keeps a booking exactly when its normalised
    start date lies in [startStr, endStr]. The end date is not read:
    bookings that differ in end dates only are kept or dropped alike. So
    a booking that starts before the range is dropped, whatever its end
    date, and no day of the range shows it. *)
Theorem filteredBookings_by_start :
  forall (allBookings : list ApiBooking) (startStr endStr : string),
    Forall (fun b => normalizeDate (raw_requested_date b) <> None) allBookings ->
    filteredBookings allBookings startStr endStr
      = Ok (List.filter (startInRange startStr endStr)
              (map normalizeBooking allBookings))
    /\ (forall b, b ∈ allBookings ->
          ((normalizeBooking b
              ∈ List.filter (startInRange startStr endStr)
                  (map normalizeBooking allBookings))
           <-> exists d, normalizeDate (raw_requested_date b) = Some d
                         /\ String.leb startStr d = true
                         /\ String.leb d endStr = true))
    /\ (forall others,
          map eraseRawEnd others = map eraseRawEnd allBookings ->
          rmap (map eraseEnd) (filteredBookings others startStr endStr)
          = rmap (map eraseEnd) (filteredBookings allBookings startStr endStr))
    /\ (forall b d, normalizeDate (raw_requested_date b) = Some d ->
          String.ltb d startStr = true ->
          (normalizeBooking b
             ∉ List.filter (startInRange startStr endStr)
                 (map normalizeBooking allBookings))
          /\ forall dateString shown,
               getBookingsForDate
                 (List.filter (startInRange startStr endStr)
                    (map normalizeBooking allBookings)) dateString = Ok shown ->
               normalizeBooking b ∉ shown).
Proof.
  intros allBookings startStr endStr Hnorm.
  split; [|split; [|split]].
  - apply filterR_total. apply Forall_map.
    eapply Forall_impl; [exact Hnorm|]. intros b Hb. apply inRange_total, Hb.
  - intros b Hb. rewrite list_elem_of_In, filter_In, <- list_elem_of_In.
    unfold startInRange. cbn [requested_date normalizeBooking].
    split.
    + intros [_ H]. destruct (normalizeDate (raw_requested_date b)) as [d|];
        [|discriminate]. apply andb_true_iff in H. eauto.
    + intros (d & -> & H1 & H2). split.
      * apply list_elem_of_In, in_map, list_elem_of_In, Hb.
      * rewrite H1, H2. reflexivity.
  - intros others Heq. rewrite <- !filteredBookings_erase, Heq. reflexivity.
  - intros b d Hd Hlt.
    assert (Hout : normalizeBooking b
                     ∉ List.filter (startInRange startStr endStr)
                         (map normalizeBooking allBookings)).
    { rewrite list_elem_of_In, filter_In. intros [_ H].
      unfold startInRange in H. cbn [requested_date normalizeBooking] in H.
      rewrite Hd, (ltb_not_leb _ _ Hlt) in H. discriminate H. }
    split; [exact Hout|].
    intros dateString shown Hshown Hin. apply Hout.
    eapply filterR_subset; eauto.
Qed.

Lemma filteredBookings_by_start_witness :
  filteredBookings
    [sampleApiBooking (RawString "2023-12-30T00:00:00.000Z") (Some "2024-01-02") "APPROVED";
     sampleApiBooking (RawString "2024-01-10") None "Pending"]
    "2024-01-01" "2024-01-31"
  = Ok [normalizeBooking (sampleApiBooking (RawString "2024-01-10") None "Pending")].
Proof.
  refine (proj1 (filteredBookings_by_start
    [sampleApiBooking (RawString "2023-12-30T00:00:00.000Z") (Some "2024-01-02") "APPROVED";
     sampleApiBooking (RawString "2024-01-10") None "Pending"]
    "2024-01-01" "2024-01-31" _)).
  repeat constructor; vm_compute; discriminate.
Defined.

(** ** Deduplication *)

Lemma eventIdentifiers_foldl (evs : list Booking) (ids : gset string) (s : string) :
  s ∈ foldl (fun ids e => {[ identifier e ]} ∪ ids) ids evs
  <-> s ∈ ids \/ Exists (fun e => identifier e = s) evs.
Proof.
  revert ids. induction evs as [|e evs IH]; intros ids; cbn [foldl].
  - rewrite Exists_nil. tauto.
  - rewrite IH, Exists_cons, elem_of_union, elem_of_singleton.
    intuition congruence.
Qed.

Lemma elem_of_eventIdentifiers (evs : list Booking) (s : string) :
  s ∈ eventIdentifiers evs <-> Exists (fun e => identifier e = s) evs.
Proof.
  unfold eventIdentifiers. rewrite eventIdentifiers_foldl.
  rewrite elem_of_empty. tauto.
Qed.

Lemma keepBooking_spec (evs : list Booking) (b : Booking) :
  keepBooking (eventIdentifiers evs) b = bool_decide (~ suppressed evs b).
Proof.
  unfold keepBooking, suppressed, isConfirmed.
  destruct (String.eqb_spec (JsString.toLowerCase (status b)) "confirmed") as [E|E];
    cbn [negb].
  - destruct (decide (identifier b ∈ eventIdentifiers evs)) as [Hin|Hin];
      rewrite elem_of_eventIdentifiers in Hin; symmetry.
    + apply bool_decide_eq_false. tauto.
    + apply bool_decide_eq_true. tauto.
  - symmetry. apply bool_decide_eq_true. tauto.
Qed.

Lemma deduplicatedBookings_spec (raw evs : list Booking) :
  deduplicatedBookings raw evs
  = List.filter (fun b => bool_decide (~ suppressed evs b)) raw.
Proof.
  unfold deduplicatedBookings. apply filter_ext. intros b. apply keepBooking_spec.
Qed.

Section CountFilter.
Context {A : Type} (eq_dec : forall x y : A, {x = y} + {x <> y}) (f : A -> bool).

Lemma count_occ_filter_true (l : list A) (x : A) :
  f x = true -> count_occ eq_dec (List.filter f l) x = count_occ eq_dec l x.
Proof.
  intros Hx. induction l as [|a l IH]; [reflexivity|]. cbn [List.filter count_occ].
  destruct (eq_dec a x) as [->|Hne].
  - rewrite Hx. cbn [count_occ]. destruct (eq_dec x x); congruence.
  - destruct (f a); [|exact IH]. cbn [count_occ].
    destruct (eq_dec a x); congruence.
Qed.

Lemma count_occ_filter_false (l : list A) (x : A) :
  f x = false -> count_occ eq_dec (List.filter f l) x = 0%nat.
Proof.
  intros Hx. apply count_occ_not_In. rewrite filter_In. intros [_ H]. congruence.
Qed.
End CountFilter.

Lemma filter_sublist {A} (f : A -> bool) (l : list A) : sublist (List.filter f l) l.
Proof.
  induction l as [|a l IH]; cbn [List.filter]; [constructor|].
  destruct (f a); [apply sublist_skip|apply sublist_cons]; exact IH.
Qed.

Lemma eventBookings_not_confirmed (allEvents : list Event) (b : Booking) :
  isConfirmed b -> b ∉ eventBookings allEvents.
Proof.
  unfold isConfirmed, eventBookings. rewrite list_elem_of_In, in_map_iff.
  intros Hc (e & <- & _). discriminate Hc.
Qed.

(** ** What the deduplication reads *)

Lemma normalizeDate_normalized (r : RawDate) : normalized (normalizeDate r).
Proof.
  unfold normalized. destruct (normalizeDate r) as [d|] eqn:E; [|exact I].
  exact (normalizeDate_canonical r d E).
Qed.

Lemma has_colon_append (a b : string) :
  JsString.has_colon (a +:+ String ":" b) = true.
Proof.
  induction a as [|c a IH]; [reflexivity|].
  change (JsString.has_colon (String c a +:+ String ":" b))
    with (Ascii.eqb c ":" || JsString.has_colon (a +:+ String ":" b)).
  rewrite IH. apply orb_true_r.
Qed.

(** The last colon splits an identifier, when the date holds none. *)
Lemma identifier_split (c1 c2 d1 d2 : string) :
  JsString.has_colon d1 = false -> JsString.has_colon d2 = false ->
  c1 +:+ String ":" d1 = c2 +:+ String ":" d2 -> c1 = c2 /\ d1 = d2.
Proof.
  intros H1 H2. revert c2.
  induction c1 as [|x c1 IH]; intros [|y c2] E.
  - injection E as ->. auto.
  - exfalso. injection E as _ E. rewrite E, has_colon_append in H1. discriminate.
  - exfalso. injection E as _ E. rewrite <- E, has_colon_append in H2. discriminate.
  - injection E as -> E. destruct (IH _ E) as [-> ->]. auto.
Qed.

Lemma show_no_colon (d : option string) :
  normalized d -> JsString.has_colon (JsString.show d) = false.
Proof.
  destruct d as [s|]; cbn [normalized JsString.show]; [|reflexivity].
  apply canonical_no_colon.
Qed.

Lemma show_inj (d1 d2 : option string) :
  normalized d1 -> normalized d2 -> JsString.show d1 = JsString.show d2 -> d1 = d2.
Proof.
  destruct d1 as [a|], d2 as [b|]; cbn [normalized JsString.show]; intros H1 H2 E.
  - congruence.
  - subst a. discriminate H1.
  - subst b. discriminate H2.
  - reflexivity.
Qed.

Lemma identifier_inj (e b : Booking) :
  normalized (requested_date e) -> normalized (requested_date b) ->
  (identifier e = identifier b
   <-> course_id e = course_id b /\ requested_date e = requested_date b).
Proof.
  intros He Hb. unfold identifier. split.
  - intros E. apply identifier_split in E as [Hc Hd]; try (apply show_no_colon; assumption).
    split; [exact Hc|]. apply show_inj; assumption.
  - intros [-> ->]. reflexivity.
Qed.

(** C2. The output is the kept raw bookings followed by all
    event-derived bookings, each group in input order. A raw booking
    whose status is confirmed in any letter case is dropped exactly when
    its courseId:date identifier is one of the event identifiers;
    otherwise it is in the output as often as in the input (once, when it
    is there once). A raw booking of any other status is kept. The
    identifier is the course id, a colon and the date, and for normalised
    dates two bookings have the same identifier exactly when they have the
    same course and the same date: a booking whose status is CONFIRMED or
    Confirmed is dropped for an event of its course and date, and kept
    for an event of another day or of another course. *)
Theorem deduplication_rule :
  forall (raw evs : list Booking),
    allCalendarBookings raw evs = dedupSpec raw evs
    /\ allCalendarBookings raw evs = (deduplicatedBookings raw evs ++ evs)%list
    /\ sublist (deduplicatedBookings raw evs) raw
    /\ (forall s, s ∈ eventIdentifiers evs
          <-> exists e, e ∈ evs /\ identifier e = s)
    /\ (forall b, b ∈ raw ->
          (b ∈ deduplicatedBookings raw evs
           <-> ~ (isConfirmed b /\ identifier b ∈ eventIdentifiers evs)))
    /\ (forall b, isConfirmed b ->
          identifier b ∈ eventIdentifiers evs ->
          count_occ Booking_eq_dec (deduplicatedBookings raw evs) b = 0%nat)
    /\ (forall b allEvents, isConfirmed b -> evs = eventBookings allEvents ->
          identifier b ∈ eventIdentifiers evs ->
          b ∉ allCalendarBookings raw evs)
    /\ (forall b, isConfirmed b ->
          identifier b ∉ eventIdentifiers evs ->
          count_occ Booking_eq_dec (allCalendarBookings raw evs) b
          = count_occ Booking_eq_dec raw b)
    /\ (forall b, ~ isConfirmed b ->
          count_occ Booking_eq_dec (deduplicatedBookings raw evs) b
          = count_occ Booking_eq_dec raw b)
    /\ (forall b, identifier b
                  = course_id b +:+ ":" +:+ JsString.show (requested_date b))
    /\ (forall b e, normalized (requested_date e) -> normalized (requested_date b) ->
          (identifier e = identifier b
           <-> course_id e = course_id b /\ requested_date e = requested_date b))
    /\ (forall b, b ∈ raw -> normalized (requested_date b) ->
          Forall (fun e => normalized (requested_date e)) evs ->
          (b ∈ deduplicatedBookings raw evs
           <-> ~ (isConfirmed b
                  /\ exists e, e ∈ evs /\ course_id e = course_id b
                               /\ requested_date e = requested_date b)))
    /\ deduplicatedBookings
         [sampleStored "b1" "2024-01-10" "CONFIRMED";
          sampleStored "b2" "2024-01-10" "Confirmed";
          sampleStored "b3" "2024-01-10" "approved"]
         [sampleStored "e1" "2024-01-10" "booked"]
       = [sampleStored "b3" "2024-01-10" "approved"]
    /\ deduplicatedBookings
         [sampleStored "b1" "2024-01-10" "CONFIRMED"]
         [sampleStored "e1" "2025-12-25" "booked";
          sampleOtherCourse "e2" "2024-01-10" "booked"]
       = [sampleStored "b1" "2024-01-10" "CONFIRMED"].
Proof.
  intros raw evs.
  assert (Hsup : forall b, suppressed evs b
                   <-> isConfirmed b /\ identifier b ∈ eventIdentifiers evs).
  { intros b. unfold suppressed. rewrite elem_of_eventIdentifiers. tauto. }
  repeat match goal with |- _ /\ _ => split end.
  - unfold allCalendarBookings, dedupSpec.
    rewrite deduplicatedBookings_spec. reflexivity.
  - reflexivity.
  - apply filter_sublist.
  - intros s. rewrite elem_of_eventIdentifiers, Exists_exists. reflexivity.
  - intros b Hb. rewrite deduplicatedBookings_spec.
    rewrite list_elem_of_In, filter_In, <- list_elem_of_In.
    rewrite bool_decide_eq_true, Hsup. tauto.
  - intros b Hc Hin. rewrite deduplicatedBookings_spec.
    apply count_occ_filter_false, bool_decide_eq_false.
    rewrite Hsup. tauto.
  - intros b allEvents Hc -> Hin. unfold allCalendarBookings.
    rewrite elem_of_app. intros [H|H].
    + rewrite deduplicatedBookings_spec in H.
      apply list_elem_of_In, filter_In in H as [_ H].
      apply bool_decide_eq_true in H. apply H, Hsup. tauto.
    + exact (eventBookings_not_confirmed allEvents b Hc H).
  - intros b Hc Hout. unfold allCalendarBookings.
    rewrite count_occ_app, deduplicatedBookings_spec.
    rewrite count_occ_filter_true
      by (apply bool_decide_eq_true; rewrite Hsup; tauto).
    assert (Hnot : ~ In b evs).
    { intros Hin. apply Hout, elem_of_eventIdentifiers, Exists_exists.
      exists b. split; [apply list_elem_of_In, Hin|reflexivity]. }
    apply (count_occ_not_In Booking_eq_dec) in Hnot. rewrite Hnot. lia.
  - intros b Hc. rewrite deduplicatedBookings_spec.
    apply count_occ_filter_true, bool_decide_eq_true.
    unfold suppressed. tauto.
  - reflexivity.
  - intros b e. apply identifier_inj.
  - intros b Hb Hnb Hne. rewrite deduplicatedBookings_spec.
    rewrite list_elem_of_In, filter_In, <- list_elem_of_In, bool_decide_eq_true.
    unfold suppressed. rewrite Exists_exists.
    assert (Hsame : (exists e, e ∈ evs /\ identifier e = identifier b)
                    <-> exists e, e ∈ evs /\ course_id e = course_id b
                                  /\ requested_date e = requested_date b).
    { split; intros (e & He & H); exists e; (split; [exact He|]);
        apply (identifier_inj e b); try assumption;
        exact (proj1 (Forall_forall _ _) Hne e He). }
    rewrite Hsame. tauto.
  - vm_compute. reflexivity.
  - vm_compute. reflexivity.
Qed.

Lemma eventIdentifiers_eraseEnd (evs : list Booking) :
  eventIdentifiers (map eraseEnd evs) = eventIdentifiers evs.
Proof.
  apply set_eq. intros s. rewrite !elem_of_eventIdentifiers, Exists_map.
  reflexivity.
Qed.

Lemma filter_map_comm {A B} (f : B -> bool) (g : A -> B) (l : list A) :
  List.filter f (map g l) = map g (List.filter (fun x => f (g x)) l).
Proof.
  induction l as [|a l IH]; [reflexivity|]. cbn [map List.filter].
  destruct (f (g a)); cbn [map]; rewrite IH; reflexivity.
Qed.

Lemma deduplicatedBookings_eraseEnd (raw evs : list Booking) :
  deduplicatedBookings (map eraseEnd raw) (map eraseEnd evs)
  = map eraseEnd (deduplicatedBookings raw evs).
Proof.
  unfold deduplicatedBookings.
  rewrite eventIdentifiers_eraseEnd, filter_map_comm. reflexivity.
Qed.

(** C10. Whether a raw booking is kept depends on its status, course and
    normalised start date only: inputs that differ in end dates alone
    keep the same bookings. A confirmed booking is dropped only when an
    event-derived booking has its course and its very start date; an
    event of the same course that merely overlaps it leaves it in. *)
Theorem deduplication_ignores_end_dates :
  forall (raw evs : list Booking),
    (forall raw' evs',
       map eraseEnd raw' = map eraseEnd raw ->
       map eraseEnd evs' = map eraseEnd evs ->
       map eraseEnd (deduplicatedBookings raw' evs')
       = map eraseEnd (deduplicatedBookings raw evs))
    /\ (forall ends : Booking -> option string,
          let setEnd b :=
            {| id := id b; course_id := course_id b; trainer_id := trainer_id b;
               requested_date := requested_date b; end_date := ends b;
               status := status b; request_type := request_type b;
               courses := courses b |} in
          forall b, keepBooking (eventIdentifiers (map setEnd evs)) (setEnd b)
                    = keepBooking (eventIdentifiers evs) b)
    /\ (forall b, b ∈ raw -> normalized (requested_date b) ->
          Forall (fun e => normalized (requested_date e)) evs ->
          (b ∉ deduplicatedBookings raw evs
           <-> isConfirmed b
               /\ exists e, e ∈ evs /\ course_id e = course_id b
                            /\ requested_date e = requested_date b))
    /\ (forall b e, isConfirmed b -> course_id b = course_id e ->
          requested_date b = Some "2024-01-11" ->
          end_date b = Some "2024-01-12" ->
          requested_date e = Some "2024-01-10" ->
          end_date e = Some "2024-01-12" ->
          deduplicatedBookings [b] [e] = [b]).
Proof.
  intros raw evs. split; [|split; [|split]].
  - intros raw' evs' Hr He.
    rewrite <- !deduplicatedBookings_eraseEnd, Hr, He. reflexivity.
  - intros ends setEnd b. unfold keepBooking.
    assert (Hids : eventIdentifiers (map setEnd evs) = eventIdentifiers evs).
    { apply set_eq. intros s. rewrite !elem_of_eventIdentifiers, Exists_map.
      reflexivity. }
    rewrite Hids. reflexivity.
  - intros b Hb Hnb Hne. rewrite deduplicatedBookings_spec.
    rewrite list_elem_of_In, filter_In, <- list_elem_of_In, bool_decide_eq_true.
    unfold suppressed. rewrite Exists_exists. rewrite Forall_forall in Hne.
    split.
    + intros H. destruct (decide (isConfirmed b)) as [Hc|Hc]; [|tauto].
      split; [exact Hc|].
      destruct (decide (Exists (fun e => identifier e = identifier b) evs))
        as [Hex|Hex].
      * apply Exists_exists in Hex as (e & He & Hid). exists e.
        split; [exact He|]. apply identifier_inj; auto.
      * exfalso. apply H. split; [exact Hb|]. rewrite <- Exists_exists. tauto.
    + intros (Hc & e & He & Hce & Hde) [_ H]. apply H. split; [exact Hc|].
      exists e. split; [exact He|]. apply identifier_inj; auto.
  - intros b e Hc Hce Hb _ He _.
    unfold deduplicatedBookings. cbn [List.filter].
    rewrite keepBooking_spec. rewrite bool_decide_eq_true_2; [reflexivity|].
    intros [_ Hex]. apply Exists_cons in Hex as [Hid|Hex]; [|inversion Hex].
    apply identifier_inj in Hid as [_ Hd].
    + rewrite He, Hb in Hd. discriminate Hd.
    + rewrite He. reflexivity.
    + rewrite Hb. reflexivity.
Qed.

(** ** The civil calendar *)

Lemma civilFromDays_era (n : Z) :
  JsDate.civilFromDays n
  = let '(y0, m, d) := civilOfDoe ((n + 719468) mod 146097) in
    (y0 + (n + 719468) / 146097 * 400, m, d).
Proof.
  unfold JsDate.civilFromDays, civilOfDoe. cbv zeta.
  replace (n + 719468 - (n + 719468) / 146097 * 146097)
    with ((n + 719468) mod 146097)
    by (rewrite Z.mod_eq by discriminate; lia).
  f_equal. f_equal. lia.
Qed.

Lemma checkFrom_spec (n : nat) (a doe : Z) :
  checkFrom n a = true -> a <= doe < a + Z.of_nat n -> eraCheck doe = true.
Proof.
  revert a. induction n as [|n IH]; intros a; cbn [checkFrom]; [lia|].
  intros H Hr. apply andb_true_iff in H as [H1 H2].
  destruct (Z.eq_dec doe a) as [->|Hne]; [exact H1|].
  apply (IH (a + 1) H2). lia.
Qed.

Lemma eraCheck_all (doe : Z) : 0 <= doe < 146097 -> eraCheck doe = true.
Proof.
  intros H. apply (checkFrom_spec (Z.to_nat 146097) 0).
  - vm_compute. reflexivity.
  - rewrite Z2Nat.id; lia.
Qed.

Lemma daysInMonth_era (y era m : Z) :
  JsDate.daysInMonth (y + era * 400) m = JsDate.daysInMonth y m.
Proof.
  unfold JsDate.daysInMonth.
  replace ((y + era * 400) mod 4) with (y mod 4)
    by (replace (y + era * 400) with (y + era * 100 * 4) by lia;
        symmetry; apply Z_mod_plus_full).
  replace ((y + era * 400) mod 100) with (y mod 100)
    by (replace (y + era * 400) with (y + era * 4 * 100) by lia;
        symmetry; apply Z_mod_plus_full).
  replace ((y + era * 400) mod 400) with (y mod 400)
    by (symmetry; apply Z_mod_plus_full).
  reflexivity.
Qed.

(** Every day from 0000-01-01 to 9999-12-31 has a valid civil date. *)
Lemma civilFromDays_valid (n : Z) :
  firstDay <= n <= lastDay -> JsDate.validCivil (JsDate.civilFromDays n) = true.
Proof.
  unfold firstDay, lastDay. intros Hn. rewrite civilFromDays_era.
  assert (Hdoe : 0 <= (n + 719468) mod 146097 < 146097)
    by (apply Z.mod_pos_bound; lia).
  assert (Hera : -1 <= (n + 719468) / 146097 < 25).
  { split; [apply Z.div_le_lower_bound|apply Z.div_lt_upper_bound]; lia. }
  assert (Hz : n + 719468
               = 146097 * ((n + 719468) / 146097) + (n + 719468) mod 146097)
    by (apply Z.div_mod; discriminate).
  pose proof (eraCheck_all _ Hdoe) as Hc. unfold eraCheck in Hc.
  destruct (civilOfDoe ((n + 719468) mod 146097)) as [[y0 m] d].
  repeat (apply andb_true_iff in Hc as [Hc ?]).
  unfold JsDate.validCivil. rewrite daysInMonth_era.
  repeat (apply andb_true_iff; split); try assumption.
  - destruct (Z.leb_spec ((n + 719468) mod 146097) 146036); lia.
  - destruct (Z.leb_spec ((n + 719468) mod 146097) 146036); lia.
Qed.

Lemma digit_is_digit (k : Z) : JsDate.is_digit (JsDate.digit k) = true.
Proof.
  unfold JsDate.is_digit, JsDate.digit.
  assert (0 <= k mod 10 < 10) by (apply Z.mod_pos_bound; lia).
  rewrite nat_ascii_embedding by lia.
  apply andb_true_iff. split; apply Nat.leb_le; lia.
Qed.

Lemma digit_val_digit (k : Z) : JsDate.digit_val (JsDate.digit k) = k mod 10.
Proof.
  unfold JsDate.digit_val, JsDate.digit.
  assert (0 <= k mod 10 < 10) by (apply Z.mod_pos_bound; lia).
  rewrite nat_ascii_embedding by lia. lia.
Qed.

Lemma parse_format (y m d : Z) :
  0 <= y <= 9999 -> 0 <= m <= 99 -> 0 <= d <= 99 ->
  JsDate.parseCivil (JsDate.formatCivil (y, m, d)) = Some (y, m, d).
Proof.
  intros Hy Hm Hd.
  cbv [JsDate.formatCivil JsDate.pad4 JsDate.pad2 String.append JsDate.parseCivil].
  change (Ascii.eqb "-" "-") with true. cbn [andb forallb].
  rewrite !digit_is_digit. cbn [andb]. rewrite !digit_val_digit.
  f_equal. f_equal; [f_equal|].
  - Z.div_mod_to_equations. lia.
  - Z.div_mod_to_equations. lia.
  - Z.div_mod_to_equations. lia.
Qed.

(** The strings [formatDate] prints for those days are canonical. *)
Lemma formatDay_canonical (n : Z) :
  firstDay <= n <= lastDay -> JsDate.canonical (formatDay n) = true.
Proof.
  intros Hn. pose proof (civilFromDays_valid n Hn) as Hv.
  unfold formatDay, JsDate.canonical.
  destruct (JsDate.civilFromDays n) as [[y m] d].
  assert (Hb := Hv). unfold JsDate.validCivil in Hb.
  repeat (apply andb_true_iff in Hb as [Hb ?]).
  assert (d <= 31).
  { assert (JsDate.daysInMonth y m <= 31); [|lia].
    unfold JsDate.daysInMonth.
    repeat match goal with |- context [if ?c then _ else _] => destruct c end; lia. }
  rewrite parse_format by lia. exact Hv.
Qed.

Lemma normalizeDate_native (t : Z) :
  firstDay <= JsDate.dayNumber t <= lastDay ->
  normalizeDate (RawNative (Some t)) = Some (formatDate t).
Proof.
  intros H. cbn [normalizeDate]. unfold formatDate.
  change (JsDate.formatCivil (JsDate.civilFromDays (JsDate.dayNumber t)))
    with (formatDay (JsDate.dayNumber t)).
  rewrite (formatDay_canonical _ H). reflexivity.
Qed.

(** ** Blocked weekdays *)

Lemma loopCount_done (current endDate : Z) :
  current > endDate -> loopCount current endDate = O.
Proof.
  intros H. unfold loopCount, JsDate.msPerDay.
  assert ((endDate - current) / 86400000 < 0) by (apply Z.div_lt_upper_bound; lia).
  lia.
Qed.

Lemma loopCount_step (current endDate : Z) :
  current <= endDate ->
  loopCount current endDate = S (loopCount (current + JsDate.msPerDay) endDate).
Proof.
  intros H. unfold loopCount, JsDate.msPerDay.
  replace (endDate - (current + 86400000))
    with (endDate - current + (-1) * 86400000) by lia.
  rewrite Z.div_add by lia.
  assert (0 <= (endDate - current) / 86400000) by (apply Z.div_pos; lia).
  lia.
Qed.

Lemma visited_le (zone : JsDate.Zone) (endDate current : Z) :
  current <= endDate ->
  visited zone endDate current
  = current :: visited zone endDate (JsDate.nextDay zone current).
Proof. intros H. funelim (visited zone endDate current); [reflexivity|lia]. Qed.

Lemma visited_gt (zone : JsDate.Zone) (endDate current : Z) :
  current > endDate -> visited zone endDate current = [].
Proof. intros H. funelim (visited zone endDate current); [lia|reflexivity]. Qed.

(** The loop pushes, in order, the blocked dates among those it visits,
    in any zone. *)
Lemma expandLoop_visited (zone : JsDate.Zone) (blockedWeekdays : list Z)
    (endDate current : Z) (acc : list string) :
  expandLoop zone blockedWeekdays endDate current acc
  = (acc ++ map (fun t => formatDate (JsDate.localTime zone t))
             (List.filter
                (fun t => isBlockedDate blockedWeekdays (JsDate.localTime zone t))
                (visited zone endDate current)))%list.
Proof.
  funelim (expandLoop zone blockedWeekdays endDate current acc).
  - rewrite H, (visited_le zone endDate0 current) by assumption.
    cbn [List.filter]. unfold isBlockedDate at 2.
    destruct (includes blockedWeekdays (JsDate.getDay (JsDate.localTime zone current))).
    + rewrite <- app_assoc. reflexivity.
    + reflexivity.
  - rewrite visited_gt by assumption. cbn. rewrite app_nil_r. reflexivity.
Qed.

(** Where the offset does not change, the next day is 24 hours later. *)
Lemma nextDay_steady (zone : JsDate.Zone) (c startDate endDate current : Z) :
  steady zone c startDate endDate -> startDate <= current <= endDate ->
  JsDate.nextDay zone current = current + JsDate.msPerDay.
Proof.
  intros Hz Hc. unfold JsDate.nextDay, JsDate.utc, JsDate.localTime.
  destruct (Hz current) as [-> _]; [unfold JsDate.msPerDay; lia|].
  destruct (Hz (current + JsDate.msPerDay)) as [_ Hl];
    [unfold JsDate.msPerDay; lia|].
  replace (current + c + JsDate.msPerDay) with (current + JsDate.msPerDay + c) by lia.
  rewrite Hl. lia.
Qed.

Lemma visited_steady (zone : JsDate.Zone) (c startDate endDate current : Z) :
  steady zone c startDate endDate -> startDate <= current ->
  visited zone endDate current = datesFrom current (loopCount current endDate).
Proof.
  intros Hz. remember (loopCount current endDate) as n eqn:En.
  revert current En. induction n as [|n IH]; intros current En Hs.
  - destruct (Z_le_gt_dec current endDate) as [Hle|Hgt].
    + rewrite (loopCount_step current endDate Hle) in En. discriminate En.
    + apply visited_gt, Hgt.
  - destruct (Z_le_gt_dec current endDate) as [Hle|Hgt];
      [|rewrite loopCount_done in En by exact Hgt; discriminate En].
    rewrite (loopCount_step current endDate Hle) in En. injection En as En.
    rewrite (visited_le zone endDate current Hle). cbn [datesFrom].
    rewrite (nextDay_steady zone c startDate endDate current Hz) by lia.
    f_equal. apply IH; [exact En|unfold JsDate.msPerDay; lia].
Qed.

Lemma datesFrom_range (t endDate x : Z) :
  x ∈ datesFrom t (loopCount t endDate) -> t <= x <= endDate.
Proof.
  remember (loopCount t endDate) as n eqn:En. revert t En.
  induction n as [|n IH]; intros t En; cbn [datesFrom].
  - intros H. apply elem_of_nil in H. destruct H.
  - destruct (Z_le_gt_dec t endDate) as [Hle|Hgt];
      [|rewrite loopCount_done in En by exact Hgt; discriminate En].
    rewrite (loopCount_step t endDate Hle) in En. injection En as En.
    intros H. apply elem_of_cons in H as [->|H]; [lia|].
    specialize (IH _ En H). unfold JsDate.msPerDay in IH. lia.
Qed.

Lemma datesFrom_shift (t c : Z) (n : nat) :
  map (fun x => x + c) (datesFrom t n) = datesFrom (t + c) n.
Proof.
  revert t. induction n as [|n IH]; intros t; [reflexivity|].
  cbn [datesFrom map]. rewrite IH. do 2 f_equal. lia.
Qed.

(** In a steady zone the loop yields the blocked dates among the local
    times a day apart from the local time of the start. *)
Lemma expandedBlockedDates_steady (zone : JsDate.Zone) (c startDate endDate : Z)
    (blockedWeekdays : list Z) :
  steady zone c startDate endDate ->
  expandedBlockedDates zone startDate endDate blockedWeekdays
  = map formatDate
      (List.filter (isBlockedDate blockedWeekdays)
         (datesFrom (startDate + c) (loopCount startDate endDate))).
Proof.
  intros Hz. unfold expandedBlockedDates.
  rewrite expandLoop_visited, (visited_steady zone c startDate endDate) by (exact Hz || lia).
  cbn [app]. rewrite <- datesFrom_shift, filter_map_comm, map_map.
  assert (Hlocal : forall t, t ∈ datesFrom startDate (loopCount startDate endDate) ->
            JsDate.localTime zone t = t + c).
  { intros t Ht. apply datesFrom_range in Ht. unfold JsDate.localTime.
    destruct (Hz t) as [-> _]; [unfold JsDate.msPerDay; lia|reflexivity]. }
  induction (datesFrom startDate (loopCount startDate endDate)) as [|t l IH];
    [reflexivity|].
  cbn [List.filter]. rewrite (Hlocal t) by apply list_elem_of_here.
  destruct (isBlockedDate blockedWeekdays (t + c)); cbn [map];
    rewrite IH by (intros x Hx; apply Hlocal, list_elem_of_further, Hx);
    [rewrite (Hlocal t) by apply list_elem_of_here|]; reflexivity.
Qed.

Lemma dayNumber_atTime (d t : Z) :
  0 <= t < JsDate.msPerDay -> JsDate.dayNumber (JsDate.midnight d + t) = d.
Proof.
  intros Ht. unfold JsDate.dayNumber, JsDate.midnight.
  rewrite Z.div_add_l by discriminate. rewrite Z.div_small by exact Ht. lia.
Qed.

Lemma loopCount_atTime (s e ts te : Z) :
  0 <= ts < JsDate.msPerDay -> 0 <= te < JsDate.msPerDay ->
  loopCount (JsDate.midnight s + ts) (JsDate.midnight e + te)
  = Z.to_nat ((if ts <=? te then e else e - 1) - s + 1).
Proof.
  unfold loopCount, JsDate.midnight, JsDate.msPerDay. intros Hs He.
  replace (e * 86400000 + te - (s * 86400000 + ts))
    with ((e - s) * 86400000 + (te - ts)) by lia.
  rewrite Z.div_add_l by discriminate. f_equal.
  destruct (Z.leb_spec ts te).
  - rewrite Z.div_small by lia. lia.
  - assert ((te - ts) / 86400000 = -1); [|lia].
    symmetry. apply (Z.div_unique _ _ _ (te - ts + 86400000)); lia.
Qed.

Lemma loopCount_instantOf (c a b : Z) :
  loopCount (instantOf c a) (instantOf c b) = loopCount a b.
Proof. unfold loopCount, instantOf. do 3 f_equal. lia. Qed.

Lemma datesFrom_atTime (s t : Z) (n : nat) :
  datesFrom (JsDate.midnight s + t) n
  = map (fun d => JsDate.midnight d + t) (seqZ s (Z.of_nat n)).
Proof.
  revert s. induction n as [|n IH]; intros s; [reflexivity|].
  rewrite seqZ_cons by lia. cbn [datesFrom map]. f_equal.
  replace (JsDate.midnight s + t + JsDate.msPerDay)
    with (JsDate.midnight (Z.succ s) + t)
    by (unfold JsDate.midnight; lia).
  rewrite IH. do 2 f_equal. lia.
Qed.

Lemma seqZ_to_nat (s n : Z) : seqZ s (Z.of_nat (Z.to_nat n)) = seqZ s n.
Proof.
  destruct (Z_le_gt_dec 0 n); [rewrite Z2Nat.id by lia; reflexivity|].
  rewrite !seqZ_nil by lia. reflexivity.
Qed.

Lemma seqZ_sorted (s n : Z) : StronglySorted Z.lt (seqZ s n).
Proof.
  rewrite <- seqZ_to_nat. generalize (Z.to_nat n) as k. clear n.
  intros k. revert s. induction k as [|k IH]; intros s.
  - rewrite seqZ_nil by lia. constructor.
  - rewrite seqZ_cons by lia. constructor.
    + replace (Z.pred (Z.of_nat (S k))) with (Z.of_nat k) by lia. apply IH.
    + apply Forall_seqZ. intros m Hm. lia.
Qed.

Lemma filter_sorted {A} (R : A -> A -> Prop) (f : A -> bool) (l : list A) :
  StronglySorted R l -> StronglySorted R (List.filter f l).
Proof.
  induction 1 as [|a l _ IH Ha]; cbn [List.filter]; [constructor|].
  destruct (f a); [|exact IH]. constructor; [exact IH|].
  apply Forall_forall. intros x Hx. rewrite Forall_forall in Ha.
  apply Ha. apply list_elem_of_In, filter_In in Hx as [Hx _].
  apply list_elem_of_In, Hx.
Qed.

Lemma includes_spec (l : list Z) (n : Z) : includes l n = true <-> n ∈ l.
Proof.
  unfold includes. rewrite existsb_exists, list_elem_of_In. split.
  - intros (x & Hx & E). apply Z.eqb_eq in E. subst. exact Hx.
  - intros H. exists n. split; [exact H|apply Z.eqb_refl].
Qed.

(** Dates with a time of day, in a steady zone: the loop visits day [e]
    only when the start is no later in its day than the end is in its
    own. *)
Lemma expandedBlockedDates_times (zone : JsDate.Zone) (c s e ts te : Z)
    (blockedWeekdays : list Z) :
  0 <= ts < JsDate.msPerDay -> 0 <= te < JsDate.msPerDay ->
  steady zone c (instantOf c (JsDate.midnight s + ts))
    (instantOf c (JsDate.midnight e + te)) ->
  expandedBlockedDates zone (instantOf c (JsDate.midnight s + ts))
    (instantOf c (JsDate.midnight e + te)) blockedWeekdays
  = map formatDay (blockedDays s (if ts <=? te then e else e - 1) blockedWeekdays).
Proof.
  intros Hs He Hz. rewrite (expandedBlockedDates_steady zone c) by exact Hz.
  rewrite loopCount_instantOf. unfold instantOf.
  replace (JsDate.midnight s + ts - c + c) with (JsDate.midnight s + ts) by lia.
  unfold blockedDays.
  rewrite loopCount_atTime, datesFrom_atTime, seqZ_to_nat by assumption.
  rewrite filter_map_comm, map_map.
  rewrite (map_ext (fun d => formatDate (JsDate.midnight d + ts)) formatDay).
  - f_equal. apply filter_ext. intros d. unfold isBlockedDate, JsDate.getDay.
    rewrite dayNumber_atTime by exact Hs. reflexivity.
  - intros d. unfold formatDate, formatDay.
    rewrite dayNumber_atTime by exact Hs. reflexivity.
Qed.

Lemma blockedDays_spec (s e d : Z) (wd : list Z) :
  d ∈ blockedDays s e wd <-> s <= d <= e /\ weekdayOf d ∈ wd.
Proof.
  unfold blockedDays.
  rewrite list_elem_of_In, filter_In, <- list_elem_of_In.
  rewrite elem_of_seqZ, includes_spec. intuition lia.
Qed.





(** ** The heap: what the adapter allocates *)

Lemma alloc_run (c : cell) (h : heap) :
  alloc c h = Ok (fresh (dom h), <[fresh (dom h) := c]> h).
Proof. reflexivity. Qed.

Lemma lookup_allocated {h : heap} {l : loc} {c : cell} :
  h !! l = Some c -> l ∈ dom h.
Proof. intros H. apply elem_of_dom. eauto. Qed.

Lemma decodeEvent_inv (h : heap) (l : loc) (ev : Event) :
  decodeEvent h l = Some ev ->
  exists e, h !! l = Some (CObj e)
    /\ get e "id" = VStr (ev_id ev)
    /\ get e "courseId" = VStr (courseId ev)
    /\ get e "trainerId" = VStr (trainerId ev)
    /\ toRaw (get e "eventDate") = eventDate ev
    /\ toRaw (get e "endDate") = endDate ev
    /\ decodeOptStr (get e "title") = Some (ev_title ev)
    /\ toOption (get e "courseType") = courseType ev
    /\ decodeCourseTitle h (get e "course") = Some (course_title ev).
Proof.
  unfold decodeEvent. destruct (h !! l) as [[e| |]|]; try discriminate.
  destruct (get e "id") as [| |i|] eqn:Hi; try discriminate.
  destruct (get e "courseId") as [| |c|] eqn:Hc; try discriminate.
  destruct (get e "trainerId") as [| |t|] eqn:Ht; try discriminate.
  destruct (decodeOptStr (get e "title")) as [ti|] eqn:Hti; try discriminate.
  destruct (decodeCourseTitle h (get e "course")) as [ct|] eqn:Hct;
    try discriminate.
  intros [= <-]. exists e. cbn. repeat split; first [assumption|reflexivity].
Qed.

Lemma optTitle_decode (h : heap) (v : val) (ct : option string) :
  decodeCourseTitle h v = Some ct ->
  exists tv, optTitle v h = Ok (tv, h) /\ decodeOptStr tv = Some ct.
Proof.
  unfold decodeCourseTitle, optTitle. destruct v as [| |s|c]; try discriminate.
  - intros [= <-]. exists VUndef. auto.
  - intros [= <-]. exists VUndef. auto.
  - run_heap. destruct (h !! c) as [[c'| |]|]; try discriminate.
    intros H. exists (get c' "title"). auto.
Qed.

Lemma orElseV_decode (a b : val) (oa ob : option string) :
  decodeOptStr a = Some oa -> decodeOptStr b = Some ob ->
  toOption (orElseV a b) = orElse oa ob
  /\ forall k, orElseV a b <> VRef k.
Proof.
  unfold orElseV, orElse.
  destruct a as [| |s|la]; cbn; try discriminate; intros [= <-];
    destruct b as [| |t|lb]; cbn; try discriminate; intros [= <-];
    try (split; [reflexivity|discriminate]);
    destruct (JsString.truthy s); split; try reflexivity; discriminate.
Qed.

Lemma strictEq_public (v : val) :
  strictEq v (VStr "PUBLIC") = bool_decide (toOption v = Some "PUBLIC").
Proof.
  destruct v as [| |s|l]; cbn; try reflexivity.
  destruct (String.eqb_spec s "PUBLIC") as [->|Hne]; symmetry.
  - apply bool_decide_eq_true. reflexivity.
  - apply bool_decide_eq_false. congruence.
Qed.

Lemma toOption_ofOption (o : option string) : toOption (ofOption o) = o.
Proof. destruct o; reflexivity. Qed.

Lemma decodeDate_ofOption (o : option string) : decodeDate (ofOption o) = Some o.
Proof. destruct o; reflexivity. Qed.

(** Cells allocated before are read the same by [decodeEvent]. *)
Lemma decodeCourseTitle_frame (h h2 : heap) (v : val) (ct : option string) :
  (forall k, k ∈ dom h -> h2 !! k = h !! k) ->
  decodeCourseTitle h v = Some ct -> decodeCourseTitle h2 v = Some ct.
Proof.
  intros Hframe. unfold decodeCourseTitle. destruct v as [| |s|lc]; try trivial.
  destruct (h !! lc) as [c|] eqn:Hlc; [|discriminate].
  rewrite (Hframe lc (lookup_allocated Hlc)), Hlc. trivial.
Qed.

Lemma decodeEvent_frame (h h2 : heap) (l : loc) (ev : Event) :
  (forall k, k ∈ dom h -> h2 !! k = h !! k) ->
  decodeEvent h l = Some ev -> decodeEvent h2 l = Some ev.
Proof.
  intros Hframe. unfold decodeEvent.
  destruct (h !! l) as [c|] eqn:Hl; [|discriminate].
  rewrite (Hframe l (lookup_allocated Hl)), Hl.
  destruct c as [e| |]; try discriminate.
  destruct (get e "id"); try discriminate.
  destruct (get e "courseId"); try discriminate.
  destruct (get e "trainerId"); try discriminate.
  destruct (decodeOptStr (get e "title")); try discriminate.
  destruct (decodeCourseTitle h (get e "course")) as [ct|] eqn:Hct;
    [|discriminate].
  rewrite (decodeCourseTitle_frame h h2 _ ct Hframe Hct). trivial.
Qed.

(** C8. For an event object of the heap, read as the record [ev], the
    adapter returns a new booking object that reads as
    [eventToBooking ev]: status booked, end date the normalised end date
    of the event, course and trainer copied, title the event's title or
    else its course's title. The booking object [lb] and its nested
    courses object [lc] are freshly allocated, hold no reference to an
    older object, and nothing allocated before is written; so writing to
    [lb] or [lc] afterwards leaves the event as it was. *)
Theorem adaptEvent_fresh_booking :
  forall (h : heap) (event : loc) (ev : Event),
    decodeEvent h event = Some ev ->
    exists (lb lc : loc) (h' : heap),
      adaptEvent event h = Ok (lb, h')
      /\ decodeBooking h' (VRef lb) = Some (eventToBooking ev)
      /\ status (eventToBooking ev) = "booked"
      /\ end_date (eventToBooking ev) = normalizeDate (endDate ev)
      /\ course_id (eventToBooking ev) = courseId ev
      /\ trainer_id (eventToBooking ev) = trainerId ev
      /\ title (courses (eventToBooking ev))
         = orElse (ev_title ev) (course_title ev)
      /\ (lb ∉ dom h) /\ (lc ∉ dom h)
      /\ (exists o oc, h' !! lb = Some (CObj o) /\ h' !! lc = Some (CObj oc)
            /\ (forall k l, o !! k = Some (VRef l) -> l = lc)
            /\ (forall k l, oc !! k <> Some (VRef l)))
      /\ (forall l, l ∈ dom h -> h' !! l = h !! l)
      /\ (forall c1 c2 : cell,
            decodeEvent (<[lb := c1]> (<[lc := c2]> h')) event = Some ev
            /\ forall l, l ∈ dom h ->
                 (<[lb := c1]> (<[lc := c2]> h')) !! l = h !! l).
Proof.
  intros h event ev Hev.
  destruct (decodeEvent_inv h event ev Hev)
    as (e & He & Hid & Hcid & Htid & Hed & Hend & Htitle & Htype & Hcourse).
  destruct (optTitle_decode h _ _ Hcourse) as (tv & Hrun & Htv).
  destruct (orElseV_decode _ _ _ _ Htitle Htv) as [Hor Hnoref].
  set (lc := fresh (dom h)).
  set (oc := list_to_map [("id", get e "courseId");
                          ("title", orElseV (get e "title") tv)]
             : gmap string val).
  set (h1 := <[lc := CObj oc]> h).
  set (lb := fresh (dom h1)).
  assert (Hlc : lc ∉ dom h) by apply is_fresh.
  assert (Hlb1 : lb ∉ dom h1) by apply is_fresh.
  assert (Hne : lb <> lc).
  { intros E. apply Hlb1. unfold h1. rewrite dom_insert_L, E. set_solver. }
  assert (Hlb : lb ∉ dom h).
  { intros Hin. apply Hlb1. unfold h1. rewrite dom_insert_L. set_solver. }
  assert (Hold : forall l, l ∈ dom h -> l <> lb /\ l <> lc)
    by (intros l Hl; split; intros ->; contradiction).
  exists lb, lc. eexists.
  split.
  { unfold adaptEvent. run_heap. rewrite He, Hrun, !alloc_run.
    fold lc. fold oc. fold h1. fold lb. reflexivity. }
  split.
  { unfold decodeBooking. rewrite lookup_insert_eq.
    unfold get. cbn [list_to_map foldr fst snd]. simplify_map_eq.
    fold_get e. rewrite Hid, Hcid, Htid. unfold normalizeDateV.
    rewrite decodeDate_ofOption, toOption_ofOption, Hed, Hend.
    unfold h1. rewrite lookup_insert_eq. unfold oc, get. simplify_map_eq.
    fold_get e. rewrite Hcid, Hor, strictEq_public, Htype.
    unfold eventToBooking. repeat f_equal.
    case_bool_decide; case_decide; congruence. }
  do 5 (split; [reflexivity|]).
  split; [exact Hlb|]. split; [exact Hlc|].
  split.
  { eexists _, oc. split; [apply lookup_insert_eq|]. split.
    - rewrite lookup_insert_ne by exact Hne. apply lookup_insert_eq.
    - split.
      + intros k l Hk. apply elem_of_list_to_map_2 in Hk.
        unfold normalizeDateV in Hk. set_unfold in Hk.
        destruct Hk as [Hk|[Hk|[Hk|[Hk|[Hk|[Hk|[Hk|[Hk|[]]]]]]]]];
          injection Hk as _ Hk; try congruence;
          try (destruct (normalizeDate _); discriminate).
      + intros k l Hk. apply elem_of_list_to_map_2 in Hk. set_unfold in Hk.
        destruct Hk as [Hk|[Hk|[]]]; injection Hk as _ Hk.
        * congruence.
        * exact (Hnoref l (eq_sym Hk)). }
  assert (Hframe : forall l, l ∈ dom h ->
            (<[lb := CObj (list_to_map
               [("id", get e "id"); ("course_id", get e "courseId");
                ("trainer_id", get e "trainerId");
                ("requested_date", normalizeDateV (get e "eventDate"));
                ("end_date", normalizeDateV (get e "endDate"));
                ("status", VStr "booked");
                ("request_type",
                  VStr (if strictEq (get e "courseType") (VStr "PUBLIC")
                        then "public" else "inhouse"));
                ("courses", VRef lc)])]> h1) !! l = h !! l).
  { intros l Hl. destruct (Hold l Hl) as [H1 H2]. unfold h1.
    rewrite !lookup_insert_ne by congruence. reflexivity. }
  split; [exact Hframe|].
  intros c1 c2.
  assert (Hframe2 : forall l, l ∈ dom h ->
            (<[lb := c1]> (<[lc := c2]> (<[lb := CObj (list_to_map
               [("id", get e "id"); ("course_id", get e "courseId");
                ("trainer_id", get e "trainerId");
                ("requested_date", normalizeDateV (get e "eventDate"));
                ("end_date", normalizeDateV (get e "endDate"));
                ("status", VStr "booked");
                ("request_type",
                  VStr (if strictEq (get e "courseType") (VStr "PUBLIC")
                        then "public" else "inhouse"));
                ("courses", VRef lc)])]> h1))) !! l = h !! l).
  { intros l Hl. destruct (Hold l Hl) as [H1 H2].
    unfold h1. rewrite !lookup_insert_ne by congruence. reflexivity. }
  split; [|exact Hframe2].
  eapply decodeEvent_frame; [exact Hframe2|exact Hev].
Qed.

Lemma adaptEvent_fresh_booking_witness :
  exists (lb : loc) (h' : heap),
    adaptEvent 2%positive sampleHeap = Ok (lb, h')
    /\ decodeBooking h' (VRef lb) = Some (eventToBooking sampleEvent)
    /\ decodeEvent h' 2%positive = Some sampleEvent.
Proof.
  assert (Hev : decodeEvent sampleHeap 2%positive = Some sampleEvent)
    by (vm_compute; reflexivity).
  destruct (adaptEvent_fresh_booking sampleHeap 2%positive sampleEvent Hev)
    as (lb & lc & h' & Hrun & Hdec & _ & _ & _ & _ & _ & _ & _ & _ & Hframe & _).
  exists lb, h'. split; [exact Hrun|]. split; [exact Hdec|].
  eapply decodeEvent_frame; [exact Hframe|exact Hev].
Defined.

(** ** The heap: what the deduplication reads and writes *)

Lemma decodeBooking_inv (h : heap) (v : val) (b : Booking) :
  decodeBooking h v = Some b ->
  exists l o, v = VRef l /\ h !! l = Some (CObj o)
    /\ identifierOf o = identifier b
    /\ get o "status" = VStr (status b).
Proof.
  unfold decodeBooking. destruct v as [| |s|l]; try discriminate.
  destruct (h !! l) as [[o| |]|] eqn:Hl; try discriminate.
  destruct (get o "id") as [| |i|] eqn:Hi; try discriminate.
  destruct (get o "course_id") as [| |c|] eqn:Hc; try discriminate.
  destruct (get o "trainer_id") as [| |t|] eqn:Ht; try discriminate.
  destruct (decodeDate (get o "requested_date")) as [rd|] eqn:Hrd; try discriminate.
  destruct (get o "status") as [| |st|] eqn:Hst; try discriminate.
  destruct (decodeCourses h (get o "courses")) as [cs|]; try discriminate.
  intros [= <-]. exists l, o.
  split; [reflexivity|]. split; [exact Hl|]. split; [|exact Hst].
  unfold identifierOf, identifier. cbn [course_id requested_date].
  rewrite Hc. destruct (get o "requested_date"); try discriminate;
    injection Hrd as <-; reflexivity.
Qed.

Lemma decodeCourses_frame (h h2 : heap) (v : val) (cs : Courses) :
  (forall k, k ∈ dom h -> h2 !! k = h !! k) ->
  decodeCourses h v = Some cs -> decodeCourses h2 v = Some cs.
Proof.
  intros Hframe. unfold decodeCourses. destruct v as [| |s|l]; try trivial.
  destruct (h !! l) as [c|] eqn:Hl; [|discriminate].
  rewrite (Hframe l (lookup_allocated Hl)), Hl. trivial.
Qed.

Lemma decodeBooking_frame (h h2 : heap) (v : val) (b : Booking) :
  (forall k, k ∈ dom h -> h2 !! k = h !! k) ->
  decodeBooking h v = Some b -> decodeBooking h2 v = Some b.
Proof.
  intros Hframe. unfold decodeBooking. destruct v as [| |s|l]; try trivial.
  destruct (h !! l) as [c|] eqn:Hl; [|discriminate].
  rewrite (Hframe l (lookup_allocated Hl)), Hl.
  destruct c as [o| |]; try discriminate.
  destruct (get o "id"); try discriminate.
  destruct (get o "course_id"); try discriminate.
  destruct (get o "trainer_id"); try discriminate.
  destruct (decodeDate (get o "requested_date")); try discriminate.
  destruct (get o "status"); try discriminate.
  destruct (decodeCourses h (get o "courses")) as [cs|] eqn:Hcs; [|discriminate].
  rewrite (decodeCourses_frame h h2 _ cs Hframe Hcs). trivial.
Qed.

Lemma decodeAll_frame (h h2 : heap) (vs : list val) (bs : list Booking) :
  (forall k, k ∈ dom h -> h2 !! k = h !! k) ->
  Forall2 (fun v b => decodeBooking h v = Some b) vs bs ->
  Forall2 (fun v b => decodeBooking h2 v = Some b) vs bs.
Proof.
  intros Hframe H. eapply Forall2_impl; [exact H|].
  intros v b. apply decodeBooking_frame, Hframe.
Qed.

Lemma decodeBookings_inv (h : heap) (l : loc) (bs : list Booking) :
  decodeBookings h l = Some bs ->
  exists vs, h !! l = Some (CArr vs)
    /\ Forall2 (fun v b => decodeBooking h v = Some b) vs bs.
Proof.
  unfold decodeBookings. destruct (h !! l) as [[|vs|]|]; try discriminate.
  intros H. exists vs. split; [reflexivity|]. apply mapM_Some, H.
Qed.

Lemma decodeBookings_intro (h : heap) (l : loc) (vs : list val) (bs : list Booking) :
  h !! l = Some (CArr vs) ->
  Forall2 (fun v b => decodeBooking h v = Some b) vs bs ->
  decodeBookings h l = Some bs.
Proof. unfold decodeBookings. intros -> H. apply mapM_Some, H. Qed.

Lemma keptValues_decode (h : heap) (ids : gset string) (vs : list val)
    (bs : list Booking) :
  Forall2 (fun v b => decodeBooking h v = Some b) vs bs ->
  Forall2 (fun v b => decodeBooking h v = Some b)
    (keptValues ids vs bs) (List.filter (keepBooking ids) bs).
Proof.
  induction 1 as [|v b vs bs Hv _ IH]; cbn [keptValues List.filter]; [constructor|].
  destruct (keepBooking ids b); [constructor; assumption|exact IH].
Qed.

Lemma forEach_addIdentifier (h0 : heap) (ids : loc) (vs : list val)
    (bs : list Booking) :
  ids ∉ dom h0 ->
  Forall2 (fun v b => decodeBooking h0 v = Some b) vs bs ->
  forall (h : heap) (S : gset string),
    (forall k, k ∈ dom h0 -> h !! k = h0 !! k) ->
    h !! ids = Some (CSet S) ->
    forEach (addIdentifier ids) vs h
    = Ok (tt, <[ids := CSet (foldl (fun ids e => {[ identifier e ]} ∪ ids) S bs)]> h).
Proof.
  intros Hids. induction 1 as [|v b vs bs Hv _ IH]; intros h S Hframe Hset.
  - cbn. rewrite insert_id by exact Hset. reflexivity.
  - cbn [forEach foldl].
    destruct (decodeBooking_inv h0 v b Hv) as (l & o & -> & Hl & Hid & _).
    unfold addIdentifier, deref, setAdd. run_heap.
    rewrite (Hframe l (lookup_allocated Hl)), Hl, Hset, Hid.
    rewrite (IH (<[ids := CSet ({[identifier b]} ∪ S)]> h) ({[identifier b]} ∪ S)).
    + rewrite insert_insert_eq. reflexivity.
    + intros k Hk. rewrite lookup_insert_ne by (intros ->; contradiction).
      apply Hframe, Hk.
    + apply lookup_insert_eq.
Qed.

Lemma keepBookingH_run (h : heap) (ids : loc) (S : gset string) (v : val)
    (b : Booking) :
  h !! ids = Some (CSet S) -> decodeBooking h v = Some b ->
  keepBookingH ids v h = Ok (keepBooking S b, h).
Proof.
  intros Hset Hv.
  destruct (decodeBooking_inv h v b Hv) as (l & o & -> & Hl & Hid & Hst).
  unfold keepBookingH, keepBooking, deref, asString, setHas. run_heap.
  rewrite Hl, Hst, Hid.
  destruct (negb (String.eqb (JsString.toLowerCase (status b)) "confirmed"));
    [reflexivity|].
  rewrite Hset. destruct (decide (identifier b ∈ S)) as [Hin|Hin].
  - rewrite bool_decide_eq_true_2 by exact Hin. reflexivity.
  - rewrite bool_decide_eq_false_2 by exact Hin. reflexivity.
Qed.

Lemma filterM_keepBookingH (h : heap) (ids : loc) (S : gset string)
    (vs : list val) (bs : list Booking) :
  h !! ids = Some (CSet S) ->
  Forall2 (fun v b => decodeBooking h v = Some b) vs bs ->
  filterM (keepBookingH ids) vs h = Ok (keptValues S vs bs, h).
Proof.
  intros Hset. induction 1 as [|v b vs bs Hv _ IH]; [reflexivity|].
  cbn [filterM keptValues]. run_heap.
  rewrite (keepBookingH_run h ids S v b Hset Hv), IH.
  destruct (keepBooking S b); reflexivity.
Qed.

(** One run of the deduplication, cell by cell. *)
Lemma deduplicate_run (h : heap) (lf le : loc) (vf ve : list val)
    (fb eb : list Booking) :
  h !! lf = Some (CArr vf) -> h !! le = Some (CArr ve) ->
  Forall2 (fun v b => decodeBooking h v = Some b) vf fb ->
  Forall2 (fun v b => decodeBooking h v = Some b) ve eb ->
  let ids := fresh (dom h) in
  let h1 := <[ids := CSet (eventIdentifiers eb)]> h in
  let out := fresh (dom h1) in
  deduplicate lf le h
  = Ok (out, <[out := CArr (keptValues (eventIdentifiers eb) vf fb)]> h1)
  /\ (ids ∉ dom h) /\ (out ∉ dom h) /\ out <> ids.
Proof.
  intros Hlf Hle Hfb Heb ids h1 out.
  assert (Hids : ids ∉ dom h) by apply is_fresh.
  assert (Hout1 : out ∉ dom h1) by apply is_fresh.
  assert (Hne : out <> ids).
  { intros E. apply Hout1. unfold h1. rewrite dom_insert_L, E. set_solver. }
  assert (Hout : out ∉ dom h).
  { intros Hin. apply Hout1. unfold h1. rewrite dom_insert_L. set_solver. }
  assert (Hframe0 : forall k, k ∈ dom h -> (<[ids := CSet ∅]> h) !! k = h !! k).
  { intros k Hk. apply lookup_insert_ne. intros <-. contradiction. }
  assert (Hframe1 : forall k, k ∈ dom h -> h1 !! k = h !! k).
  { intros k Hk. apply lookup_insert_ne. intros <-. contradiction. }
  split; [|auto].
  unfold deduplicate.
  change (alloc (CSet ∅) ≫= _) with
    (fun h => match alloc (CSet ∅) h with
              | Ok (a, h') =>
                  (evs ← readArr le;
                   forEach (addIdentifier a) evs;;
                   fbs ← readArr lf;
                   kept ← filterM (keepBookingH a) fbs;
                   alloc (CArr kept)) h'
              | TypeError => TypeError
              end).
  cbv beta. rewrite alloc_run. fold ids. run_heap.
  rewrite (Hframe0 le (lookup_allocated Hle)), Hle.
  rewrite (forEach_addIdentifier h ids ve eb Hids Heb _ ∅ Hframe0)
    by apply lookup_insert_eq.
  rewrite insert_insert_eq. fold (eventIdentifiers eb). fold h1.
  rewrite (Hframe1 lf (lookup_allocated Hlf)), Hlf.
  rewrite (filterM_keepBookingH h1 ids (eventIdentifiers eb) vf fb).
  - rewrite alloc_run. reflexivity.
  - apply lookup_insert_eq.
  - eapply decodeAll_frame; [exact Hframe1|exact Hfb].
Qed.

(** C7. The deduplication writes no cell that existed before it ran:
    both input arrays, and every booking in them, are as before. Run
    again on the same inputs it returns a new array with the same
    elements in the same order, and leaves the first result alone. *)
Theorem deduplicate_pure :
  forall (h : heap) (lf le : loc) (fb eb : list Booking),
    decodeBookings h lf = Some fb ->
    decodeBookings h le = Some eb ->
    exists (out : loc) (h' : heap),
      deduplicate lf le h = Ok (out, h')
      /\ decodeBookings h' out = Some (deduplicatedBookings fb eb)
      /\ (out ∉ dom h)
      /\ (forall l, l ∈ dom h -> h' !! l = h !! l)
      /\ decodeBookings h' lf = Some fb
      /\ decodeBookings h' le = Some eb
      /\ exists (out2 : loc) (h'' : heap),
           deduplicate lf le h' = Ok (out2, h'')
           /\ h'' !! out2 = h' !! out
           /\ decodeBookings h'' out2 = Some (deduplicatedBookings fb eb)
           /\ out2 <> out
           /\ (forall l, l ∈ dom h' -> h'' !! l = h' !! l).
Proof.
  intros h lf le fb eb Hf He.
  destruct (decodeBookings_inv h lf fb Hf) as (vf & Hlf & Hfb).
  destruct (decodeBookings_inv h le eb He) as (ve & Hle & Heb).
  destruct (deduplicate_run h lf le vf ve fb eb Hlf Hle Hfb Heb)
    as (Hrun & Hids & Hout & Hne).
  set (ids := fresh (dom h)) in *.
  set (h1 := <[ids := CSet (eventIdentifiers eb)]> h) in *.
  set (out := fresh (dom h1)) in *.
  set (kept := keptValues (eventIdentifiers eb) vf fb) in *.
  set (h' := <[out := CArr kept]> h1) in *.
  assert (Hframe : forall l, l ∈ dom h -> h' !! l = h !! l).
  { intros l Hl. unfold h', h1.
    rewrite !lookup_insert_ne by (intros <-; contradiction). reflexivity. }
  assert (Hlf' : h' !! lf = Some (CArr vf))
    by (rewrite (Hframe lf (lookup_allocated Hlf)); exact Hlf).
  assert (Hle' : h' !! le = Some (CArr ve))
    by (rewrite (Hframe le (lookup_allocated Hle)); exact Hle).
  assert (Hfb' := decodeAll_frame h h' vf fb Hframe Hfb).
  assert (Heb' := decodeAll_frame h h' ve eb Hframe Heb).
  assert (Hkept : forall h2 : heap,
            (forall l, l ∈ dom h -> h2 !! l = h !! l) ->
            Forall2 (fun v b => decodeBooking h2 v = Some b) kept
              (deduplicatedBookings fb eb)).
  { intros h2 H2. eapply decodeAll_frame; [exact H2|].
    apply keptValues_decode, Hfb. }
  exists out, h'.
  split; [exact Hrun|].
  split; [eapply decodeBookings_intro; [apply lookup_insert_eq|apply Hkept, Hframe]|].
  split; [exact Hout|]. split; [exact Hframe|].
  split; [eapply decodeBookings_intro; eassumption|].
  split; [eapply decodeBookings_intro; eassumption|].
  destruct (deduplicate_run h' lf le vf ve fb eb Hlf' Hle' Hfb' Heb')
    as (Hrun2 & Hids2 & Hout2 & Hne2).
  set (ids2 := fresh (dom h')) in *.
  set (h2 := <[ids2 := CSet (eventIdentifiers eb)]> h') in *.
  set (out2 := fresh (dom h2)) in *.
  fold kept in Hrun2.
  assert (Hframe2 : forall l, l ∈ dom h' ->
            (<[out2 := CArr kept]> h2) !! l = h' !! l).
  { intros l Hl. unfold h2.
    rewrite !lookup_insert_ne by (intros <-; contradiction). reflexivity. }
  assert (Hout' : out ∈ dom h').
  { apply elem_of_dom. unfold h'. rewrite lookup_insert_eq. eauto. }
  exists out2. eexists. split; [exact Hrun2|].
  split; [unfold h'; rewrite !lookup_insert_eq; reflexivity|].
  split.
  { eapply decodeBookings_intro; [apply lookup_insert_eq|].
    apply Hkept. intros l Hl. rewrite Hframe2.
    - apply Hframe, Hl.
    - apply elem_of_dom. rewrite (Hframe l Hl). apply elem_of_dom, Hl. }
  split; [intros E; apply Hout2; rewrite E; exact Hout'|].
  exact Hframe2.
Qed.

Lemma deduplicate_pure_witness :
  exists (out : loc) (h' : heap),
    deduplicate 6%positive 7%positive sampleHeap = Ok (out, h')
    /\ decodeBookings h' out = Some [sampleStored "b2" "2024-01-11" "approved"]
    /\ decodeBookings h' 6%positive
       = Some [sampleStored "b1" "2024-01-10" "confirmed";
               sampleStored "b2" "2024-01-11" "approved"].
Proof.
  destruct (deduplicate_pure sampleHeap 6%positive 7%positive
              [sampleStored "b1" "2024-01-10" "confirmed";
               sampleStored "b2" "2024-01-11" "approved"]
              [sampleStored "e1" "2024-01-10" "booked"])
    as (out & h' & Hrun & Hdec & _ & _ & Hin & _).
  - vm_compute. reflexivity.
  - vm_compute. reflexivity.
  - exists out, h'. split; [exact Hrun|]. split; [|exact Hin].
    rewrite Hdec. vm_compute. reflexivity.
Defined.

(** ** Dates that do not parse *)

(** The range filter throws as soon as one booking's date normalises to
    [null]: nothing checks the result of [normalizeDate]. *)
Lemma filteredBookings_throws (allBookings : list ApiBooking)
    (startStr endStr : string) :
  Exists (fun b => normalizeDate (raw_requested_date b) = None) allBookings ->
  filteredBookings allBookings startStr endStr = TypeError.
Proof.
  intros H. apply filterR_throws, Exists_exists.
  apply Exists_exists in H as (b & Hb & Hnull).
  exists (normalizeBooking b). split.
  - apply list_elem_of_In, in_map, list_elem_of_In, Hb.
  - apply inRange_null, Hnull.
Qed.

(** The matcher throws as soon as one booking has no start date. *)
Lemma getBookingsForDate_throws (bookings : list Booking) (dateString : string) :
  Exists (fun b => requested_date b = None) bookings ->
  getBookingsForDate bookings dateString = TypeError.
Proof.
  intros H. apply filterR_throws.
  eapply Exists_impl; [exact H|]. intros b. apply overlaps_null.
Qed.

(** C6. The normaliser hands back a canonical date or [null] and never
    throws, and it cuts a time of day off. But no caller checks for
    [null]: with one booking whose date does not parse, the range filter
    throws instead of dropping the booking, and with one event whose
    date does not parse, the matcher throws for every day. *)
Theorem unparseable_date_throws :
  normalizeDate (RawString "to be announced") = None
  /\ normalizeDate RawMissing = None
  /\ filteredBookings [sampleApiBooking RawMissing None "pending"]
       "2024-01-01" "2024-01-31" = TypeError
  /\ normalizeDate (RawString "2024-01-10T09:30:00.000Z") = Some "2024-01-10"
  /\ filteredBookings
       [sampleApiBooking (RawString "2024-01-10") None "approved";
        sampleApiBooking (RawString "to be announced") None "pending"]
       "2024-01-01" "2024-01-31" = TypeError
  /\ filteredBookings
       [sampleApiBooking (RawString "2024-01-10") None "approved"]
       "2024-01-01" "2024-01-31"
     = Ok [normalizeBooking (sampleApiBooking (RawString "2024-01-10") None "approved")]
  /\ (forall dateString,
        getBookingsForDate
          (allCalendarBookings
             [normalizeBooking (sampleApiBooking (RawString "2024-01-10") None "approved")]
             (eventBookings [unparseableEvent]))
          dateString = TypeError).
Proof.
  split; [vm_compute; reflexivity|].
  split; [reflexivity|].
  split; [reflexivity|].
  split; [vm_compute; reflexivity|].
  split; [vm_compute; reflexivity|].
  split; [vm_compute; reflexivity|].
  intros dateString. apply getBookingsForDate_throws.
  apply Exists_cons_tl, Exists_cons_hd. vm_compute. reflexivity.
Qed.

(** C3. The matcher throws on a date on which nothing matches. The
    combined list of a calendar with one event whose date does not parse
    holds a booking without start date; it overlaps no date, and the
    matcher throws on every date, [requested_date.split] being called on
    [null], with or without a further booking that does match. Without
    that booking the matcher follows the rule: a booking from 2024-01-10
    to 2024-01-12 is returned for the 10th, 11th and 12th and not for the
    9th or the 13th, where the empty list is returned. *)
Theorem getBookingsForDate_throws_without_match :
  allCalendarBookings [] (eventBookings [unparseableEvent])
    = [eventToBooking unparseableEvent]
  /\ requested_date (eventToBooking unparseableEvent) = None
  /\ (forall dateString,
        overlapsDate dateString (eventToBooking unparseableEvent) = false)
  /\ (forall dateString,
        getBookingsForDate
          (allCalendarBookings [] (eventBookings [unparseableEvent]))
          dateString = TypeError)
  /\ (forall dateString,
        getBookingsForDate
          (allCalendarBookings
             [sampleBooking "approved" (Some "2024-01-10") (Some "2024-01-12")]
             (eventBookings [unparseableEvent]))
          dateString = TypeError)
  /\ map (getBookingsForDate
            [sampleBooking "approved" (Some "2024-01-10") (Some "2024-01-12")])
       ["2024-01-09"; "2024-01-10"; "2024-01-11"; "2024-01-12"; "2024-01-13"]
     = [Ok [];
        Ok [sampleBooking "approved" (Some "2024-01-10") (Some "2024-01-12")];
        Ok [sampleBooking "approved" (Some "2024-01-10") (Some "2024-01-12")];
        Ok [sampleBooking "approved" (Some "2024-01-10") (Some "2024-01-12")];
        Ok []].
Proof.
  assert (Hnull : requested_date (eventToBooking unparseableEvent) = None)
    by (vm_compute; reflexivity).
  split; [reflexivity|]. split; [exact Hnull|]. split; [|split; [|split]].
  - intros dateString. unfold overlapsDate, startOf. rewrite Hnull. reflexivity.
  - intros dateString. apply getBookingsForDate_throws.
    apply Exists_cons_hd, Hnull.
  - intros dateString. apply getBookingsForDate_throws.
    apply Exists_cons_tl, Exists_cons_hd, Hnull.
  - vm_compute. reflexivity.
Qed.

(** * Further properties *)

(** ** Strings *)

Lemma lower_ascii_idem (c : ascii) :
  JsString.lower_ascii (JsString.lower_ascii c) = JsString.lower_ascii c.
Proof. destruct c as [[] [] [] [] [] [] [] []]; reflexivity. Qed.

Lemma toLowerCase_idem (s : string) :
  JsString.toLowerCase (JsString.toLowerCase s) = JsString.toLowerCase s.
Proof.
  induction s as [|c s IH]; [reflexivity|].
  cbn [JsString.toLowerCase]. rewrite lower_ascii_idem, IH. reflexivity.
Qed.



Lemma leb_spec_lt (a b : string) :
  String.leb a b = true <-> a = b \/ OrderedTypeEx.String_as_OT.lt a b.
Proof.
  unfold String.leb. rewrite <- OrderedTypeEx.String_as_OT.cmp_lt.
  change (OrderedTypeEx.String_as_OT.cmp a b) with (String.compare a b).
  destruct (String.compare a b) eqn:E.
  - apply String.compare_eq_iff in E. tauto.
  - tauto.
  - split; [discriminate|]. intros [->|H]; [|discriminate].
    pose proof (String.compare_antisym b b) as Hs. rewrite E in Hs.
    discriminate Hs.
Qed.

Lemma leb_trans (a b c : string) :
  String.leb a b = true -> String.leb b c = true -> String.leb a c = true.
Proof.
  rewrite !leb_spec_lt. intros [->|H1] [->|H2]; auto.
  right. exact (OrderedTypeEx.String_as_OT.lt_trans _ _ _ H1 H2).
Qed.

(** ** What a throwing [filter] returns *)

Lemma filterR_outcome {A} (f : A -> result bool) (g : A -> bool) (P : A -> Prop)
    (l : list A) :
  (forall x, (P x /\ f x = TypeError) \/ (~ P x /\ f x = Ok (g x))) ->
  (Exists P l /\ filterR f l = TypeError)
  \/ (Forall (fun x => ~ P x) l /\ filterR f l = Ok (List.filter g l)).
Proof.
  intros Hf. induction l as [|x r IH].
  - right. split; [constructor|reflexivity].
  - cbn [filterR List.filter]. destruct (Hf x) as [[Hp ->]|[Hp ->]].
    + left. split; [apply Exists_cons_hd, Hp|reflexivity].
    + destruct IH as [[He ->]|[Ha ->]].
      * left. split; [apply Exists_cons_tl, He|reflexivity].
      * right. split; [constructor; assumption|].
        cbn. destruct (g x); reflexivity.
Qed.

Lemma Exists_not_Forall {A} (P : A -> Prop) (l : list A) :
  Exists P l -> Forall (fun x => ~ P x) l -> False.
Proof.
  induction 1 as [x r Hx|x r _ IH]; intros Ha; inversion Ha; subst; auto.
Qed.

(** ** Step 1: the outcome of the range filter *)

Lemma filteredBookings_cases (allBookings : list ApiBooking)
    (startStr endStr : string) :
  (Exists (fun b => normalizeDate (raw_requested_date b) = None) allBookings
   /\ filteredBookings allBookings startStr endStr = TypeError)
  \/ (Forall (fun b => normalizeDate (raw_requested_date b) <> None) allBookings
      /\ filteredBookings allBookings startStr endStr
         = Ok (List.filter (startInRange startStr endStr)
                 (map normalizeBooking allBookings))).
Proof.
  unfold filteredBookings.
  rewrite (filterR_map (inRange startStr endStr)
             (fun b => inRange startStr endStr (normalizeBooking b))
             normalizeBooking allBookings) by reflexivity.
  destruct (filterR_outcome
              (fun b => inRange startStr endStr (normalizeBooking b))
              (fun b => startInRange startStr endStr (normalizeBooking b))
              (fun b => normalizeDate (raw_requested_date b) = None)
              allBookings) as [[He ->]|[Ha ->]].
  - intros b. destruct (normalizeDate (raw_requested_date b)) as [d|] eqn:E.
    + right. split; [discriminate|]. apply inRange_total. congruence.
    + left. split; [reflexivity|]. apply inRange_null, E.
  - left. auto.
  - right. split; [exact Ha|]. cbn. rewrite filter_map_comm. reflexivity.
Qed.

Lemma normalizeBooking_shape (startStr endStr : string) (b : ApiBooking) :
  startInRange startStr endStr (normalizeBooking b) = true ->
  filteredShape startStr endStr (normalizeBooking b).
Proof.
  unfold startInRange, filteredShape. cbn [requested_date status normalizeBooking].
  destruct (normalizeDate (raw_requested_date b)) as [d|] eqn:E; [|discriminate].
  intros H. apply andb_true_iff in H as [H1 H2]. exists d.
  split; [reflexivity|]. split; [exact (normalizeDate_canonical _ _ E)|].
  split; [exact H1|]. split; [exact H2|]. apply toLowerCase_idem.
Qed.

(** ** Step 1 on rows with or without a status *)

Lemma typedRow_inv (row : ApiRow) (b : ApiBooking) :
  typedRow row = Some b ->
  row_status row = Some (raw_status b)
  /\ raw_requested_date b = row_requested_date row
  /\ normalizeRow row = Ok (normalizeBooking b).
Proof.
  unfold typedRow, normalizeRow. destruct (row_status row) as [st|]; [|discriminate].
  intros [= <-]. repeat split; reflexivity.
Qed.

Lemma mapR_outcome (rows : list ApiRow) :
  (Exists (fun r => row_status r = None) rows
   /\ mapR normalizeRow rows = TypeError)
  \/ (exists bs, Forall2 (fun r b => typedRow r = Some b) rows bs
        /\ mapR normalizeRow rows = Ok (map normalizeBooking bs)).
Proof.
  induction rows as [|r rows IH].
  - right. exists []. split; [constructor|reflexivity].
  - cbn [mapR]. destruct (typedRow r) as [b|] eqn:Hr.
    + destruct (typedRow_inv r b Hr) as (_ & _ & ->). cbn [rbind].
      destruct IH as [[He ->]|(bs & Hbs & ->)].
      * left. split; [apply Exists_cons_tl, He|reflexivity].
      * right. exists (b :: bs). split; [constructor; assumption|reflexivity].
    + left. unfold typedRow in Hr. unfold normalizeRow.
      destruct (row_status r) eqn:Hst; [discriminate Hr|].
      split; [apply Exists_cons_hd, Hst|reflexivity].
Qed.

Lemma typedRows_dates (rows : list ApiRow) (bs : list ApiBooking) :
  Forall2 (fun r b => typedRow r = Some b) rows bs ->
  Forall (fun r => row_status r <> None) rows
  /\ (Exists (fun b => normalizeDate (raw_requested_date b) = None) bs
      <-> Exists (fun r => normalizeDate (row_requested_date r) = None) rows).
Proof.
  induction 1 as [|r b rows bs Hr _ [IH1 IH2]].
  - split; [constructor|]. split; intros H; apply Exists_nil in H; destruct H.
  - destruct (typedRow_inv r b Hr) as (Hst & Hd & _). split.
    + constructor; [rewrite Hst; discriminate|exact IH1].
    + rewrite !Exists_cons, Hd, IH2. reflexivity.
Qed.

Lemma filteredRows_cases (rows : list ApiRow) (startStr endStr : string) :
  (Exists unusableRow rows /\ filteredRows rows startStr endStr = TypeError)
  \/ (Forall (fun r => ~ unusableRow r) rows
      /\ exists bs, Forall2 (fun r b => typedRow r = Some b) rows bs
           /\ filteredRows rows startStr endStr = filteredBookings bs startStr endStr
           /\ filteredBookings bs startStr endStr
              = Ok (List.filter (startInRange startStr endStr)
                      (map normalizeBooking bs))).
Proof.
  unfold filteredRows.
  destruct (mapR_outcome rows) as [[He ->]|(bs & Hbs & ->)].
  - left. split; [|reflexivity].
    eapply Exists_impl; [exact He|]. intros r Hr. left. exact Hr.
  - cbn [rbind]. fold (filteredBookings bs startStr endStr).
    destruct (typedRows_dates rows bs Hbs) as [Hst Hdates].
    destruct (filteredBookings_cases bs startStr endStr) as [[He Hr]|[Ha Hr]].
    + left. split; [|exact Hr]. apply Hdates in He.
      eapply Exists_impl; [exact He|]. intros r Hd. right. exact Hd.
    + right. split.
      * apply Forall_forall. intros r Hin [Hn|Hn].
        -- exact (proj1 (Forall_forall _ _) Hst r Hin Hn).
        -- assert (He : Exists (fun r => normalizeDate (row_requested_date r) = None) rows)
             by (apply Exists_exists; eauto).
           apply Hdates in He. destruct (Exists_not_Forall _ _ He).
           eapply Forall_impl; [exact Ha|]. cbv beta. tauto.
      * exists bs. auto.
Qed.

(** X1. Step 1 throws exactly when some row has no string status or a
    date that normalises to [null], wherever that row stands and whatever
    the range. When it returns, every row has a status, and the result
    is a subsequence of the normalised rows, each with a canonical start
    date inside the range and a lower-case status. On rows that all have
    a status it is [filteredBookings]. *)
Theorem filteredRows_outcome :
  forall (allBookings : list ApiRow) (startStr endStr : string),
    (filteredRows allBookings startStr endStr = TypeError
     <-> Exists unusableRow allBookings)
    /\ (forall kept, filteredRows allBookings startStr endStr = Ok kept ->
          Forall (filteredShape startStr endStr) kept
          /\ (exists bs, Forall2 (fun r b => typedRow r = Some b) allBookings bs
                /\ sublist kept (map normalizeBooking bs))
          /\ (List.length kept <= List.length allBookings)%nat)
    /\ (forall bs, Forall2 (fun r b => typedRow r = Some b) allBookings bs ->
          filteredRows allBookings startStr endStr
          = filteredBookings bs startStr endStr)
    /\ filteredRows [sampleApiRow (RawString "2024-01-10") None]
         "2024-01-01" "2024-01-31" = TypeError.
Proof.
  intros rows startStr endStr.
  split; [|split; [|split; [|reflexivity]]].
  - destruct (filteredRows_cases rows startStr endStr)
      as [[He ->]|(Ha & bs & _ & -> & ->)].
    + tauto.
    + split; [discriminate|]. intros He. destruct (Exists_not_Forall _ _ He Ha).
  - intros kept Hkept.
    destruct (filteredRows_cases rows startStr endStr)
      as [[_ Hr]|(_ & bs & Hbs & Hr & Hf)]; rewrite Hr in Hkept;
      [discriminate Hkept|].
    rewrite Hf in Hkept. injection Hkept as <-. split; [|split].
    + apply Forall_forall. intros b Hb.
      apply list_elem_of_In, filter_In in Hb as [Hin Hb].
      apply in_map_iff in Hin as (b0 & <- & _).
      apply normalizeBooking_shape, Hb.
    + exists bs. split; [exact Hbs|apply filter_sublist].
    + rewrite (Forall2_length _ _ _ Hbs), <- (length_map normalizeBooking bs).
      apply sublist_length, filter_sublist.
  - intros bs Hbs. unfold filteredRows.
    destruct (mapR_outcome rows) as [[He _]|(bs' & Hbs' & ->)].
    + destruct (typedRows_dates rows bs Hbs) as [Hst _].
      destruct (Exists_not_Forall _ _ He Hst).
    + assert (bs' = bs) as ->; [|reflexivity].
      clear -Hbs Hbs'. revert bs' Hbs'.
      induction Hbs as [|r b rows bs Hr _ IH]; intros bs' Hbs'.
      * apply Forall2_nil_inv_l in Hbs'. exact Hbs'.
      * apply Forall2_cons_inv_l in Hbs' as (b' & bs'' & Hr' & Hrest & ->).
        f_equal; [congruence|apply IH, Hrest].
Qed.

(** ** The matcher: its outcome and the edges of the end date *)

Lemma getBookingsForDate_cases (bookings : list Booking) (dateString : string) :
  (Exists (fun b => requested_date b = None) bookings
   /\ getBookingsForDate bookings dateString = TypeError)
  \/ (Forall (fun b => requested_date b <> None) bookings
      /\ getBookingsForDate bookings dateString
         = Ok (List.filter (overlapsDate dateString) bookings)).
Proof.
  apply filterR_outcome. intros b.
  destruct (requested_date b) as [rd|] eqn:E.
  - right. split; [discriminate|]. apply overlaps_total. congruence.
  - left. split; [reflexivity|]. apply overlaps_null, E.
Qed.

(** X2. The matcher throws exactly when some booking of the list has no
    start date, whether or not that booking would match. When it
    returns, the result is a subsequence of the list: nothing is added,
    repeated or reordered. *)
Theorem getBookingsForDate_outcome :
  forall (bookings : list Booking) (dateString : string),
    (getBookingsForDate bookings dateString = TypeError
     <-> Exists (fun b => requested_date b = None) bookings)
    /\ (forall shown, getBookingsForDate bookings dateString = Ok shown ->
          sublist shown bookings
          /\ (List.length shown <= List.length bookings)%nat
          /\ forall b, b ∈ shown <-> b ∈ bookings /\ overlapsDate dateString b = true).
Proof.
  intros bookings dateString.
  destruct (getBookingsForDate_cases bookings dateString) as [[He Hr]|[Ha Hr]];
    rewrite Hr.
  - split; [tauto|]. intros shown [=].
  - split.
    + split; [discriminate|]. intros He. destruct (Exists_not_Forall _ _ He).
      eapply Forall_impl; [exact Ha|]. cbv beta. tauto.
    + intros shown [= <-]. split; [apply filter_sublist|]. split.
      * apply sublist_length, filter_sublist.
      * intros b. rewrite !list_elem_of_In, filter_In. reflexivity.
Qed.

Lemma getBookingsForDate_Ok_filter (bookings shown : list Booking)
    (dateString : string) :
  getBookingsForDate bookings dateString = Ok shown ->
  shown = List.filter (overlapsDate dateString) bookings.
Proof.
  destruct (getBookingsForDate_cases bookings dateString) as [[_ ->]|[_ ->]];
    [discriminate|]. intros [= <-]. reflexivity.
Qed.

(** X3. Edges of the end date. A booking whose end date precedes its
    start date is shown on no day. A booking whose [end_date] is the empty
    string, or begins with ['T'], is shown as a single-day booking, on its
    start date only. *)
Theorem getBookingsForDate_end_date_edges :
  forall (bookings shown : list Booking) (dateString : string),
    getBookingsForDate bookings dateString = Ok shown ->
    (forall b s e, startOf b = Some s -> endOf b = Some e ->
       String.ltb e s = true -> b ∉ shown)
    /\ (forall b rd ed, b ∈ bookings -> requested_date b = Some rd ->
          end_date b = Some ed -> JsString.splitT0 ed = "" ->
          (b ∈ shown <-> JsString.splitT0 rd = dateString)).
Proof.
  intros bookings shown dateString Hrun.
  apply getBookingsForDate_Ok_filter in Hrun. subst shown. split.
  - intros b s e Hs He Hlt Hin.
    apply list_elem_of_In, filter_In in Hin as [_ Hin].
    unfold overlapsDate in Hin. rewrite Hs, He in Hin.
    apply andb_true_iff in Hin as [H1 H2].
    pose proof (leb_trans _ _ _ H1 H2) as H.
    rewrite (ltb_not_leb _ _ Hlt) in H. discriminate H.
  - intros b rd ed Hb Hrd Hed Hempty.
    rewrite list_elem_of_In, filter_In, <- list_elem_of_In.
    unfold overlapsDate, startOf, endOf. rewrite Hrd, Hed. cbn.
    rewrite Hempty. cbn. rewrite String.eqb_eq. tauto.
Qed.

Lemma getBookingsForDate_end_date_edges_witness :
  (sampleBooking "approved" (Some "2024-01-12") (Some "2024-01-10") ∉ [])
  /\ getBookingsForDate
    [sampleBooking "approved" (Some "2024-01-12") (Some "2024-01-10")]
    "2024-01-11" = Ok [].
Proof.
  assert (Hrun : getBookingsForDate
            [sampleBooking "approved" (Some "2024-01-12") (Some "2024-01-10")]
            "2024-01-11" = Ok []) by reflexivity.
  split; [|exact Hrun].
  exact (proj1 (getBookingsForDate_end_date_edges _ _ _ Hrun)
           (sampleBooking "approved" (Some "2024-01-12") (Some "2024-01-10"))
           "2024-01-12" "2024-01-10" eq_refl eq_refl eq_refl).
Defined.

(** ** The pipeline as a whole *)

Lemma calendarBookings_cases (allBookings : list ApiBooking) (allEvents : list Event)
    (startStr endStr : string) :
  (Exists (fun b => normalizeDate (raw_requested_date b) = None) allBookings
   /\ calendarBookings allBookings allEvents startStr endStr = TypeError)
  \/ (Forall (fun b => normalizeDate (raw_requested_date b) <> None) allBookings
      /\ calendarBookings allBookings allEvents startStr endStr
         = Ok (allCalendarBookings
                 (List.filter (startInRange startStr endStr)
                    (map normalizeBooking allBookings))
                 (eventBookings allEvents))).
Proof.
  unfold calendarBookings.
  destruct (filteredBookings_cases allBookings startStr endStr)
    as [[He ->]|[Ha ->]]; [left|right]; auto.
Qed.

Lemma identifier_normalizeBooking (b : ApiBooking) :
  identifier (normalizeBooking b)
  = raw_course_id b +:+ ":" +:+ JsString.show (normalizeDate (raw_requested_date b)).
Proof. reflexivity. Qed.

Lemma identifier_eventToBooking (ev : Event) :
  identifier (eventToBooking ev)
  = courseId ev +:+ ":" +:+ JsString.show (normalizeDate (eventDate ev)).
Proof. reflexivity. Qed.

(** Whether the deduplication suppresses a normalised raw booking, in
    terms of the rows the API delivered. *)
Lemma suppressed_rows (allEvents : list Event) (b : ApiBooking) :
  suppressed (eventBookings allEvents) (normalizeBooking b)
  <-> JsString.toLowerCase (raw_status b) = "confirmed"
      /\ exists ev, ev ∈ allEvents /\ courseId ev = raw_course_id b
           /\ normalizeDate (eventDate ev) = normalizeDate (raw_requested_date b).
Proof.
  unfold suppressed, isConfirmed, eventBookings.
  cbn [status normalizeBooking]. rewrite toLowerCase_idem, Exists_map, Exists_exists.
  split; intros [Hc (ev & Hev & H)]; (split; [exact Hc|]); exists ev;
    (split; [exact Hev|]).
  - apply identifier_inj in H as [H1 H2]; try apply normalizeDate_normalized.
    auto.
  - destruct H as [H1 H2]. apply identifier_inj; try apply normalizeDate_normalized.
    auto.
Qed.

(** X4. Events are never filtered: when the pipeline returns, every
    event-derived booking is in its output, in order, after the raw
    bookings, whatever the event's date and the displayed range. The
    pipeline throws exactly when some row has no string status or a date
    that normalises to [null]; an event whose date does not parse does not
    make it throw, at this stage. *)
Theorem calendarRows_keeps_events :
  forall (allBookings : list ApiRow) (allEvents : list Event)
         (startStr endStr : string),
    (calendarRows allBookings allEvents startStr endStr = TypeError
     <-> Exists unusableRow allBookings)
    /\ (forall out, calendarRows allBookings allEvents startStr endStr = Ok out ->
          exists kept,
            out = (kept ++ eventBookings allEvents)%list
            /\ Forall (filteredShape startStr endStr) kept
            /\ (exists bs,
                  Forall2 (fun r b => typedRow r = Some b) allBookings bs
                  /\ sublist kept (map normalizeBooking bs)
                  /\ calendarBookings bs allEvents startStr endStr = Ok out)
            /\ (forall ev, ev ∈ allEvents -> eventToBooking ev ∈ out)
            /\ (List.length allEvents <= List.length out
                <= List.length allBookings + List.length allEvents)%nat)
    /\ calendarRows [sampleApiRow (RawString "2024-01-10") (Some "Approved")]
         [unparseableEvent] "2024-01-01" "2024-01-31"
       = Ok [normalizeBooking
               (sampleApiBooking (RawString "2024-01-10") None "Approved");
             eventToBooking unparseableEvent].
Proof.
  intros rows allEvents startStr endStr. unfold calendarRows.
  split; [|split; [|vm_compute; reflexivity]].
  - destruct (filteredRows_cases rows startStr endStr)
      as [[He ->]|(Ha & bs & _ & -> & ->)]; cbn [rbind].
    + tauto.
    + split; [discriminate|]. intros He. destruct (Exists_not_Forall _ _ He Ha).
  - intros out Hout.
    destruct (filteredRows_cases rows startStr endStr)
      as [[_ Hr]|(_ & bs & Hbs & Hr & Hf)]; rewrite Hr in Hout;
      [discriminate Hout|].
    assert (Hcal : calendarBookings bs allEvents startStr endStr = Ok out)
      by exact Hout.
    rewrite Hf in Hout. cbn [rbind] in Hout. injection Hout as <-.
    set (filtered := List.filter (startInRange startStr endStr)
                       (map normalizeBooking bs)) in *.
    assert (Hsub : sublist (deduplicatedBookings filtered (eventBookings allEvents))
                     (map normalizeBooking bs)).
    { etransitivity; apply filter_sublist. }
    exists (deduplicatedBookings filtered (eventBookings allEvents)).
    split; [reflexivity|]. split; [|split; [|split]].
    + apply Forall_forall. intros b Hb.
      apply list_elem_of_In, filter_In in Hb as [Hb _].
      apply filter_In in Hb as [Hin Hb].
      apply in_map_iff in Hin as (b0 & <- & _).
      apply normalizeBooking_shape, Hb.
    + exists bs. auto.
    + intros ev Hev. unfold allCalendarBookings. apply elem_of_app. right.
      apply list_elem_of_In, in_map, list_elem_of_In, Hev.
    + unfold allCalendarBookings. rewrite length_app.
      apply sublist_length in Hsub. rewrite length_map in Hsub.
      rewrite (Forall2_length _ _ _ Hbs).
      assert (List.length (eventBookings allEvents) = List.length allEvents)
        as -> by apply length_map.
      lia.
Qed.

(** X5. Which raw bookings reach the calendar. When the pipeline
    returns, its output is a list of raw bookings followed by the
    event-derived ones, and a raw booking is in the first list exactly
    when its normalised start date lies in the range and it is not a
    confirmed booking for which some event has the same course and the
    same normalised start date. *)
Theorem calendarBookings_raw_membership :
  forall (allBookings : list ApiBooking) (allEvents : list Event)
         (startStr endStr : string) (out : list Booking),
    calendarBookings allBookings allEvents startStr endStr = Ok out ->
    exists kept,
      out = (kept ++ eventBookings allEvents)%list
      /\ forall b, b ∈ allBookings ->
           (normalizeBooking b ∈ kept
            <-> startInRange startStr endStr (normalizeBooking b) = true
                /\ ~ (JsString.toLowerCase (raw_status b) = "confirmed"
                      /\ exists ev, ev ∈ allEvents /\ courseId ev = raw_course_id b
                           /\ normalizeDate (eventDate ev)
                              = normalizeDate (raw_requested_date b))).
Proof.
  intros allBookings allEvents startStr endStr out Hrun.
  destruct (calendarBookings_cases allBookings allEvents startStr endStr)
    as [[_ Hr]|[_ Hr]]; rewrite Hr in Hrun; [discriminate|].
  injection Hrun as <-. eexists. split; [reflexivity|].
  intros b Hb. rewrite deduplicatedBookings_spec.
  rewrite !list_elem_of_In, !filter_In, bool_decide_eq_true, suppressed_rows.
  split; [tauto|]. intros [H1 H2]. split; [split; [|exact H1]|exact H2].
  apply in_map, list_elem_of_In, Hb.
Qed.

Lemma calendarBookings_raw_membership_witness :
  exists kept,
    [normalizeBooking (sampleApiBooking (RawString "2024-01-10") None "Pending");
     eventToBooking sampleEvent]
    = (kept ++ eventBookings [sampleEvent])%list.
Proof.
  destruct (calendarBookings_raw_membership
              [sampleApiBooking (RawString "2024-01-10") None "Pending";
               sampleApiBooking (RawString "2024-01-10T08:00:00") None "CONFIRMED"]
              [sampleEvent] "2024-01-01" "2024-01-31" _ eq_refl)
    as (kept & Hout & _).
  exists kept. exact Hout.
Defined.

(** X6. One entry per confirmed booking with an event. When a confirmed
    raw booking and an event have the same course and the same normalised
    start date, the pipeline's output holds the event-derived booking and
    not the raw one; and on that date the matcher, when it returns, shows
    the event-derived booking (unless the event ends before it starts)
    and not the raw one. *)
Theorem event_replaces_confirmed_booking :
  forall (allBookings : list ApiBooking) (allEvents : list Event)
         (startStr endStr : string) (out : list Booking)
         (b : ApiBooking) (ev : Event) (day : string),
    calendarBookings allBookings allEvents startStr endStr = Ok out ->
    ev ∈ allEvents ->
    JsString.toLowerCase (raw_status b) = "confirmed" ->
    courseId ev = raw_course_id b ->
    normalizeDate (raw_requested_date b) = Some day ->
    normalizeDate (eventDate ev) = Some day ->
    (normalizeBooking b ∉ out)
    /\ (eventToBooking ev ∈ out)
    /\ forall shown, getBookingsForDate out day = Ok shown ->
         (normalizeBooking b ∉ shown)
         /\ (endsNotBefore day (eventToBooking ev) -> eventToBooking ev ∈ shown).
Proof.
  intros allBookings allEvents startStr endStr out b ev day Hrun Hev Hc Hco Hb He.
  destruct (calendarBookings_cases allBookings allEvents startStr endStr)
    as [[_ Hr]|[_ Hr]]; rewrite Hr in Hrun; [discriminate|].
  injection Hrun as <-.
  assert (Hconf : isConfirmed (normalizeBooking b)).
  { unfold isConfirmed. cbn [status normalizeBooking].
    rewrite toLowerCase_idem. exact Hc. }
  assert (Hout : normalizeBooking b
                   ∉ allCalendarBookings
                       (List.filter (startInRange startStr endStr)
                          (map normalizeBooking allBookings))
                       (eventBookings allEvents)).
  { unfold allCalendarBookings. rewrite elem_of_app. intros [H|H].
    - rewrite deduplicatedBookings_spec in H.
      apply list_elem_of_In, filter_In in H as [_ H].
      apply bool_decide_eq_true in H. apply H, suppressed_rows.
      split; [exact Hc|]. exists ev. rewrite Hb, He. auto.
    - exact (eventBookings_not_confirmed allEvents _ Hconf H). }
  assert (Hin : eventToBooking ev
                  ∈ allCalendarBookings
                      (List.filter (startInRange startStr endStr)
                         (map normalizeBooking allBookings))
                      (eventBookings allEvents)).
  { unfold allCalendarBookings. apply elem_of_app. right.
    apply list_elem_of_In, in_map, list_elem_of_In, Hev. }
  split; [exact Hout|]. split; [exact Hin|].
  intros shown Hshown. apply getBookingsForDate_Ok_filter in Hshown. subst shown.
  split.
  - intros H. apply list_elem_of_In, filter_In in H as [H _].
    apply Hout, list_elem_of_In, H.
  - intros Hend. apply list_elem_of_In, filter_In. split;
      [apply list_elem_of_In, Hin|].
    assert (Hday : JsDate.canonical day = true)
      by exact (normalizeDate_canonical _ _ He).
    unfold overlapsDate, startOf, endOf, endsNotBefore in *.
    cbn [requested_date end_date eventToBooking] in *. rewrite He. cbn.
    rewrite (canonical_splitT0 day Hday).
    destruct (normalizeDate (endDate ev)) as [e|] eqn:Ee; cbn.
    + pose proof (normalizeDate_canonical _ _ Ee) as Hce.
      rewrite (canonical_splitT0 e Hce).
      assert (JsString.truthy e = true) as ->.
      { apply canonical_shape in Hce as (? & ? & ? & ? & ? & ? & ? & ? & -> & _).
        reflexivity. }
      rewrite Hend. apply andb_true_iff. split; [|reflexivity].
      apply leb_spec_lt. left. reflexivity.
    + apply String.eqb_refl.
Qed.

Lemma event_replaces_confirmed_booking_witness :
  (normalizeBooking (sampleApiBooking (RawString "2024-01-10T08:00:00") None "CONFIRMED")
     ∉ [eventToBooking sampleEvent])
  /\ (eventToBooking sampleEvent ∈ [eventToBooking sampleEvent]).
Proof.
  destruct (event_replaces_confirmed_booking
              [sampleApiBooking (RawString "2024-01-10T08:00:00") None "CONFIRMED"]
              [sampleEvent] "2024-01-01" "2024-01-31"
              [eventToBooking sampleEvent]
              (sampleApiBooking (RawString "2024-01-10T08:00:00") None "CONFIRMED")
              sampleEvent "2024-01-10")
    as (H1 & H2 & _).
  - vm_compute. reflexivity.
  - apply list_elem_of_here.
  - reflexivity.
  - reflexivity.
  - vm_compute. reflexivity.
  - vm_compute. reflexivity.
  - split; [exact H1|exact H2].
Defined.

(** ** Step 5: availability *)


(** ** Step 6: blocked weekdays, beyond whole days *)

Lemma getDay_range (t : Z) : 0 <= JsDate.getDay t <= 6.
Proof.
  unfold JsDate.getDay.
  assert (0 <= (JsDate.dayNumber t + 4) mod 7 < 7) by (apply Z.mod_pos_bound; lia).
  lia.
Qed.

Lemma expandedBlockedDates_visited (zone : JsDate.Zone) (startDate endDate : Z)
    (blockedWeekdays : list Z) :
  expandedBlockedDates zone startDate endDate blockedWeekdays
  = map (fun t => formatDate (JsDate.localTime zone t))
      (List.filter
         (fun t => isBlockedDate blockedWeekdays (JsDate.localTime zone t))
         (visited zone endDate startDate)).
Proof. unfold expandedBlockedDates. rewrite expandLoop_visited. reflexivity. Qed.

Lemma blockedDays_length (s e : Z) (wd : list Z) :
  Z.of_nat (List.length (blockedDays s e wd)) <= Z.max 0 (e - s + 1).
Proof.
  unfold blockedDays.
  pose proof (sublist_length _ _
                (filter_sublist (fun d => includes wd (weekdayOf d))
                   (seqZ s (e - s + 1)))) as H.
  rewrite length_seqZ in H. lia.
Qed.

(** X8. Dates with a time of day, in a zone whose offset does not change
    during the loop. The loop compares time values, so with a start at
    the local time [ts] of day [s] and an end at the local time [te] of
    day [e], it yields the blocked days of [s..e] when [ts <= te], and of
    [s..e-1] otherwise: the last day is left out when the start is later
    in its day than the end is in its own. A start after the end gives no
    date, and there are never more dates than days in the range. *)
Theorem expandedBlockedDates_time_of_day_rule :
  forall (zone : JsDate.Zone) (c s e ts te : Z) (blockedWeekdays : list Z),
    0 <= ts < JsDate.msPerDay -> 0 <= te < JsDate.msPerDay ->
    steady zone c (instantOf c (JsDate.midnight s + ts))
      (instantOf c (JsDate.midnight e + te)) ->
    expandedBlockedDates zone (instantOf c (JsDate.midnight s + ts))
      (instantOf c (JsDate.midnight e + te)) blockedWeekdays
    = map formatDay
        (blockedDays s (if ts <=? te then e else e - 1) blockedWeekdays)
    /\ (instantOf c (JsDate.midnight e + te) < instantOf c (JsDate.midnight s + ts) ->
        expandedBlockedDates zone (instantOf c (JsDate.midnight s + ts))
          (instantOf c (JsDate.midnight e + te)) blockedWeekdays = [])
    /\ Z.of_nat (List.length
                   (expandedBlockedDates zone (instantOf c (JsDate.midnight s + ts))
                      (instantOf c (JsDate.midnight e + te)) blockedWeekdays))
       <= Z.max 0 (e - s + 1).
Proof.
  intros zone c s e ts te wd Hs He Hz.
  pose proof (expandedBlockedDates_times zone c s e ts te wd Hs He Hz) as Hrun.
  split; [exact Hrun|]. split.
  - intros Hlt. rewrite expandedBlockedDates_visited.
    rewrite visited_gt by lia. reflexivity.
  - rewrite Hrun, length_map.
    pose proof (blockedDays_length s (if ts <=? te then e else e - 1) wd).
    destruct (ts <=? te); lia.
Qed.

Lemma expandedBlockedDates_time_of_day_rule_witness :
  expandedBlockedDates (JsDate.fixedZone 28800000)
    (instantOf 28800000 (JsDate.midnight 19812 + 43200000))
    (instantOf 28800000 (JsDate.midnight 19813 + 0)) [0; 6]
  = map formatDay (blockedDays 19812 (19813 - 1) [0; 6]).
Proof.
  refine (proj1 (expandedBlockedDates_time_of_day_rule (JsDate.fixedZone 28800000)
                   28800000 19812 19813 43200000 0 [0; 6] _ _ _)).
  - unfold JsDate.msPerDay. lia.
  - unfold JsDate.msPerDay. lia.
  - intros t _. split; reflexivity.
Defined.

Lemma includes_ext (l l' : list Z) (n : Z) :
  (n ∈ l <-> n ∈ l') -> includes l n = includes l' n.
Proof.
  intros H. destruct (includes l n) eqn:E1, (includes l' n) eqn:E2; try reflexivity.
  - apply includes_spec, H, includes_spec in E1. congruence.
  - apply includes_spec, H, includes_spec in E2. congruence.
Qed.

(** X9. Only the weekdays from 0 to 6 of the blocked list matter, and
    only as a set, in any zone: two lists with the same members among
    0..6 give the same dates, so order, repetitions and numbers outside
    0..6 change nothing. With all seven weekdays every day the loop visits
    is blocked. *)
Theorem expandedBlockedDates_weekday_set :
  forall (zone : JsDate.Zone) (startDate endDate : Z)
         (blockedWeekdays others : list Z),
    (forall n, 0 <= n <= 6 -> (n ∈ blockedWeekdays <-> n ∈ others)) ->
    expandedBlockedDates zone startDate endDate blockedWeekdays
      = expandedBlockedDates zone startDate endDate others
    /\ ((forall n, 0 <= n <= 6 -> n ∈ blockedWeekdays) ->
        expandedBlockedDates zone startDate endDate blockedWeekdays
        = map (fun t => formatDate (JsDate.localTime zone t))
            (visited zone endDate startDate))
    /\ ((forall n, 0 <= n <= 6 -> n ∉ blockedWeekdays) ->
        expandedBlockedDates zone startDate endDate blockedWeekdays = []).
Proof.
  intros zone startDate endDate wd wd' Hsame.
  rewrite !expandedBlockedDates_visited. split; [|split].
  - f_equal. apply filter_ext. intros t. unfold isBlockedDate.
    apply includes_ext, Hsame, getDay_range.
  - intros Hall. f_equal.
    induction (visited zone endDate startDate) as [|t l IH]; [reflexivity|].
    cbn [List.filter]. unfold isBlockedDate at 1.
    rewrite (proj2 (includes_spec wd (JsDate.getDay (JsDate.localTime zone t))))
      by apply Hall, getDay_range.
    rewrite IH. reflexivity.
  - intros Hnone.
    induction (visited zone endDate startDate) as [|t l IH]; [reflexivity|].
    cbn [List.filter]. unfold isBlockedDate at 1.
    destruct (includes wd (JsDate.getDay (JsDate.localTime zone t))) eqn:E;
      [|exact IH].
    apply includes_spec in E. destruct (Hnone _ (getDay_range _) E).
Qed.

Lemma expandedBlockedDates_weekday_set_witness :
  expandedBlockedDates havana
    (instantOf (-18000000) (JsDate.ofCivil 2024 3 1))
    (instantOf (-14400000) (JsDate.ofCivil 2024 3 31)) [0; 6]
  = expandedBlockedDates havana
      (instantOf (-18000000) (JsDate.ofCivil 2024 3 1))
      (instantOf (-14400000) (JsDate.ofCivil 2024 3 31)) [6; 7; 0; 6; -1].
Proof.
  refine (proj1 (expandedBlockedDates_weekday_set havana _ _ [0; 6]
                   [6; 7; 0; 6; -1] _)).
  intros n Hn. set_unfold. lia.
Defined.

(** ** Comparing dates as strings *)

Lemma ascii_compare_digit_val (a b : ascii) :
  Ascii.compare a b = Z.compare (JsDate.digit_val a) (JsDate.digit_val b).
Proof.
  unfold Ascii.compare, JsDate.digit_val, nat_of_ascii.
  rewrite !N_nat_Z.
  destruct (N.compare_spec (N_of_ascii a) (N_of_ascii b)); symmetry;
    [apply Z.compare_eq_iff|apply Z.compare_lt_iff|apply Z.compare_gt_iff]; lia.
Qed.

Lemma is_digit_val (c : ascii) :
  JsDate.is_digit c = true -> 0 <= JsDate.digit_val c <= 9.
Proof.
  unfold JsDate.is_digit, JsDate.digit_val. intros H.
  apply andb_true_iff in H as [H1 H2].
  apply Nat.leb_le in H1, H2. lia.
Qed.

Lemma parseCivil_inv (s : string) (c : Z * Z * Z) :
  JsDate.parseCivil s = Some c ->
  exists y1 y2 y3 y4 m1 m2 d1 d2,
    s = String y1 (String y2 (String y3 (String y4 (String "-"
          (String m1 (String m2 (String "-"
            (String d1 (String d2 EmptyString)))))))))
    /\ forallb JsDate.is_digit [y1; y2; y3; y4; m1; m2; d1; d2] = true
    /\ Forall (fun x => 0 <= JsDate.digit_val x <= 9)
         [y1; y2; y3; y4; m1; m2; d1; d2]
    /\ c = (1000 * JsDate.digit_val y1 + 100 * JsDate.digit_val y2
            + 10 * JsDate.digit_val y3 + JsDate.digit_val y4,
            10 * JsDate.digit_val m1 + JsDate.digit_val m2,
            10 * JsDate.digit_val d1 + JsDate.digit_val d2).
Proof.
  unfold JsDate.parseCivil.
  do 10 (destruct s as [|? s]; [discriminate|]).
  destruct s; [|discriminate].
  match goal with
  | |- context [if ?c then _ else _] => destruct c eqn:E; [|discriminate]
  end.
  intros [= <-].
  apply andb_true_iff in E as [E Hd].
  apply andb_true_iff in E as [E1 E2].
  apply dash_eq in E1, E2. subst.
  do 8 eexists. split; [reflexivity|]. split; [exact Hd|].
  split; [|reflexivity].
  cbn [forallb] in Hd. repeat (apply andb_true_iff in Hd as [? Hd]).
  repeat constructor; apply is_digit_val; assumption.
Qed.

Lemma parseCivil_splitT0 (s : string) (c : Z * Z * Z) :
  JsDate.parseCivil s = Some c -> JsString.splitT0 s = s.
Proof.
  intros H. apply parseCivil_inv in H
    as (y1 & y2 & y3 & y4 & m1 & m2 & d1 & d2 & -> & Hd & _ & _).
  cbn [forallb] in Hd. repeat (apply andb_true_iff in Hd as [? Hd]).
  cbn [JsString.splitT0].
  repeat first [ rewrite digit_not_T by assumption
               | progress change (Ascii.eqb "-" "T") with false ].
  reflexivity.
Qed.

Ltac compare_digit :=
  match goal with
  | |- context [Z.compare ?a ?b] =>
      destruct (Z.compare_spec a b) as [?|?|?];
      [ | symmetry; apply Z.compare_lt_iff; lia
        | symmetry; apply Z.compare_gt_iff; lia ]
  end.

Lemma canonical_compare (s1 s2 : string) (c1 c2 : Z * Z * Z) :
  JsDate.parseCivil s1 = Some c1 -> JsDate.parseCivil s2 = Some c2 ->
  String.compare s1 s2 = Z.compare (dateKey c1) (dateKey c2).
Proof.
  intros H1 H2.
  apply parseCivil_inv in H1
    as (a1 & a2 & a3 & a4 & a5 & a6 & a7 & a8 & -> & _ & Ha & ->).
  apply parseCivil_inv in H2
    as (b1 & b2 & b3 & b4 & b5 & b6 & b7 & b8 & -> & _ & Hb & ->).
  repeat match goal with
         | H : Forall _ (_ :: _) |- _ => apply Forall_cons in H as [? H]
         end.
  cbn [String.compare]. change (Ascii.compare "-" "-") with Eq. cbv iota.
  rewrite !ascii_compare_digit_val. unfold dateKey.
  do 8 (compare_digit; []).
  symmetry. apply Z.compare_eq_iff. lia.
Qed.

Lemma dateKey_order (c1 c2 : Z * Z * Z) :
  (let '(_, m1, d1) := c1 in 0 <= m1 <= 99 /\ 0 <= d1 <= 99) ->
  (let '(_, m2, d2) := c2 in 0 <= m2 <= 99 /\ 0 <= d2 <= 99) ->
  (dateKey c1 < dateKey c2 <-> civilBefore c1 c2)
  /\ (dateKey c1 = dateKey c2 <-> c1 = c2).
Proof.
  destruct c1 as [[y1 m1] d1], c2 as [[y2 m2] d2]. unfold dateKey, civilBefore.
  intros B1 B2. cbv beta iota in B1, B2. destruct B1, B2.
  split; split; try lia.
  - intros Hkey. assert (y1 = y2) by lia. assert (m1 = m2) by lia.
    assert (d1 = d2) by lia. congruence.
  - intros [= -> -> ->]. reflexivity.
Qed.

Lemma parseCivil_bounds (s : string) (c : Z * Z * Z) :
  JsDate.parseCivil s = Some c ->
  let '(_, m, d) := c in 0 <= m <= 99 /\ 0 <= d <= 99.
Proof.
  intros H. apply parseCivil_inv in H
    as (a1 & a2 & a3 & a4 & a5 & a6 & a7 & a8 & _ & _ & Ha & ->).
  repeat match goal with
         | H : Forall _ (_ :: _) |- _ => apply Forall_cons in H as [? H]
         end.
  lia.
Qed.

(** X10. Comparing date strings is comparing dates. For two strings of
    the shape YYYY-MM-DD, the string comparisons the range filter and the
    matcher use ([<=], [>=], [===]) agree with the order of the calendar
    on year, month and day; so the range filter keeps a booking exactly
    when its date is neither before the start nor after the end of the
    range. *)
Theorem date_strings_compare_as_dates :
  forall (s1 s2 : string) (c1 c2 : Z * Z * Z),
    JsDate.parseCivil s1 = Some c1 -> JsDate.parseCivil s2 = Some c2 ->
    (JsString.str_le s1 s2 = true <-> ~ civilBefore c2 c1)
    /\ (JsString.str_ge s1 s2 = true <-> ~ civilBefore c1 c2)
    /\ (String.eqb s1 s2 = true <-> c1 = c2)
    /\ (String.ltb s1 s2 = true <-> civilBefore c1 c2)
    /\ (forall b endStr c3, requested_date b = Some s1 ->
          JsDate.parseCivil endStr = Some c3 ->
          (inRange s2 endStr b = Ok true
           <-> ~ civilBefore c1 c2 /\ ~ civilBefore c3 c1)).
Proof.
  intros s1 s2 c1 c2 H1 H2.
  pose proof (canonical_compare s1 s2 c1 c2 H1 H2) as Hcmp.
  pose proof (canonical_compare s2 s1 c2 c1 H2 H1) as Hcmp'.
  pose proof (parseCivil_bounds s1 c1 H1) as B1.
  pose proof (parseCivil_bounds s2 c2 H2) as B2.
  destruct (dateKey_order c1 c2 B1 B2) as [Hlt Heq].
  destruct (dateKey_order c2 c1 B2 B1) as [Hgt _].
  assert (Hle : String.leb s1 s2 = true <-> ~ civilBefore c2 c1).
  { unfold String.leb. rewrite Hcmp, <- Hgt.
    destruct (Z.compare_spec (dateKey c1) (dateKey c2)); split;
      try discriminate; try reflexivity; lia. }
  assert (Hge : String.leb s2 s1 = true <-> ~ civilBefore c1 c2).
  { unfold String.leb. rewrite Hcmp', <- Hlt.
    destruct (Z.compare_spec (dateKey c2) (dateKey c1)); split;
      try discriminate; try reflexivity; lia. }
  split; [exact Hle|]. split; [exact Hge|]. split; [|split].
  - rewrite String.eqb_eq, <- Heq. split.
    + intros ->. congruence.
    + intros E. apply String.compare_eq_iff. rewrite Hcmp, E.
      apply Z.compare_refl.
  - unfold String.ltb. rewrite Hcmp, <- Hlt.
    destruct (Z.compare_spec (dateKey c1) (dateKey c2)); split;
      try discriminate; try reflexivity; lia.
  - intros b endStr c3 Hb H3. unfold inRange. rewrite Hb.
    rewrite (parseCivil_splitT0 s1 c1 H1). unfold JsString.str_ge, JsString.str_le.
    pose proof (canonical_compare s1 endStr c1 c3 H1 H3) as Hcmp3.
    pose proof (parseCivil_bounds endStr c3 H3) as B3.
    destruct (dateKey_order c3 c1 B3 B1) as [Hgt3 _].
    assert (Hle3 : String.leb s1 endStr = true <-> ~ civilBefore c3 c1).
    { unfold String.leb. rewrite Hcmp3, <- Hgt3.
      destruct (Z.compare_spec (dateKey c1) (dateKey c3)); split;
        try discriminate; try reflexivity; lia. }
    rewrite <- Hge, <- Hle3. split.
    + intros [= H]. apply andb_true_iff in H. exact H.
    + intros [-> ->]. reflexivity.
Qed.

Lemma date_strings_compare_as_dates_witness :
  String.ltb "2023-12-31" "2024-01-01" = true
  <-> civilBefore (2023, 12, 31) (2024, 1, 1).
Proof.
  exact (proj1 (proj2 (proj2 (proj2
    (date_strings_compare_as_dates "2023-12-31" "2024-01-01"
       (2023, 12, 31) (2024, 1, 1) eq_refl eq_refl))))).
Defined.

(** ** Days in calendar order *)

Lemma orderedFrom_spec (n : nat) (a doe : Z) :
  orderedFrom n a (dateKey (civilOfDoe a)) = true ->
  a <= doe < a + Z.of_nat n ->
  dateKey (civilOfDoe doe) < dateKey (civilOfDoe (doe + 1)).
Proof.
  revert a. induction n as [|n IH]; intros a; cbn [orderedFrom]; [lia|].
  intros H Hr. apply andb_true_iff in H as [H1 H2].
  destruct (Z.eq_dec doe a) as [->|Hne]; [apply Z.ltb_lt, H1|].
  apply (IH (a + 1) H2). lia.
Qed.

Lemma era_ordered (doe : Z) :
  0 <= doe < 146096 ->
  dateKey (civilOfDoe doe) < dateKey (civilOfDoe (doe + 1)).
Proof.
  intros H. apply (orderedFrom_spec (Z.to_nat 146096) 0).
  - vm_compute. reflexivity.
  - rewrite Z2Nat.id; lia.
Qed.

Lemma dateKey_civilFromDays (n : Z) :
  dateKey (JsDate.civilFromDays n)
  = dateKey (civilOfDoe ((n + 719468) mod 146097))
    + (n + 719468) / 146097 * 4000000.
Proof.
  rewrite civilFromDays_era.
  destruct (civilOfDoe ((n + 719468) mod 146097)) as [[y0 m] d].
  unfold dateKey. lia.
Qed.

Lemma dateKey_next_day (n : Z) :
  dateKey (JsDate.civilFromDays n) < dateKey (JsDate.civilFromDays (n + 1)).
Proof.
  rewrite !dateKey_civilFromDays.
  assert (Hdoe : 0 <= (n + 719468) mod 146097 < 146097)
    by (apply Z.mod_pos_bound; lia).
  assert (Hz : n + 719468
               = 146097 * ((n + 719468) / 146097) + (n + 719468) mod 146097)
    by (apply Z.div_mod; discriminate).
  set (era := (n + 719468) / 146097) in *.
  set (doe := (n + 719468) mod 146097) in *.
  destruct (Z.eq_dec doe 146096) as [Hlast|Hlast].
  - assert (Hq : (n + 1 + 719468) / 146097 = era + 1)
      by (symmetry; apply (Z.div_unique _ _ _ 0); lia).
    assert (Hr : (n + 1 + 719468) mod 146097 = 0)
      by (symmetry; apply (Z.mod_unique _ _ (era + 1)); lia).
    rewrite Hq, Hr, Hlast.
    change (dateKey (civilOfDoe 146096)) with 4000229.
    change (dateKey (civilOfDoe 0)) with 301. lia.
  - assert (Hq : (n + 1 + 719468) / 146097 = era)
      by (symmetry; apply (Z.div_unique _ _ _ (doe + 1)); lia).
    assert (Hr : (n + 1 + 719468) mod 146097 = doe + 1)
      by (symmetry; apply (Z.mod_unique _ _ era); lia).
    rewrite Hq, Hr. pose proof (era_ordered doe). lia.
Qed.

Lemma dateKey_monotone (a b : Z) :
  a < b -> dateKey (JsDate.civilFromDays a) < dateKey (JsDate.civilFromDays b).
Proof.
  intros H. replace b with (a + 1 + (b - a - 1)) by lia.
  assert (Hk : 0 <= b - a - 1) by lia. revert Hk.
  generalize (b - a - 1) as k. clear b H. intros k Hk.
  pattern k. apply natlike_ind; [| |exact Hk].
  - rewrite Z.add_0_r. apply dateKey_next_day.
  - intros x Hx IH. replace (a + 1 + Z.succ x) with (a + 1 + x + 1) by lia.
    pose proof (dateKey_next_day (a + 1 + x)). lia.
Qed.

Lemma parseCivil_formatDay (n : Z) :
  firstDay <= n <= lastDay ->
  JsDate.parseCivil (formatDay n) = Some (JsDate.civilFromDays n).
Proof.
  intros Hn. pose proof (civilFromDays_valid n Hn) as Hv.
  unfold formatDay. destruct (JsDate.civilFromDays n) as [[y m] d].
  unfold JsDate.validCivil in Hv.
  repeat (apply andb_true_iff in Hv as [Hv ?]).
  assert (JsDate.daysInMonth y m <= 31).
  { unfold JsDate.daysInMonth.
    repeat match goal with |- context [if ?c then _ else _] => destruct c end; lia. }
  apply parse_format; lia.
Qed.

Lemma formatDay_compare (a b : Z) :
  firstDay <= a <= lastDay -> firstDay <= b <= lastDay ->
  String.compare (formatDay a) (formatDay b) = Z.compare a b.
Proof.
  intros Ha Hb.
  rewrite (canonical_compare _ _ _ _ (parseCivil_formatDay a Ha)
             (parseCivil_formatDay b Hb)).
  destruct (Z.compare_spec a b) as [->|H|H].
  - apply Z.compare_refl.
  - apply Z.compare_lt_iff, dateKey_monotone, H.
  - apply Z.compare_gt_iff, dateKey_monotone, H.
Qed.

Lemma formatDay_leb (a b : Z) :
  firstDay <= a <= lastDay -> firstDay <= b <= lastDay ->
  String.leb (formatDay a) (formatDay b) = (a <=? b).
Proof.
  intros Ha Hb. unfold String.leb, Z.leb.
  rewrite (formatDay_compare a b Ha Hb). reflexivity.
Qed.

Lemma string_compare_refl (s : string) : String.compare s s = Eq.
Proof.
  pose proof (String.compare_antisym s s) as H.
  destruct (String.compare s s); [reflexivity|discriminate H|discriminate H].
Qed.

Lemma formatDay_inj (a b : Z) :
  firstDay <= a <= lastDay -> firstDay <= b <= lastDay ->
  formatDay a = formatDay b -> a = b.
Proof.
  intros Ha Hb E. apply Z.compare_eq.
  rewrite <- (formatDay_compare a b Ha Hb), E. apply string_compare_refl.
Qed.

Lemma formatDay_ltb (a b : Z) :
  firstDay <= a <= lastDay -> firstDay <= b <= lastDay ->
  a < b -> String.ltb (formatDay a) (formatDay b) = true.
Proof.
  intros Ha Hb Hlt. unfold String.ltb.
  rewrite (formatDay_compare a b Ha Hb), (proj2 (Z.compare_lt_iff a b) Hlt).
  reflexivity.
Qed.

(** X11. The matcher in days. For the date string of day [d] and a
    booking whose start and end are the date strings of days [s] and [e]
    (years 0000 to 9999), the booking is shown exactly when
    [s <= d <= e]; a booking without an end date exactly when [d = s]. *)
Theorem getBookingsForDate_between_days :
  forall (bookings shown : list Booking) (d : Z),
    firstDay <= d <= lastDay ->
    getBookingsForDate bookings (formatDay d) = Ok shown ->
    (forall b s e, b ∈ bookings ->
       firstDay <= s <= lastDay -> firstDay <= e <= lastDay ->
       startOf b = Some (formatDay s) -> endOf b = Some (formatDay e) ->
       (b ∈ shown <-> s <= d <= e))
    /\ (forall b s, b ∈ bookings -> firstDay <= s <= lastDay ->
          startOf b = Some (formatDay s) -> endOf b = None ->
          (b ∈ shown <-> d = s)).
Proof.
  intros bookings shown d Hd Hrun.
  apply getBookingsForDate_Ok_filter in Hrun. subst shown. split.
  - intros b s e Hb Hs He Hstart Hend.
    rewrite list_elem_of_In, filter_In, <- list_elem_of_In.
    unfold overlapsDate. rewrite Hstart, Hend.
    rewrite !formatDay_leb, andb_true_iff, !Z.leb_le by assumption. tauto.
  - intros b s Hb Hs Hstart Hend.
    rewrite list_elem_of_In, filter_In, <- list_elem_of_In.
    unfold overlapsDate. rewrite Hstart, Hend, String.eqb_eq. split.
    + intros [_ E]. symmetry. apply (formatDay_inj s d Hs Hd E).
    + intros ->. tauto.
Qed.

Lemma getBookingsForDate_between_days_witness :
  sampleBooking "approved" (Some "2024-02-28") (Some "2024-03-01")
    ∈ [sampleBooking "approved" (Some "2024-02-28") (Some "2024-03-01")]
  <-> 19781 <= 19782 <= 19783.
Proof.
  refine (proj1 (getBookingsForDate_between_days
                   [sampleBooking "approved" (Some "2024-02-28") (Some "2024-03-01")]
                   _ 19782 _ _) _ 19781 19783 _ _ _ _ _).
  - unfold firstDay, lastDay. lia.
  - vm_compute. reflexivity.
  - apply list_elem_of_here.
  - unfold firstDay, lastDay. lia.
  - unfold firstDay, lastDay. lia.
  - vm_compute. reflexivity.
  - vm_compute. reflexivity.
Defined.

Lemma expandedBlockedDates_midnights (zone : JsDate.Zone) (c s e : Z)
    (wd : list Z) :
  steady zone c (instantOf c (JsDate.midnight s)) (instantOf c (JsDate.midnight e)) ->
  expandedBlockedDates zone (instantOf c (JsDate.midnight s))
    (instantOf c (JsDate.midnight e)) wd
  = map formatDay (blockedDays s e wd).
Proof.
  rewrite <- (Z.add_0_r (JsDate.midnight s)), <- (Z.add_0_r (JsDate.midnight e)).
  intros Hz.
  apply (expandedBlockedDates_times zone c s e 0 0 wd);
    [unfold JsDate.msPerDay; lia|unfold JsDate.msPerDay; lia|exact Hz].
Qed.

Lemma map_formatDay_sorted (l : list Z) :
  Forall (fun d => firstDay <= d <= lastDay) l ->
  StronglySorted Z.lt l ->
  StronglySorted (fun a b => String.ltb a b = true) (map formatDay l).
Proof.
  intros Hr Hs. induction Hs as [|a l Hs IH Ha]; cbn [map]; [constructor|].
  apply Forall_cons in Hr as [Hra Hr]. constructor; [apply IH, Hr|].
  apply Forall_map, Forall_forall. intros b Hb.
  apply formatDay_ltb; [exact Hra| |].
  - exact (proj1 (Forall_forall _ _) Hr b Hb).
  - exact (proj1 (Forall_forall _ _) Ha b Hb).
Qed.

(** X12. Looking a day up among the blocked dates. In a zone whose
    offset does not change during the loop, for a range from local
    midnight of day [s] to local midnight of day [e] within the years 0000
    to 9999, the date string of day [d] is among the expanded dates
    exactly when [d] lies in the range and its weekday is blocked; the
    strings come in strictly ascending string order, so none occurs
    twice. *)
Theorem expandedBlockedDates_lookup :
  forall (zone : JsDate.Zone) (c s e : Z) (blockedWeekdays : list Z),
    steady zone c (instantOf c (JsDate.midnight s))
      (instantOf c (JsDate.midnight e)) ->
    firstDay <= s -> e <= lastDay ->
    (forall d, firstDay <= d <= lastDay ->
       (formatDay d
          ∈ expandedBlockedDates zone (instantOf c (JsDate.midnight s))
              (instantOf c (JsDate.midnight e)) blockedWeekdays
        <-> s <= d <= e /\ weekdayOf d ∈ blockedWeekdays))
    /\ StronglySorted (fun a b => String.ltb a b = true)
         (expandedBlockedDates zone (instantOf c (JsDate.midnight s))
            (instantOf c (JsDate.midnight e)) blockedWeekdays)
    /\ NoDup (expandedBlockedDates zone (instantOf c (JsDate.midnight s))
                (instantOf c (JsDate.midnight e)) blockedWeekdays).
Proof.
  intros zone c s e wd Hz Hs He.
  rewrite (expandedBlockedDates_midnights zone c s e wd Hz).
  assert (Hr : Forall (fun d => firstDay <= d <= lastDay) (blockedDays s e wd)).
  { apply Forall_forall. intros d Hd. apply blockedDays_spec in Hd. lia. }
  assert (Hsorted : StronglySorted Z.lt (blockedDays s e wd))
    by apply filter_sorted, seqZ_sorted.
  split; [|split].
  - intros d Hd. rewrite <- blockedDays_spec. split.
    + intros Hin. apply list_elem_of_In, in_map_iff in Hin as (d' & E & Hd').
      apply list_elem_of_In in Hd'.
      assert (d' = d); [|congruence].
      apply formatDay_inj; [|exact Hd|exact E].
      exact (proj1 (Forall_forall _ _) Hr d' Hd').
    + intros Hin. apply list_elem_of_In, in_map, list_elem_of_In, Hin.
  - apply map_formatDay_sorted; assumption.
  - pose proof (map_formatDay_sorted _ Hr Hsorted) as H.
    induction H as [|a l _ IH Ha]; constructor; [|exact IH].
    intros Hin. pose proof (proj1 (Forall_forall _ _) Ha a Hin) as Hlt.
    unfold String.ltb in Hlt.
    rewrite string_compare_refl in Hlt. discriminate.
Qed.

Lemma expandedBlockedDates_lookup_witness :
  "2024-03-02"
    ∈ expandedBlockedDates (JsDate.fixedZone 28800000)
        (instantOf 28800000 (JsDate.midnight 19783))
        (instantOf 28800000 (JsDate.midnight 19813)) [0; 6]
  <-> 19783 <= 19784 <= 19813 /\ weekdayOf 19784 ∈ [0; 6].
Proof.
  refine (proj1 (expandedBlockedDates_lookup (JsDate.fixedZone 28800000) 28800000
                   19783 19813 [0; 6] _ _ _) 19784 _);
    try (unfold firstDay, lastDay; lia).
  intros t _. split; reflexivity.
Defined.

(** ** Steps 2 to 4 on the heap *)

Lemma frame_dom (h h' : heap) :
  (forall l, l ∈ dom h -> h' !! l = h !! l) -> dom h ⊆ dom h'.
Proof.
  intros Hframe l Hl. apply elem_of_dom. rewrite (Hframe l Hl).
  apply elem_of_dom, Hl.
Qed.

Lemma frame_trans (h h1 h2 : heap) :
  (forall l, l ∈ dom h -> h1 !! l = h !! l) ->
  (forall l, l ∈ dom h1 -> h2 !! l = h1 !! l) ->
  forall l, l ∈ dom h -> h2 !! l = h !! l.
Proof.
  intros H1 H2 l Hl. rewrite (H2 l (frame_dom h h1 H1 l Hl)). apply H1, Hl.
Qed.

Lemma frame_insert_fresh (h : heap) (k : loc) (c : cell) :
  k ∉ dom h -> forall l, l ∈ dom h -> (<[k := c]> h) !! l = h !! l.
Proof. intros Hk l Hl. apply lookup_insert_ne. intros <-. contradiction. Qed.

Lemma adaptEvent_fields (event : loc) :
  adaptEvent event = (e ← readObj event; adaptFields e).
Proof. reflexivity. Qed.

(** One run of the adapter. *)
Lemma adaptEvent_run (h : heap) (event : loc) (ev : Event) :
  decodeEvent h event = Some ev ->
  exists (lb : loc) (h' : heap),
    adaptEvent event h = Ok (lb, h')
    /\ decodeBooking h' (VRef lb) = Some (eventToBooking ev)
    /\ (lb ∉ dom h)
    /\ (forall l, l ∈ dom h -> h' !! l = h !! l).
Proof.
  intros Hev.
  destruct (decodeEvent_inv h event ev Hev)
    as (e & He & Hid & Hcid & Htid & Hed & Hend & Htitle & Htype & Hcourse).
  destruct (optTitle_decode h _ _ Hcourse) as (tv & Hrun & Htv).
  destruct (orElseV_decode _ _ _ _ Htitle Htv) as [Hor Hnoref].
  set (lc := fresh (dom h)).
  set (oc := list_to_map [("id", get e "courseId");
                          ("title", orElseV (get e "title") tv)]
             : gmap string val).
  set (h1 := <[lc := CObj oc]> h).
  set (lb := fresh (dom h1)).
  assert (Hlc : lc ∉ dom h) by apply is_fresh.
  assert (Hlb1 : lb ∉ dom h1) by apply is_fresh.
  assert (Hne : lb <> lc).
  { intros E. apply Hlb1. unfold h1. rewrite dom_insert_L, E. set_solver. }
  assert (Hlb : lb ∉ dom h).
  { intros Hin. apply Hlb1. unfold h1. rewrite dom_insert_L. set_solver. }
  exists lb. eexists.
  split.
  { unfold adaptEvent. run_heap. rewrite He, Hrun, !alloc_run.
    fold lc. fold oc. fold h1. fold lb. reflexivity. }
  split.
  { unfold decodeBooking. rewrite lookup_insert_eq.
    unfold get. cbn [list_to_map foldr fst snd]. simplify_map_eq.
    fold_get e. rewrite Hid, Hcid, Htid. unfold normalizeDateV.
    rewrite decodeDate_ofOption, toOption_ofOption, Hed, Hend.
    unfold h1. rewrite lookup_insert_eq. unfold oc, get. simplify_map_eq.
    fold_get e. rewrite Hcid, Hor, strictEq_public, Htype.
    unfold eventToBooking. repeat f_equal.
    case_bool_decide; case_decide; congruence. }
  split; [exact Hlb|].
  apply (frame_trans h h1); apply frame_insert_fresh; assumption.
Qed.

Lemma decodeBooking_allocated (h : heap) (v : val) (b : Booking) :
  decodeBooking h v = Some b -> exists l, v = VRef l /\ l ∈ dom h.
Proof.
  intros H. destruct (decodeBooking_inv h v b H) as (l & o & -> & Hl & _).
  exists l. split; [reflexivity|exact (lookup_allocated Hl)].
Qed.

Lemma mapH_adaptElement (vs : list val) (evs : list Event) :
  forall h : heap,
    Forall2 (fun v ev => decodeEventV h v = Some ev) vs evs ->
    exists (bs : list val) (h' : heap),
      mapH adaptElement vs h = Ok (bs, h')
      /\ Forall2 (fun v b => decodeBooking h' v = Some b) bs (eventBookings evs)
      /\ (forall l, l ∈ dom h -> h' !! l = h !! l)
      /\ Forall (fun v => exists l, v = VRef l /\ l ∉ dom h) bs
      /\ NoDup bs.
Proof.
  revert evs. induction vs as [|v vs IH]; intros evs h Hdec.
  - apply Forall2_nil_inv_l in Hdec as ->. exists [], h.
    repeat split; try constructor.
  - apply Forall2_cons_inv_l in Hdec as (ev & evs' & Hv & Hrest & ->).
    destruct v as [| |s|l]; try discriminate Hv. cbn [decodeEventV] in Hv.
    destruct (adaptEvent_run h l ev Hv) as (lb & h1 & Hrun & Hb & Hfresh & Hframe).
    assert (Hrest1 : Forall2 (fun v ev => decodeEventV h1 v = Some ev) vs evs').
    { eapply Forall2_impl; [exact Hrest|]. intros [| |s|k] ev'; try discriminate.
      apply decodeEvent_frame, Hframe. }
    destruct (IH evs' h1 Hrest1) as (bs & h2 & Hmap & Hbs & Hframe2 & Hnew & Hnd).
    exists (VRef lb :: bs), h2. split; [|split; [|split; [|split]]].
    + cbn [mapH adaptElement]. run_heap. rewrite Hrun, Hmap. reflexivity.
    + cbn [eventBookings map]. constructor; [|exact Hbs].
      eapply decodeBooking_frame; [exact Hframe2|exact Hb].
    + apply (frame_trans h h1 h2); assumption.
    + constructor; [eauto|]. eapply Forall_impl; [exact Hnew|].
      intros v (k & -> & Hk). exists k. split; [reflexivity|].
      intros Hin. apply Hk, (frame_dom h h1 Hframe), Hin.
    + constructor; [|exact Hnd]. intros Hin.
      apply (proj1 (Forall_forall _ _) Hnew) in Hin as (k & [= <-] & Hk).
      apply Hk. destruct (decodeBooking_allocated h1 _ _ Hb) as (k & [= <-] & Hdom).
      exact Hdom.
Qed.

Lemma decodeEvents_inv (h : heap) (l : loc) (evs : list Event) :
  decodeEvents h l = Some evs ->
  exists vs, h !! l = Some (CArr vs)
    /\ Forall2 (fun v ev => decodeEventV h v = Some ev) vs evs.
Proof.
  unfold decodeEvents. destruct (h !! l) as [[|vs|]|]; try discriminate.
  intros H. exists vs. split; [reflexivity|]. apply mapM_Some, H.
Qed.

Lemma decodeEvents_frame (h h2 : heap) (l : loc) (evs : list Event) :
  (forall k, k ∈ dom h -> h2 !! k = h !! k) ->
  decodeEvents h l = Some evs -> decodeEvents h2 l = Some evs.
Proof.
  intros Hframe H. destruct (decodeEvents_inv h l evs H) as (vs & Hl & Hvs).
  unfold decodeEvents. rewrite (Hframe l (lookup_allocated Hl)), Hl.
  apply mapM_Some. eapply Forall2_impl; [exact Hvs|].
  intros [| |s|k] ev'; try discriminate. apply decodeEvent_frame, Hframe.
Qed.

Lemma decodeBookings_frame (h h2 : heap) (l : loc) (bs : list Booking) :
  (forall k, k ∈ dom h -> h2 !! k = h !! k) ->
  decodeBookings h l = Some bs -> decodeBookings h2 l = Some bs.
Proof.
  intros Hframe H. destruct (decodeBookings_inv h l bs H) as (vs & Hl & Hvs).
  eapply decodeBookings_intro.
  - rewrite (Hframe l (lookup_allocated Hl)). exact Hl.
  - eapply decodeAll_frame; eassumption.
Qed.

(** One run of step 2, cell by cell. *)
Lemma eventBookingsH_run (h : heap) (le : loc) (evs : list Event) :
  decodeEvents h le = Some evs ->
  exists (out : loc) (bs : list val) (h' : heap),
    eventBookingsH le h = Ok (out, h')
    /\ h' !! out = Some (CArr bs)
    /\ Forall2 (fun v b => decodeBooking h' v = Some b) bs (eventBookings evs)
    /\ (out ∉ dom h)
    /\ (forall l, l ∈ dom h -> h' !! l = h !! l)
    /\ Forall (fun v => exists l, v = VRef l /\ l ∉ dom h) bs
    /\ NoDup bs.
Proof.
  intros Hdec. destruct (decodeEvents_inv h le evs Hdec) as (vs & Hle & Hvs).
  destruct (mapH_adaptElement vs evs h Hvs) as (bs & h1 & Hmap & Hbs & Hframe & Hnew & Hnd).
  assert (Hout : fresh (dom h1) ∉ dom h1) by apply is_fresh.
  exists (fresh (dom h1)), bs, (<[fresh (dom h1) := CArr bs]> h1).
  split; [|split; [|split; [|split; [|split; [|split]]]]].
  - unfold eventBookingsH. run_heap. rewrite Hle, Hmap, alloc_run. reflexivity.
  - apply lookup_insert_eq.
  - eapply decodeAll_frame; [|exact Hbs]. apply frame_insert_fresh, Hout.
  - intros Hin. apply Hout, (frame_dom h h1 Hframe), Hin.
  - apply (frame_trans h h1); [exact Hframe|]. apply frame_insert_fresh, Hout.
  - exact Hnew.
  - exact Hnd.
Qed.

(** X13. Step 2 on the heap. For an array of event objects that read as
    the records [evs], the [map] returns a new array that reads as
    [eventBookings evs], one booking object per event, in order. Every
    booking object is newly allocated and no two elements are the same
    object, even for an event that occurs twice in the array; no cell
    that existed before is written, so the events read as before. *)
Theorem eventBookingsH_fresh_objects :
  forall (h : heap) (allEvents : loc) (evs : list Event),
    decodeEvents h allEvents = Some evs ->
    exists (out : loc) (h' : heap),
      eventBookingsH allEvents h = Ok (out, h')
      /\ decodeBookings h' out = Some (eventBookings evs)
      /\ (out ∉ dom h)
      /\ (forall l, l ∈ dom h -> h' !! l = h !! l)
      /\ decodeEvents h' allEvents = Some evs
      /\ exists bs, h' !! out = Some (CArr bs)
           /\ List.length bs = List.length evs
           /\ NoDup bs
           /\ Forall (fun v => exists l, refOf v = Some l /\ l ∉ dom h) bs.
Proof.
  intros h le evs Hdec.
  destruct (eventBookingsH_run h le evs Hdec)
    as (out & bs & h' & Hrun & Hout & Hbs & Hfresh & Hframe & Hnew & Hnd).
  exists out, h'. split; [exact Hrun|].
  split; [eapply decodeBookings_intro; eassumption|].
  split; [exact Hfresh|]. split; [exact Hframe|].
  split; [eapply decodeEvents_frame; eassumption|].
  exists bs. split; [exact Hout|]. split.
  { rewrite (Forall2_length _ _ _ Hbs). unfold eventBookings. apply length_map. }
  split; [exact Hnd|].
  eapply Forall_impl; [exact Hnew|]. intros v (l & -> & Hl). exists l. auto.
Qed.

Lemma eventBookingsH_fresh_objects_witness :
  exists (out : loc) (h' : heap),
    eventBookingsH 8%positive sampleEventsHeap = Ok (out, h')
    /\ decodeBookings h' out = Some (eventBookings [sampleEvent]).
Proof.
  destruct (eventBookingsH_fresh_objects sampleEventsHeap 8%positive [sampleEvent])
    as (out & h' & Hrun & Hdec & _).
  - vm_compute. reflexivity.
  - exists out, h'. split; [exact Hrun|exact Hdec].
Defined.

Lemma combine_run (h : heap) (ld le : loc) (va vb : list val) :
  h !! ld = Some (CArr va) -> h !! le = Some (CArr vb) ->
  combine ld le h = Ok (fresh (dom h), <[fresh (dom h) := CArr (va ++ vb)]> h).
Proof.
  intros Ha Hb. unfold combine. run_heap. rewrite Ha, Hb, alloc_run. reflexivity.
Qed.

(** X14. Step 4 on the heap. The spread builds a new array of the
    elements of the two arrays, first those of the deduplicated bookings;
    it reads as the concatenation of the two lists. The booking objects
    are not copied: the new array holds the same references. Neither
    input array is written, and whatever is later stored in the new array
    leaves both as they were. *)
Theorem combine_fresh_array :
  forall (h : heap) (ld le : loc) (db eb : list Booking),
    decodeBookings h ld = Some db -> decodeBookings h le = Some eb ->
    exists (out : loc) (h' : heap) (va vb : list val),
      combine ld le h = Ok (out, h')
      /\ decodeBookings h' out = Some (db ++ eb)%list
      /\ (out ∉ dom h)
      /\ (forall l, l ∈ dom h -> h' !! l = h !! l)
      /\ h !! ld = Some (CArr va) /\ h !! le = Some (CArr vb)
      /\ h' !! out = Some (CArr (va ++ vb))
      /\ (forall c : cell,
            decodeBookings (<[out := c]> h') ld = Some db
            /\ decodeBookings (<[out := c]> h') le = Some eb).
Proof.
  intros h ld le db eb Hd He.
  destruct (decodeBookings_inv h ld db Hd) as (va & Hla & Hva).
  destruct (decodeBookings_inv h le eb He) as (vb & Hlb & Hvb).
  assert (Hout : fresh (dom h) ∉ dom h) by apply is_fresh.
  pose proof (frame_insert_fresh h _ (CArr (va ++ vb)) Hout) as Hframe.
  exists (fresh (dom h)), (<[fresh (dom h) := CArr (va ++ vb)]> h), va, vb.
  split; [exact (combine_run h ld le va vb Hla Hlb)|].
  split.
  { eapply decodeBookings_intro; [apply lookup_insert_eq|].
    eapply decodeAll_frame; [exact Hframe|]. apply Forall2_app; assumption. }
  split; [exact Hout|]. split; [exact Hframe|].
  split; [exact Hla|]. split; [exact Hlb|]. split; [apply lookup_insert_eq|].
  intros c. rewrite insert_insert_eq.
  split; (eapply decodeBookings_frame; [apply frame_insert_fresh, Hout|assumption]).
Qed.

Lemma combine_fresh_array_witness :
  exists (out : loc) (h' : heap),
    combine 6%positive 7%positive sampleHeap = Ok (out, h')
    /\ decodeBookings h' out
       = Some [sampleStored "b1" "2024-01-10" "confirmed";
               sampleStored "b2" "2024-01-11" "approved";
               sampleStored "e1" "2024-01-10" "booked"].
Proof.
  destruct (combine_fresh_array sampleHeap 6%positive 7%positive
              [sampleStored "b1" "2024-01-10" "confirmed";
               sampleStored "b2" "2024-01-11" "approved"]
              [sampleStored "e1" "2024-01-10" "booked"])
    as (out & h' & _ & _ & Hrun & Hdec & _).
  - vm_compute. reflexivity.
  - vm_compute. reflexivity.
  - exists out, h'. split; [exact Hrun|exact Hdec].
Defined.

(** Steps 2, 3 and 4 in sequence, cell by cell: the result reads as
    the combined list, and no cell that existed before is written. *)
Lemma calendarH_run :
  forall (h : heap) (lf le : loc) (fb : list Booking) (evs : list Event),
    decodeBookings h lf = Some fb -> decodeEvents h le = Some evs ->
    exists (out : loc) (h' : heap),
      calendarH lf le h = Ok (out, h')
      /\ decodeBookings h' out
         = Some (allCalendarBookings fb (eventBookings evs))
      /\ (out ∉ dom h)
      /\ (forall l, l ∈ dom h -> h' !! l = h !! l)
      /\ decodeBookings h' lf = Some fb
      /\ decodeEvents h' le = Some evs.
Proof.
  intros h lf le fb evs Hf He.
  destruct (eventBookingsH_run h le evs He)
    as (oe & bs & h1 & Hrun1 & Hoe & Hbs & Hoe_fresh & Hframe1 & _ & _).
  set (eb := eventBookings evs) in *.
  pose proof (decodeBookings_frame h h1 lf fb Hframe1 Hf) as Hf1.
  destruct (decodeBookings_inv h1 lf fb Hf1) as (vf & Hlf & Hvf).
  destruct (deduplicate_run h1 lf oe vf bs fb eb Hlf Hoe Hvf Hbs)
    as (Hrun2 & Hids & Hod & Hne).
  set (ids := fresh (dom h1)) in *.
  set (h1' := <[ids := CSet (eventIdentifiers eb)]> h1) in *.
  set (od := fresh (dom h1')) in *.
  set (kept := keptValues (eventIdentifiers eb) vf fb) in *.
  set (h2 := <[od := CArr kept]> h1') in *.
  assert (Hframe2 : forall l, l ∈ dom h1 -> h2 !! l = h1 !! l).
  { intros l Hl. unfold h2, h1'.
    rewrite !lookup_insert_ne by (intros <-; contradiction). reflexivity. }
  assert (Hod2 : h2 !! od = Some (CArr kept)) by apply lookup_insert_eq.
  assert (Hoe2 : h2 !! oe = Some (CArr bs))
    by (rewrite (Hframe2 oe (lookup_allocated Hoe)); exact Hoe).
  pose proof (combine_run h2 od oe kept bs Hod2 Hoe2) as Hrun3.
  set (out := fresh (dom h2)) in *.
  assert (Hout : out ∉ dom h2) by apply is_fresh.
  assert (Hframe3 : forall l, l ∈ dom h2 ->
            (<[out := CArr (kept ++ bs)]> h2) !! l = h2 !! l)
    by apply frame_insert_fresh, Hout.
  assert (Hframe : forall l, l ∈ dom h ->
            (<[out := CArr (kept ++ bs)]> h2) !! l = h !! l).
  { apply (frame_trans h h1); [exact Hframe1|].
    apply (frame_trans h1 h2); assumption. }
  exists out, (<[out := CArr (kept ++ bs)]> h2).
  split; [|split; [|split; [|split; [|split]]]].
  - unfold calendarH. run_heap. rewrite Hrun1, Hrun2, Hrun3. reflexivity.
  - eapply decodeBookings_intro; [apply lookup_insert_eq|].
    unfold allCalendarBookings. apply Forall2_app.
    + eapply decodeAll_frame; [apply (frame_trans h1 h2); eassumption|].
      apply keptValues_decode, Hvf.
    + eapply decodeAll_frame; [apply (frame_trans h1 h2); eassumption|exact Hbs].
  - intros Hin. apply Hout.
    apply (frame_dom h1 h2 Hframe2), (frame_dom h h1 Hframe1), Hin.
  - exact Hframe.
  - eapply decodeBookings_frame; eassumption.
  - eapply decodeEvents_frame; eassumption.
Qed.

Lemma Forall2_elem_of_l {A B} (P : A -> B -> Prop) (l : list A) (k : list B)
    (x : A) :
  Forall2 P l k -> x ∈ l -> exists y, P x y.
Proof.
  induction 1 as [|a b l k Hab _ IH]; intros Hx.
  - apply elem_of_nil in Hx. destruct Hx.
  - apply elem_of_cons in Hx as [->|Hx]; [eauto|exact (IH Hx)].
Qed.

Lemma keptValues_sublist (ids : gset string) (vs : list val) (bs : list Booking) :
  sublist (keptValues ids vs bs) vs.
Proof.
  revert bs. induction vs as [|v vs IH]; intros [|b bs]; cbn [keptValues];
    try apply sublist_nil_l.
  destruct (keepBooking ids b); [apply sublist_skip|apply sublist_cons]; apply IH.
Qed.

(** X15. The deduplication copies no booking: the elements of its
    result are references to the very objects of the filtered bookings,
    a sublist of that array's elements in their order, and each of these
    objects is as it was. *)
Theorem deduplicate_shares_objects :
  forall (h : heap) (lf le : loc) (fb eb : list Booking),
    decodeBookings h lf = Some fb -> decodeBookings h le = Some eb ->
    exists (out : loc) (h' : heap) (vf kept : list val),
      deduplicate lf le h = Ok (out, h')
      /\ h !! lf = Some (CArr vf)
      /\ h' !! out = Some (CArr kept)
      /\ sublist kept vf
      /\ List.length kept = List.length (deduplicatedBookings fb eb)
      /\ (forall v, v ∈ kept ->
            exists l, v = VRef l /\ l ∈ dom h /\ h' !! l = h !! l).
Proof.
  intros h lf le fb eb Hf He.
  destruct (decodeBookings_inv h lf fb Hf) as (vf & Hlf & Hfb).
  destruct (decodeBookings_inv h le eb He) as (ve & Hle & Heb).
  destruct (deduplicate_run h lf le vf ve fb eb Hlf Hle Hfb Heb)
    as (Hrun & Hids & Hout & Hne).
  set (kept := keptValues (eventIdentifiers eb) vf fb) in *.
  pose proof (keptValues_sublist (eventIdentifiers eb) vf fb) as Hsub.
  fold kept in Hsub.
  eexists _, _, vf, kept. split; [exact Hrun|]. split; [exact Hlf|].
  split; [apply lookup_insert_eq|]. split; [exact Hsub|]. split.
  { apply (Forall2_length (fun v b => decodeBooking h v = Some b)).
    apply keptValues_decode, Hfb. }
  intros v Hv. pose proof (elem_of_sublist _ _ _ Hv Hsub) as Hin.
  destruct (Forall2_elem_of_l _ _ _ _ Hfb Hin) as (b & Hb).
  destruct (decodeBooking_allocated h v b Hb) as (l & -> & Hl).
  exists l. split; [reflexivity|]. split; [exact Hl|].
  rewrite !lookup_insert_ne by (intros <-; contradiction). reflexivity.
Qed.

Lemma deduplicate_shares_objects_witness :
  exists (out : loc) (h' : heap) (kept : list val),
    deduplicate 6%positive 7%positive sampleHeap = Ok (out, h')
    /\ h' !! out = Some (CArr kept)
    /\ sublist kept [VRef 3%positive; VRef 4%positive].
Proof.
  destruct (deduplicate_shares_objects sampleHeap 6%positive 7%positive
              [sampleStored "b1" "2024-01-10" "confirmed";
               sampleStored "b2" "2024-01-11" "approved"]
              [sampleStored "e1" "2024-01-10" "booked"])
    as (out & h' & vf & kept & Hrun & Hlf & Hout & Hsub & _).
  - vm_compute. reflexivity.
  - vm_compute. reflexivity.
  - exists out, h', kept. split; [exact Hrun|]. split; [exact Hout|].
    assert (E : sampleHeap !! 6%positive
                = Some (CArr [VRef 3%positive; VRef 4%positive]))
      by (vm_compute; reflexivity).
    rewrite E in Hlf. injection Hlf as <-. exact Hsub.
Defined.

Lemma filterM_keepBookingH_throws (h : heap) (ids : loc) (S : gset string)
    (vs1 vs2 : list val) (bs1 : list Booking) (v : val) :
  h !! ids = Some (CSet S) ->
  Forall2 (fun v b => decodeBooking h v = Some b) vs1 bs1 ->
  keepBookingH ids v h = TypeError ->
  filterM (keepBookingH ids) (vs1 ++ v :: vs2) h = TypeError.
Proof.
  intros Hset Hdec Hv. induction Hdec as [|a b vs1 bs1 Ha _ IH].
  - cbn [app filterM]. run_heap. rewrite Hv. reflexivity.
  - cbn [app filterM]. run_heap.
    rewrite (keepBookingH_run h ids S a b Hset Ha), IH. reflexivity.
Qed.

(** X16. The deduplication reads the status of every filtered booking
    before anything else: a booking object whose [status] is no string
    (missing, [null]) makes the whole step throw, whatever the bookings
    before it and the events are. *)
Theorem deduplicate_requires_status :
  forall (h : heap) (lf le l : loc) (vs1 vs2 : list val) (o : gmap string val)
         (bs1 eb : list Booking),
    h !! lf = Some (CArr (vs1 ++ VRef l :: vs2)) ->
    Forall2 (fun v b => decodeBooking h v = Some b) vs1 bs1 ->
    h !! l = Some (CObj o) ->
    toOption (get o "status") = None ->
    decodeBookings h le = Some eb ->
    deduplicate lf le h = TypeError.
Proof.
  intros h lf le l vs1 vs2 o bs1 eb Hlf Hvs1 Hl Hst He.
  destruct (decodeBookings_inv h le eb He) as (ve & Hle & Heb).
  set (ids := fresh (dom h)).
  assert (Hids : ids ∉ dom h) by apply is_fresh.
  pose proof (frame_insert_fresh h ids (CSet ∅) Hids) as Hframe0.
  set (h1 := <[ids := CSet (eventIdentifiers eb)]> h).
  pose proof (frame_insert_fresh h ids (CSet (eventIdentifiers eb)) Hids) as Hframe1.
  fold h1 in Hframe1.
  unfold deduplicate.
  change (alloc (CSet ∅) ≫= _) with
    (fun h => match alloc (CSet ∅) h with
              | Ok (a, h') =>
                  (evs ← readArr le;
                   forEach (addIdentifier a) evs;;
                   fbs ← readArr lf;
                   kept ← filterM (keepBookingH a) fbs;
                   alloc (CArr kept)) h'
              | TypeError => TypeError
              end).
  cbv beta. rewrite alloc_run. fold ids. run_heap.
  rewrite (Hframe0 le (lookup_allocated Hle)), Hle.
  rewrite (forEach_addIdentifier h ids ve eb Hids Heb _ ∅ Hframe0)
    by apply lookup_insert_eq.
  rewrite insert_insert_eq. fold (eventIdentifiers eb). fold h1.
  rewrite (Hframe1 lf (lookup_allocated Hlf)), Hlf.
  rewrite (filterM_keepBookingH_throws h1 ids (eventIdentifiers eb) vs1 vs2 bs1).
  - reflexivity.
  - apply lookup_insert_eq.
  - eapply decodeAll_frame; [exact Hframe1|exact Hvs1].
  - unfold keepBookingH, deref, asString. run_heap.
    rewrite (Hframe1 l (lookup_allocated Hl)), Hl.
    destruct (get o "status"); try reflexivity. discriminate Hst.
Qed.

Lemma deduplicate_requires_status_witness :
  deduplicate 6%positive 7%positive
    (<[4%positive := CObj (list_to_map [("id", VStr "b2")])]> sampleHeap)
  = TypeError.
Proof.
  apply (deduplicate_requires_status _ 6%positive 7%positive 4%positive
           [VRef 3%positive] [] (list_to_map [("id", VStr "b2")])
           [sampleStored "b1" "2024-01-10" "confirmed"]
           [sampleStored "e1" "2024-01-10" "booked"]).
  - vm_compute. reflexivity.
  - constructor; [vm_compute; reflexivity|constructor].
  - vm_compute. reflexivity.
  - vm_compute. reflexivity.
  - vm_compute. reflexivity.
Defined.

(** ** The calendar grid *)

Lemma append_nil_l (s : string) : "" +:+ s = s.
Proof. reflexivity. Qed.

Lemma append_cons_l (c : ascii) (a s : string) :
  String c a +:+ s = String c (a +:+ s).
Proof. reflexivity. Qed.

Lemma has_dash_append (a s : string) : Grid.has_dash (a +:+ String "-" s) = true.
Proof.
  induction a as [|c a IH].
  - reflexivity.
  - rewrite append_cons_l. cbn [Grid.has_dash]. rewrite IH. apply orb_true_r.
Qed.

Lemma showIndex_no_dash (index : nat) : Grid.has_dash (Grid.showIndex index) = false.
Proof.
  unfold Grid.showIndex. induction (Nat.to_uint index) as [|d IH|d IH|d IH|d IH
    |d IH|d IH|d IH|d IH|d IH|d IH]; cbn; auto.
Qed.

Lemma showIndex_inj (i j : nat) : Grid.showIndex i = Grid.showIndex j -> i = j.
Proof.
  unfold Grid.showIndex. intros E.
  apply (f_equal DecimalString.NilEmpty.uint_of_string) in E.
  rewrite !DecimalString.NilEmpty.usu in E. injection E as E.
  apply (f_equal Nat.of_uint) in E.
  rewrite !DecimalNat.Unsigned.of_to in E. exact E.
Qed.

Lemma dash_suffix_inj (a b x y : string) :
  Grid.has_dash x = false -> Grid.has_dash y = false ->
  a +:+ String "-" x = b +:+ String "-" y -> x = y.
Proof.
  intros Hx Hy. revert b. induction a as [|c a IH]; intros [|c' b].
  - rewrite !append_nil_l. intros [= E]. exact E.
  - rewrite append_nil_l, append_cons_l. intros [= _ E].
    rewrite E, has_dash_append in Hx. discriminate Hx.
  - rewrite append_nil_l, append_cons_l. intros [= _ E].
    rewrite <- E, has_dash_append in Hy. discriminate Hy.
  - rewrite !append_cons_l. intros [= _ E]. exact (IH b E).
Qed.

(** The index of a key is what follows its last dash. *)
Lemma key_index_inj (a b x y : string) :
  Grid.has_dash x = false -> Grid.has_dash y = false ->
  a +:+ "-" +:+ x = b +:+ "-" +:+ y -> x = y.
Proof. exact (dash_suffix_inj a b x y). Qed.

Lemma emptyCells_length {R} (n : Z) :
  List.length (@Grid.emptyCells R n) = Z.to_nat n.
Proof. unfold Grid.emptyCells. rewrite length_fmap. apply length_seq. Qed.

Lemma firstDay_range {R} (days : list (Grid.CalendarDay R)) :
  0 <= Grid.firstDay days <= 6.
Proof. destruct days as [|d l]; cbn [Grid.firstDay]; [lia|apply getDay_range]. Qed.

(** X17. The layout of the grid. No day gives no cell at all. Otherwise
    the cells are as many empty cells as the weekday number of the first
    day (0 to 6), then one cell per day, in order. When the days are
    consecutive, each day's cell stands in the column of its own weekday,
    Sunday in column 0. *)
Theorem CalendarGrid_weekday_columns :
  forall (R : Type) (days : list (Grid.CalendarDay R)) (first : Grid.CalendarDay R),
    head days = Some first ->
    (forall i day, days !! i = Some day ->
       JsDate.dayNumber (Grid.day_date day)
       = JsDate.dayNumber (Grid.day_date first) + Z.of_nat i) ->
    0 <= Grid.firstDay days <= 6
    /\ List.length (Grid.CalendarGrid days)
       = (Z.to_nat (Grid.firstDay days) + List.length days)%nat
    /\ (forall i, (i < Z.to_nat (Grid.firstDay days))%nat ->
          exists key, Grid.CalendarGrid days !! i = Some (Grid.EmptyCell key))
    /\ (forall i day, days !! i = Some day ->
          let position := (Z.to_nat (Grid.firstDay days) + i)%nat in
          (exists key,
             Grid.CalendarGrid days !! position = Some (Grid.DayCell key day))
          /\ Grid.column position = JsDate.getDay (Grid.day_date day))
    /\ Grid.CalendarGrid (@nil (Grid.CalendarDay R)) = [].
Proof.
  intros R days first Hfirst Hcons.
  pose proof (firstDay_range days) as Hfd.
  split; [exact Hfd|]. split; [|split; [|split]].
  - unfold Grid.CalendarGrid. rewrite length_app, emptyCells_length.
    unfold Grid.dayCells. rewrite length_imap. reflexivity.
  - intros i Hi. unfold Grid.CalendarGrid.
    rewrite lookup_app_l by (rewrite emptyCells_length; exact Hi).
    unfold Grid.emptyCells. rewrite list_lookup_fmap, lookup_seq_lt by exact Hi.
    eexists. reflexivity.
  - intros i day Hday position. split.
    + unfold Grid.CalendarGrid, position.
      rewrite lookup_app_r by (rewrite emptyCells_length; lia).
      rewrite emptyCells_length.
      replace (Z.to_nat (Grid.firstDay days) + i - Z.to_nat (Grid.firstDay days))%nat
        with i by lia.
      unfold Grid.dayCells. rewrite list_lookup_imap, Hday.
      eexists. reflexivity.
    + unfold Grid.column, position.
      rewrite Nat2Z.inj_add, Z2Nat.id by lia.
      destruct days as [|d0 rest]; [discriminate Hfirst|].
      injection Hfirst as ->. cbn [Grid.firstDay].
      unfold JsDate.getDay. rewrite (Hcons i day Hday).
      rewrite Z.add_mod_idemp_l by lia. f_equal. lia.
  - reflexivity.
Qed.

Lemma CalendarGrid_weekday_columns_witness :
  Grid.column (Z.to_nat (Grid.firstDay
                 [Grid.mkCalendarDay (JsDate.midnight 19783) "2024-03-01" tt;
                  Grid.mkCalendarDay (JsDate.midnight 19784) "2024-03-02" tt]) + 1)
  = JsDate.getDay (JsDate.midnight 19784).
Proof.
  refine (proj2 (proj1 (proj2 (proj2 (proj2
    (CalendarGrid_weekday_columns unit
       [Grid.mkCalendarDay (JsDate.midnight 19783) "2024-03-01" tt;
        Grid.mkCalendarDay (JsDate.midnight 19784) "2024-03-02" tt]
       (Grid.mkCalendarDay (JsDate.midnight 19783) "2024-03-01" tt)
       eq_refl _)))) 1%nat
    (Grid.mkCalendarDay (JsDate.midnight 19784) "2024-03-02" tt) eq_refl)).
  intros [|[|i]] day Hday; try discriminate Hday;
    injection Hday as <-; vm_compute; reflexivity.
Defined.

(** X18. The keys of the cells. Within the empty cells, and within the
    day cells, no key occurs twice, whatever the date strings are: two
    days with the same date string still get different keys, by their
    index. *)
Theorem CalendarGrid_keys_distinct :
  forall (R : Type) (days : list (Grid.CalendarDay R)) (n : Z),
    NoDup (Grid.cellKey <$> Grid.dayCells days)
    /\ NoDup (Grid.cellKey <$> @Grid.emptyCells R n)
    /\ (forall i day, days !! i = Some day ->
          (Grid.cellKey <$> Grid.dayCells days) !! i
          = Some (Grid.dateString day +:+ "-" +:+ Grid.showIndex i)).
Proof.
  intros R days n.
  assert (Hkey : forall i day, days !! i = Some day ->
            (Grid.cellKey <$> Grid.dayCells days) !! i
            = Some (Grid.dateString day +:+ "-" +:+ Grid.showIndex i)).
  { intros i day Hday. unfold Grid.dayCells.
    rewrite list_lookup_fmap, list_lookup_imap, Hday. reflexivity. }
  split; [|split; [|exact Hkey]].
  - apply NoDup_alt. intros i j k Hi Hj.
    destruct (days !! i) as [di|] eqn:Hdi.
    2:{ unfold Grid.dayCells in Hi.
        rewrite list_lookup_fmap, list_lookup_imap, Hdi in Hi. discriminate Hi. }
    destruct (days !! j) as [dj|] eqn:Hdj.
    2:{ unfold Grid.dayCells in Hj.
        rewrite list_lookup_fmap, list_lookup_imap, Hdj in Hj. discriminate Hj. }
    rewrite (Hkey i di Hdi) in Hi. rewrite (Hkey j dj Hdj) in Hj.
    injection Hi as <-. injection Hj as Hj.
    apply showIndex_inj. symmetry.
    exact (key_index_inj _ _ _ _ (showIndex_no_dash j) (showIndex_no_dash i) Hj).
  - unfold Grid.emptyCells. rewrite <- list_fmap_compose.
    apply NoDup_fmap_2_strong; [|apply NoDup_seq].
    intros i j _ _ E. cbn in E.
    apply showIndex_inj.
    exact (key_index_inj "empty" "empty" _ _
             (showIndex_no_dash i) (showIndex_no_dash j) E).
Qed.

(** ** From the rows to the status of a day *)

Lemma resolveDayStatus_booked (shown : list Booking) (b : Booking)
    (availability : option Availability) :
  b ∈ shown -> bookedLike b ->
  resolveDayStatus false shown availability = Booked.
Proof.
  intros Hin Hb. unfold resolveDayStatus.
  assert (existsb isBookedStatus shown = true) as ->; [|reflexivity].
  apply existsb_exists. exists b. split; [apply list_elem_of_In, Hin|].
  unfold isBookedStatus. destruct Hb as [-> | ->]; reflexivity.
Qed.

Lemma resolveDayStatus_tentative (shown : list Booking) (b : Booking)
    (availability : option Availability) :
  b ∈ shown -> tentativeLike b ->
  resolveDayStatus false shown availability = Booked
  \/ resolveDayStatus false shown availability = Tentative.
Proof.
  intros Hin Hb. unfold resolveDayStatus.
  destruct (existsb isBookedStatus shown); [left; reflexivity|right].
  assert (existsb isTentativeStatus shown = true) as ->; [|reflexivity].
  apply existsb_exists. exists b. split; [apply list_elem_of_In, Hin|].
  unfold isTentativeStatus. destruct Hb as [-> | ->]; reflexivity.
Qed.

Lemma unconfirmed_reaches_calendar (allBookings : list ApiBooking)
    (allEvents : list Event) (startStr endStr : string) (b : ApiBooking) :
  b ∈ allBookings ->
  startInRange startStr endStr (normalizeBooking b) = true ->
  JsString.toLowerCase (raw_status b) <> "confirmed" ->
  normalizeBooking b
    ∈ allCalendarBookings
        (List.filter (startInRange startStr endStr)
           (map normalizeBooking allBookings))
        (eventBookings allEvents).
Proof.
  intros Hb Hrange Hst. unfold allCalendarBookings. apply elem_of_app. left.
  rewrite deduplicatedBookings_spec.
  apply list_elem_of_In, filter_In. split.
  - apply filter_In. split; [|exact Hrange].
    apply in_map, list_elem_of_In, Hb.
  - apply bool_decide_eq_true. intros [Hc _]. apply Hst.
    unfold isConfirmed in Hc. cbn [status normalizeBooking] in Hc.
    rewrite toLowerCase_idem in Hc. exact Hc.
Qed.

(** X19. From the rows to the status of a day. The status of a row
    counts whatever its letter case, since step 1 puts it in lower case.
    On a day that is not blocked and on which the matcher shows a raw
    booking whose start date lies in the displayed range: the day is
    booked when the row's status is [booked] in any letter case, and
    booked or tentative when it is [approved] or [tentative] in any letter
    case. On the start date of an event that does not end before it
    starts the day is booked, whether or not that date lies in the
    displayed range. *)
Theorem day_status_from_rows :
  forall (allBookings : list ApiBooking) (allEvents : list Event)
         (startStr endStr day : string) (out shown : list Booking)
         (availability : option Availability),
    calendarBookings allBookings allEvents startStr endStr = Ok out ->
    getBookingsForDate out day = Ok shown ->
    (forall b, b ∈ allBookings ->
       startInRange startStr endStr (normalizeBooking b) = true ->
       overlapsDate day (normalizeBooking b) = true ->
       (JsString.toLowerCase (raw_status b) = "booked" ->
        resolveDayStatus false shown availability = Booked)
       /\ (JsString.toLowerCase (raw_status b) = "approved"
           \/ JsString.toLowerCase (raw_status b) = "tentative" ->
           resolveDayStatus false shown availability = Booked
           \/ resolveDayStatus false shown availability = Tentative))
    /\ (forall ev, ev ∈ allEvents ->
          normalizeDate (eventDate ev) = Some day ->
          endsNotBefore day (eventToBooking ev) ->
          resolveDayStatus false shown availability = Booked).
Proof.
  intros allBookings allEvents startStr endStr day out shown av Hrun Hshown.
  destruct (calendarBookings_cases allBookings allEvents startStr endStr)
    as [[_ Hr]|[_ Hr]]; rewrite Hr in Hrun; [discriminate|].
  injection Hrun as <-.
  apply getBookingsForDate_Ok_filter in Hshown. subst shown.
  split.
  - intros b Hb Hrange Hday.
    assert (Hin : JsString.toLowerCase (raw_status b) <> "confirmed" ->
              normalizeBooking b
                ∈ List.filter (overlapsDate day)
                    (allCalendarBookings
                       (List.filter (startInRange startStr endStr)
                          (map normalizeBooking allBookings))
                       (eventBookings allEvents))).
    { intros Hst. apply list_elem_of_In, filter_In. split; [|exact Hday].
      apply list_elem_of_In.
      apply unconfirmed_reaches_calendar; assumption. }
    split.
    + intros Hst. apply (resolveDayStatus_booked _ (normalizeBooking b)).
      * apply Hin. rewrite Hst. discriminate.
      * left. exact Hst.
    + intros Hst. apply (resolveDayStatus_tentative _ (normalizeBooking b)).
      * apply Hin. destruct Hst as [-> | ->]; discriminate.
      * exact Hst.
  - intros ev Hev He Hend.
    apply (resolveDayStatus_booked _ (eventToBooking ev)); [|left; reflexivity].
    apply list_elem_of_In, filter_In. split.
    + apply list_elem_of_In. unfold allCalendarBookings. apply elem_of_app. right.
      apply list_elem_of_In, in_map, list_elem_of_In, Hev.
    + assert (Hday : JsDate.canonical day = true)
        by exact (normalizeDate_canonical _ _ He).
      unfold overlapsDate, startOf, endOf, endsNotBefore in *.
      cbn [requested_date end_date eventToBooking] in *. rewrite He. cbn.
      rewrite (canonical_splitT0 day Hday).
      destruct (normalizeDate (endDate ev)) as [e|] eqn:Ee; cbn.
      * pose proof (normalizeDate_canonical _ _ Ee) as Hce.
        rewrite (canonical_splitT0 e Hce).
        assert (JsString.truthy e = true) as ->.
        { apply canonical_shape in Hce as (? & ? & ? & ? & ? & ? & ? & ? & -> & _).
          reflexivity. }
        rewrite Hend. apply andb_true_iff. split; [|reflexivity].
        apply leb_spec_lt. left. reflexivity.
      * apply String.eqb_refl.
Qed.

Lemma day_status_from_rows_witness :
  resolveDayStatus false
    [normalizeBooking (sampleApiBooking (RawString "2024-01-10T08:00:00") None "Approved")]
    None = Booked
  \/ resolveDayStatus false
       [normalizeBooking (sampleApiBooking (RawString "2024-01-10T08:00:00") None "Approved")]
       None = Tentative.
Proof.
  refine (proj2 (proj1 (day_status_from_rows
            [sampleApiBooking (RawString "2024-01-10T08:00:00") None "Approved"]
            [] "2024-01-01" "2024-01-31" "2024-01-10" _ _ None _ _)
            (sampleApiBooking (RawString "2024-01-10T08:00:00") None "Approved")
            _ _ _) _).
  - vm_compute. reflexivity.
  - vm_compute. reflexivity.
  - apply list_elem_of_here.
  - vm_compute. reflexivity.
  - vm_compute. reflexivity.
  - left. vm_compute. reflexivity.
Defined.

(** ** The deduplication and the list of events *)

Lemma suppressed_identifiers (eb eb' : list Booking) (b : Booking) :
  (forall i, i ∈ (identifier <$> eb) -> i ∈ (identifier <$> eb')) ->
  suppressed eb b -> suppressed eb' b.
Proof.
  intros Hsub [Hc Hex]. split; [exact Hc|].
  apply Exists_exists in Hex as (e & He & Hid).
  assert (Hin : identifier b ∈ (identifier <$> eb)).
  { apply list_elem_of_fmap. exists e. split; [symmetry; exact Hid|exact He]. }
  apply Hsub, list_elem_of_fmap in Hin as (e' & Hid' & He').
  apply Exists_exists. exists e'. split; [exact He'|].
  symmetry. exact Hid'.
Qed.

Lemma filter_sublist_impl {A} (f g : A -> bool) (l : list A) :
  (forall x, f x = true -> g x = true) ->
  sublist (List.filter f l) (List.filter g l).
Proof.
  intros Himp. induction l as [|x l IH]; cbn [List.filter]; [constructor|].
  destruct (f x) eqn:Ef.
  - rewrite (Himp x Ef). apply sublist_skip, IH.
  - destruct (g x); [apply sublist_cons, IH|exact IH].
Qed.

(** X20. The event-derived bookings matter to the deduplication only
    through the set of their identifiers: two lists of them with the same
    identifiers keep the same raw bookings, so the order of the events and
    repetitions among them change nothing. *)
Theorem deduplication_events_as_set :
  forall (filtered eb eb' : list Booking),
    (forall i, i ∈ (identifier <$> eb) <-> i ∈ (identifier <$> eb')) ->
    deduplicatedBookings filtered eb = deduplicatedBookings filtered eb'.
Proof.
  intros filtered eb eb' Hsame. rewrite !deduplicatedBookings_spec.
  apply filter_ext. intros b. apply bool_decide_ext.
  split; intros Hn Hs; apply Hn;
    (eapply suppressed_identifiers; [|exact Hs]); intros i; apply Hsame.
Qed.

Lemma deduplication_events_as_set_witness :
  deduplicatedBookings [sampleStored "b1" "2024-01-10" "confirmed"]
    [sampleStored "e1" "2024-01-10" "booked"; sampleStored "e2" "2024-01-12" "booked"]
  = deduplicatedBookings [sampleStored "b1" "2024-01-10" "confirmed"]
      [sampleStored "e2" "2024-01-12" "booked"; sampleStored "e1" "2024-01-10" "booked";
       sampleStored "e2" "2024-01-12" "booked"].
Proof.
  apply deduplication_events_as_set. intros i. cbn [fmap list_fmap].
  set_unfold. tauto.
Defined.

(** X21. Edges of the deduplication. Without events every filtered
    booking is kept; without bookings nothing is. Each booking is decided
    on its own, so the deduplication of two lists joined is the two
    deduplications joined, and deduplicating the result again changes
    nothing. Further events can only remove bookings. *)
Theorem deduplication_edges :
  forall (filtered filtered' eb eb' : list Booking),
    deduplicatedBookings filtered [] = filtered
    /\ deduplicatedBookings [] eb = []
    /\ deduplicatedBookings (filtered ++ filtered') eb
       = (deduplicatedBookings filtered eb ++ deduplicatedBookings filtered' eb)%list
    /\ deduplicatedBookings (deduplicatedBookings filtered eb) eb
       = deduplicatedBookings filtered eb
    /\ sublist (deduplicatedBookings filtered (eb ++ eb'))
         (deduplicatedBookings filtered eb)
    /\ allCalendarBookings filtered [] = filtered.
Proof.
  intros filtered filtered' eb eb'.
  assert (Hnone : deduplicatedBookings filtered [] = filtered).
  { rewrite deduplicatedBookings_spec.
    induction filtered as [|b l IH]; [reflexivity|]. cbn [List.filter].
    rewrite bool_decide_eq_true_2.
    - rewrite IH. reflexivity.
    - intros [_ H]. apply Exists_nil in H. exact H. }
  split; [exact Hnone|]. split; [reflexivity|].
  split; [|split; [|split; [|unfold allCalendarBookings; rewrite Hnone;
                             apply app_nil_r]]].
  - unfold deduplicatedBookings. apply List.filter_app.
  - unfold deduplicatedBookings. clear Hnone.
    induction filtered as [|b l IH]; [reflexivity|]. cbn [List.filter].
    destruct (keepBooking (eventIdentifiers eb) b) eqn:E; [|exact IH].
    cbn [List.filter]. rewrite E, IH. reflexivity.
  - rewrite !deduplicatedBookings_spec. apply filter_sublist_impl.
    intros b Hb. apply bool_decide_eq_true in Hb. apply bool_decide_eq_true.
    intros Hs. apply Hb. eapply suppressed_identifiers; [|exact Hs].
    intros i. rewrite fmap_app, elem_of_app. tauto.
Qed.

(** ** Step 1 on the heap *)

Lemma decodeRow_inv (h : heap) (v : val) (b : ApiBooking) :
  decodeRow h v = Some b ->
  exists l o, v = VRef l /\ h !! l = Some (CObj o)
    /\ get o "id" = VStr (raw_id b)
    /\ get o "course_id" = VStr (raw_course_id b)
    /\ get o "trainer_id" = VStr (raw_trainer_id b)
    /\ get o "status" = VStr (raw_status b)
    /\ decodeCourses h (get o "courses") = Some (raw_courses b)
    /\ toRaw (get o "requested_date") = raw_requested_date b
    /\ toOption (get o "end_date") = raw_end_date b
    /\ toOption (get o "request_type") = raw_request_type b.
Proof.
  unfold decodeRow. destruct v as [| |s|l]; try discriminate.
  destruct (h !! l) as [[o| |]|] eqn:Hl; try discriminate.
  destruct (get o "id") as [| |i|] eqn:Hi; try discriminate.
  destruct (get o "course_id") as [| |c|] eqn:Hc; try discriminate.
  destruct (get o "trainer_id") as [| |t|] eqn:Ht; try discriminate.
  destruct (get o "status") as [| |st|] eqn:Hst; try discriminate.
  destruct (decodeCourses h (get o "courses")) as [cs|] eqn:Hcs; try discriminate.
  intros [= <-]. exists l, o. cbn. repeat split; first [assumption|reflexivity].
Qed.

Lemma decodeRow_frame (h h2 : heap) (v : val) (b : ApiBooking) :
  (forall k, k ∈ dom h -> h2 !! k = h !! k) ->
  decodeRow h v = Some b -> decodeRow h2 v = Some b.
Proof.
  intros Hframe. unfold decodeRow. destruct v as [| |s|l]; try trivial.
  destruct (h !! l) as [c|] eqn:Hl; [|discriminate].
  rewrite (Hframe l (lookup_allocated Hl)), Hl.
  destruct c as [o| |]; try discriminate.
  destruct (get o "id"); try discriminate.
  destruct (get o "course_id"); try discriminate.
  destruct (get o "trainer_id"); try discriminate.
  destruct (get o "status"); try discriminate.
  destruct (decodeCourses h (get o "courses")) as [cs|] eqn:Hcs; [|discriminate].
  rewrite (decodeCourses_frame h h2 _ cs Hframe Hcs). trivial.
Qed.

Lemma get_insert_eq (o : gmap string val) (k : string) (v : val) :
  get (<[k := v]> o) k = v.
Proof. unfold get. rewrite lookup_insert_eq. reflexivity. Qed.

Lemma get_insert_ne (o : gmap string val) (k k' : string) (v : val) :
  k <> k' -> get (<[k := v]> o) k' = get o k'.
Proof. intros Hne. unfold get. rewrite lookup_insert_ne by exact Hne. reflexivity. Qed.

(** One run of the [map] callback of step 1. *)
Lemma normalizeBookingH_run (h : heap) (v : val) (b : ApiBooking) :
  decodeRow h v = Some b ->
  exists (l : loc) (h' : heap),
    normalizeBookingH v h = Ok (VRef l, h')
    /\ decodeBooking h' (VRef l) = Some (normalizeBooking b)
    /\ (forall k, k ∈ dom h -> h' !! k = h !! k)
    /\ spreadOf h h' [v] (VRef l).
Proof.
  intros Hv.
  destruct (decodeRow_inv h v b Hv)
    as (lr & o & -> & Hl & Hid & Hc & Ht & Hst & Hcs & Hrd & Hed & Hrt).
  set (o' := <["status" := VStr (JsString.toLowerCase (raw_status b))]>
               (<["requested_date" := normalizeDateV (get o "requested_date")]> o)).
  set (l := fresh (dom h)).
  assert (Hfresh : l ∉ dom h) by apply is_fresh.
  pose proof (frame_insert_fresh h l (CObj o') Hfresh) as Hframe.
  exists l, (<[l := CObj o']> h).
  split; [|split; [|split; [exact Hframe|]]].
  - unfold normalizeBookingH, deref, asString. run_heap.
    rewrite Hl, Hst, alloc_run. reflexivity.
  - unfold decodeBooking. rewrite lookup_insert_eq. unfold o'.
    repeat first [rewrite get_insert_eq|rewrite get_insert_ne by discriminate].
    rewrite Hid, Hc, Ht. unfold normalizeDateV.
    rewrite decodeDate_ofOption.
    pose proof (decodeCourses_frame h _ _ _ Hframe Hcs) as Hcs'.
    unfold o', normalizeDateV in Hcs'. rewrite Hcs', Hrd, Hed, Hrt.
    reflexivity.
  - exists l, o', lr, o. split; [reflexivity|]. split; [exact Hfresh|].
    split; [apply lookup_insert_eq|]. split; [apply list_elem_of_here|].
    split; [exact Hl|]. intros k H1 H2. unfold o'.
    rewrite !lookup_insert_ne by congruence. reflexivity.
Qed.

Lemma spreadOf_weaken (h h1 h2 : heap) (rows : list val) (v0 v : val)
    (bs : list ApiBooking) :
  (forall k, k ∈ dom h -> h1 !! k = h !! k) ->
  (forall k, k ∈ dom h1 -> h2 !! k = h1 !! k) ->
  Forall2 (fun v b => decodeRow h v = Some b) rows bs ->
  spreadOf h1 h2 rows v -> spreadOf h h2 (v0 :: rows) v.
Proof.
  intros H1 H2 Hrows (l & o & lr & orow & -> & Hl & Ho & Hin & Hrow & Hsame).
  exists l, o, lr, orow. split; [reflexivity|].
  split; [intros Hd; apply Hl, (frame_dom h h1 H1), Hd|].
  split; [exact Ho|]. split; [apply list_elem_of_further, Hin|].
  split; [|exact Hsame].
  destruct (Forall2_elem_of_l _ _ _ _ Hrows Hin) as (b & Hb).
  destruct (decodeRow_inv h _ b Hb) as (lr' & o' & [= <-] & Hlr & _).
  rewrite <- (H1 lr (lookup_allocated Hlr)). exact Hrow.
Qed.

Lemma mapH_normalizeBookingH (vs : list val) (rows : list ApiBooking) :
  forall h : heap,
    Forall2 (fun v b => decodeRow h v = Some b) vs rows ->
    exists (bs : list val) (h' : heap),
      mapH normalizeBookingH vs h = Ok (bs, h')
      /\ Forall2 (fun v b => decodeBooking h' v = Some b) bs
           (map normalizeBooking rows)
      /\ (forall l, l ∈ dom h -> h' !! l = h !! l)
      /\ Forall (spreadOf h h' vs) bs.
Proof.
  revert rows. induction vs as [|v vs IH]; intros rows h Hdec.
  - apply Forall2_nil_inv_l in Hdec as ->. exists [], h.
    repeat split; try constructor.
  - apply Forall2_cons_inv_l in Hdec as (b & rows' & Hv & Hrest & ->).
    destruct (normalizeBookingH_run h v b Hv) as (l & h1 & Hrun & Hb & Hframe & Hsp).
    assert (Hrest1 : Forall2 (fun v b => decodeRow h1 v = Some b) vs rows').
    { eapply Forall2_impl; [exact Hrest|]. intros v' b'.
      apply decodeRow_frame, Hframe. }
    destruct (IH rows' h1 Hrest1) as (bs & h2 & Hmap & Hbs & Hframe2 & Hnew).
    exists (VRef l :: bs), h2. split; [|split; [|split]].
    + cbn [mapH]. run_heap. rewrite Hrun, Hmap. reflexivity.
    + cbn [map]. constructor; [|exact Hbs].
      eapply decodeBooking_frame; [exact Hframe2|exact Hb].
    + apply (frame_trans h h1 h2); assumption.
    + constructor.
      * destruct Hsp as (l' & o & lr & orow & [= <-] & Hl & Ho & Hin & Hrow & Hsame).
        exists l, o, lr, orow. split; [reflexivity|]. split; [exact Hl|].
        split; [rewrite (Hframe2 l (lookup_allocated Ho)); exact Ho|].
        split; [|split; [exact Hrow|exact Hsame]].
        apply list_elem_of_singleton in Hin as ->. apply list_elem_of_here.
      * eapply Forall_impl; [exact Hnew|]. intros v'.
        apply (spreadOf_weaken h h1 h2 vs v v' rows'); assumption.
Qed.

Lemma decodeBooking_date_inv (h : heap) (v : val) (b : Booking) :
  decodeBooking h v = Some b ->
  exists l o, v = VRef l /\ h !! l = Some (CObj o)
    /\ decodeDate (get o "requested_date") = Some (requested_date b).
Proof.
  unfold decodeBooking. destruct v as [| |s|l]; try discriminate.
  destruct (h !! l) as [[o| |]|] eqn:Hl; try discriminate.
  destruct (get o "id") as [| |i|] eqn:Hi; try discriminate.
  destruct (get o "course_id") as [| |c|] eqn:Hc; try discriminate.
  destruct (get o "trainer_id") as [| |t|] eqn:Ht; try discriminate.
  destruct (decodeDate (get o "requested_date")) as [rd|] eqn:Hrd; try discriminate.
  destruct (get o "status") as [| |st|] eqn:Hst; try discriminate.
  destruct (decodeCourses h (get o "courses")) as [cs|] eqn:Hcs; try discriminate.
  intros [= <-]. exists l, o. auto.
Qed.

Lemma inRangeH_run (h : heap) (startStr endStr : string) (v : val) (b : Booking) :
  decodeBooking h v = Some b ->
  inRangeH startStr endStr v h
  = match inRange startStr endStr b with
    | Ok keep => Ok (keep, h)
    | TypeError => TypeError
    end.
Proof.
  intros Hv. destruct (decodeBooking_date_inv h v b Hv) as (l & o & -> & Hl & Hrd).
  unfold inRangeH, inRange, deref, asString. run_heap. rewrite Hl.
  destruct (get o "requested_date") as [| |s|k]; cbn [decodeDate] in Hrd;
    try discriminate Hrd; injection Hrd as <-; reflexivity.
Qed.

Lemma filterM_inRangeH (h : heap) (startStr endStr : string) (vs : list val)
    (bs : list Booking) :
  Forall2 (fun v b => decodeBooking h v = Some b) vs bs ->
  match filterR (inRange startStr endStr) bs with
  | Ok kept =>
      exists kv, filterM (inRangeH startStr endStr) vs h = Ok (kv, h)
        /\ Forall2 (fun v b => decodeBooking h v = Some b) kv kept
        /\ sublist kv vs
  | TypeError => filterM (inRangeH startStr endStr) vs h = TypeError
  end.
Proof.
  induction 1 as [|v b vs bs Hv _ IH]; cbn [filterR filterM].
  - exists []. repeat split; constructor.
  - run_heap. rewrite (inRangeH_run h startStr endStr v b Hv).
    destruct (inRange startStr endStr b) as [keep|]; cbn [rbind]; [|reflexivity].
    destruct (filterR (inRange startStr endStr) bs) as [kept|]; cbn [rbind].
    + destruct IH as (kv & -> & Hkv & Hsub). destruct keep.
      * exists (v :: kv). split; [reflexivity|].
        split; [constructor; assumption|apply sublist_skip, Hsub].
      * exists kv. split; [reflexivity|].
        split; [exact Hkv|apply sublist_cons, Hsub].
    + rewrite IH. reflexivity.
Qed.

Lemma decodeRows_inv (h : heap) (l : loc) (rows : list ApiBooking) :
  decodeRows h l = Some rows ->
  exists vs, h !! l = Some (CArr vs)
    /\ Forall2 (fun v b => decodeRow h v = Some b) vs rows.
Proof.
  unfold decodeRows. destruct (h !! l) as [[|vs|]|]; try discriminate.
  intros H. exists vs. split; [reflexivity|]. apply mapM_Some, H.
Qed.

Lemma decodeRows_frame (h h2 : heap) (l : loc) (rows : list ApiBooking) :
  (forall k, k ∈ dom h -> h2 !! k = h !! k) ->
  decodeRows h l = Some rows -> decodeRows h2 l = Some rows.
Proof.
  intros Hframe H. destruct (decodeRows_inv h l rows H) as (vs & Hl & Hvs).
  unfold decodeRows. rewrite (Hframe l (lookup_allocated Hl)), Hl.
  apply mapM_Some. eapply Forall2_impl; [exact Hvs|].
  intros v b. apply decodeRow_frame, Hframe.
Qed.

(** One run of step 1, cell by cell. *)
Lemma filteredBookingsH_run (h : heap) (la : loc) (vs : list val)
    (rows : list ApiBooking) (startStr endStr : string) :
  h !! la = Some (CArr vs) ->
  Forall2 (fun v b => decodeRow h v = Some b) vs rows ->
  match filteredBookings rows startStr endStr with
  | Ok kept =>
      exists (out : loc) (kv : list val) (h' : heap),
        filteredBookingsH la startStr endStr h = Ok (out, h')
        /\ h' !! out = Some (CArr kv)
        /\ Forall2 (fun v b => decodeBooking h' v = Some b) kv kept
        /\ (out ∉ dom h)
        /\ (forall l, l ∈ dom h -> h' !! l = h !! l)
        /\ Forall (spreadOf h h' vs) kv
  | TypeError => filteredBookingsH la startStr endStr h = TypeError
  end.
Proof.
  intros Hla Hvs.
  destruct (mapH_normalizeBookingH vs rows h Hvs)
    as (bs & h1 & Hmap & Hbs & Hframe1 & Hsp).
  set (lm := fresh (dom h1)).
  assert (Hlm : lm ∉ dom h1) by apply is_fresh.
  set (h2 := <[lm := CArr bs]> h1).
  pose proof (frame_insert_fresh h1 lm (CArr bs) Hlm) as Hframe2. fold h2 in Hframe2.
  pose proof (decodeAll_frame h1 h2 _ _ Hframe2 Hbs) as Hbs2.
  pose proof (filterM_inRangeH h2 startStr endStr bs _ Hbs2) as Hfilter.
  assert (Hprefix : forall k : list val -> M loc,
            filteredBookingsH la startStr endStr h
            = (kept ← filterM (inRangeH startStr endStr) bs; alloc (CArr kept)) h2).
  { intros _. unfold filteredBookingsH. run_heap.
    rewrite Hla, Hmap, alloc_run. fold lm. fold h2.
    assert (h2 !! lm = Some (CArr bs)) as -> by apply lookup_insert_eq.
    reflexivity. }
  specialize (Hprefix (fun _ => mret lm)). rewrite Hprefix. clear Hprefix.
  unfold filteredBookings.
  destruct (filterR (inRange startStr endStr) (map normalizeBooking rows))
    as [kept|].
  - destruct Hfilter as (kv & Hrun & Hkv & Hsub).
    set (out := fresh (dom h2)).
    assert (Hout : out ∉ dom h2) by apply is_fresh.
    pose proof (frame_insert_fresh h2 out (CArr kv) Hout) as Hframe3.
    assert (Hframe12 : forall l, l ∈ dom h -> h2 !! l = h !! l)
      by (apply (frame_trans h h1 h2); assumption).
    exists out, kv, (<[out := CArr kv]> h2).
    split; [|split; [|split; [|split; [|split]]]].
    + run_heap. rewrite Hrun, alloc_run. reflexivity.
    + apply lookup_insert_eq.
    + eapply decodeAll_frame; [exact Hframe3|exact Hkv].
    + intros Hin. apply Hout, (frame_dom h h2 Hframe12), Hin.
    + apply (frame_trans h h2); assumption.
    + apply Forall_forall. intros v Hv.
      pose proof (elem_of_sublist _ _ _ Hv Hsub) as Hin.
      destruct (proj1 (Forall_forall _ _) Hsp v Hin)
        as (l & o & lr & orow & -> & Hl & Ho & Hrow & Horow & Hsame).
      exists l, o, lr, orow. split; [reflexivity|]. split; [exact Hl|].
      split; [|auto].
      rewrite (Hframe3 l), (Hframe2 l); [exact Ho| |].
      * exact (lookup_allocated Ho).
      * apply (frame_dom h1 h2 Hframe2), (lookup_allocated Ho).
  - run_heap. rewrite Hfilter. reflexivity.
Qed.

(** X22. Step 1 on the heap computes what the lists say. For an array
    of row objects that read as the records [rows]: when the list-level
    filter throws, so does the heap-level one; when it returns [kept], the
    heap-level one returns a new array that reads as [kept]. Each of its
    elements is a new object, a shallow copy of a row: but for [status] and
    [requested_date] it has the row's properties, its nested [courses]
    object being the row's own. No cell that existed before is written,
    so the rows read as before. *)
Theorem filteredBookingsH_refines :
  forall (h : heap) (allBookings : loc) (rows : list ApiBooking)
         (startStr endStr : string),
    decodeRows h allBookings = Some rows ->
    (filteredBookings rows startStr endStr = TypeError ->
     filteredBookingsH allBookings startStr endStr h = TypeError)
    /\ (forall kept, filteredBookings rows startStr endStr = Ok kept ->
          exists (out : loc) (h' : heap) (vs kv : list val),
            filteredBookingsH allBookings startStr endStr h = Ok (out, h')
            /\ decodeBookings h' out = Some kept
            /\ (out ∉ dom h)
            /\ (forall l, l ∈ dom h -> h' !! l = h !! l)
            /\ decodeRows h' allBookings = Some rows
            /\ h !! allBookings = Some (CArr vs)
            /\ h' !! out = Some (CArr kv)
            /\ Forall (spreadOf h h' vs) kv).
Proof.
  intros h la rows startStr endStr Hrows.
  destruct (decodeRows_inv h la rows Hrows) as (vs & Hla & Hvs).
  pose proof (filteredBookingsH_run h la vs rows startStr endStr Hla Hvs) as Hrun.
  destruct (filteredBookings rows startStr endStr) as [kept0|].
  - split; [discriminate|]. intros kept [= <-].
    destruct Hrun as (out & kv & h' & Hrun & Hout & Hkv & Hfresh & Hframe & Hsp).
    exists out, h', vs, kv. split; [exact Hrun|].
    split; [eapply decodeBookings_intro; eassumption|].
    split; [exact Hfresh|]. split; [exact Hframe|].
    split; [eapply decodeRows_frame; eassumption|]. auto.
  - split; [intros _; exact Hrun|]. intros kept [=].
Qed.

Lemma filteredBookingsH_refines_witness :
  exists (out : loc) (h' : heap),
    filteredBookingsH 6%positive "2024-01-11" "2024-01-31" sampleHeap = Ok (out, h')
    /\ decodeBookings h' out = Some [sampleStored "b2" "2024-01-11" "approved"].
Proof.
  destruct (proj2 (filteredBookingsH_refines sampleHeap 6%positive
              [sampleRow "b1" "2024-01-10" "confirmed";
               sampleRow "b2" "2024-01-11" "approved"]
              "2024-01-11" "2024-01-31" ltac:(vm_compute; reflexivity))
             [sampleStored "b2" "2024-01-11" "approved"]
             ltac:(vm_compute; reflexivity))
    as (out & h' & _ & _ & Hrun & Hdec & _).
  exists out, h'. split; [exact Hrun|exact Hdec].
Defined.

(** ** Steps 1 to 4 on the heap *)

(** X23. Steps 1 to 4, run in sequence on the heap, compute what the
    list-level pipeline says. For an array of row objects that read as
    [rows] and an array of event objects that read as [evs]: when the
    list-level pipeline throws, so does the heap-level one; when it
    returns [out], the heap-level one returns a new array that reads as
    [out]. No cell that existed before is written: rows and events read
    as before. *)
Theorem calendarBookingsH_refines :
  forall (h : heap) (allBookings allEvents : loc) (rows : list ApiBooking)
         (evs : list Event) (startStr endStr : string),
    decodeRows h allBookings = Some rows ->
    decodeEvents h allEvents = Some evs ->
    (calendarBookings rows evs startStr endStr = TypeError ->
     calendarBookingsH allBookings allEvents startStr endStr h = TypeError)
    /\ (forall out, calendarBookings rows evs startStr endStr = Ok out ->
          exists (lo : loc) (h' : heap),
            calendarBookingsH allBookings allEvents startStr endStr h = Ok (lo, h')
            /\ decodeBookings h' lo = Some out
            /\ (lo ∉ dom h)
            /\ (forall l, l ∈ dom h -> h' !! l = h !! l)
            /\ decodeRows h' allBookings = Some rows
            /\ decodeEvents h' allEvents = Some evs).
Proof.
  intros h la le rows evs startStr endStr Hrows Hevs.
  destruct (decodeRows_inv h la rows Hrows) as (vs & Hla & Hvs).
  pose proof (filteredBookingsH_run h la vs rows startStr endStr Hla Hvs) as Hrun.
  unfold calendarBookings, calendarBookingsH.
  destruct (filteredBookings rows startStr endStr) as [kept|]; cbn [rbind].
  - split; [discriminate|]. intros out [= <-].
    destruct Hrun as (lf & kv & h1 & Hrun & Hlf & Hkv & _ & Hframe1 & _).
    pose proof (decodeBookings_intro h1 lf kv kept Hlf Hkv) as Hf1.
    pose proof (decodeEvents_frame h h1 le evs Hframe1 Hevs) as He1.
    destruct (calendarH_run h1 lf le kept evs Hf1 He1)
      as (lo & h2 & Hrun2 & Hdec & Hlo & Hframe2 & _ & He2).
    exists lo, h2. split; [|split; [exact Hdec|split; [|split; [|split]]]].
    + run_heap. rewrite Hrun. exact Hrun2.
    + intros Hin. apply Hlo, (frame_dom h h1 Hframe1), Hin.
    + apply (frame_trans h h1 h2); assumption.
    + eapply decodeRows_frame; [|exact Hrows].
      apply (frame_trans h h1 h2); assumption.
    + exact He2.
  - split; [|intros out [=]]. intros _. run_heap. rewrite Hrun. reflexivity.
Qed.

Lemma calendarBookingsH_refines_witness :
  exists (lo : loc) (h' : heap),
    calendarBookingsH 6%positive 8%positive "2024-01-01" "2024-01-31"
      sampleEventsHeap = Ok (lo, h')
    /\ decodeBookings h' lo
       = Some [sampleStored "b2" "2024-01-11" "approved";
               eventToBooking sampleEvent].
Proof.
  destruct (proj2 (calendarBookingsH_refines sampleEventsHeap 6%positive 8%positive
              [sampleRow "b1" "2024-01-10" "confirmed";
               sampleRow "b2" "2024-01-11" "approved"]
              [sampleEvent] "2024-01-01" "2024-01-31"
              ltac:(vm_compute; reflexivity) ltac:(vm_compute; reflexivity))
             [sampleStored "b2" "2024-01-11" "approved"; eventToBooking sampleEvent]
             ltac:(vm_compute; reflexivity))
    as (lo & h' & Hrun & Hdec & _).
  exists lo, h'. split; [exact Hrun|exact Hdec].
Defined.
